(** * fs-browser: the sandboxed filesystem HTTP gateway

    A shallow embedding of [plugin/fs-handlers.js] (path resolver, query
    parsing, the sixteen route handlers) and of the two dispatchers that
    mount the handler table: the [withfs] command-line server and the Vite
    dev-server middleware.

    JavaScript strings are modelled by [string], request bodies and
    [Buffer]s by [list byte], parsed JSON by the inductive type [JSON],
    a possibly [undefined] value by [option].  Exceptions are modelled by a
    sum type carrying the error's [message]; handlers run in a small
    state-and-error monad whose state holds the filesystem and the log of
    the primitives called on it. *)

From Stdlib Require Import String Ascii ZArith List DecimalString DecimalZ.
From Stdlib.Strings Require Import Byte.
From stdpp Require Import base option strings list gmap.

Local Open Scope string_scope.
Local Open Scope list_scope.

(** ** JavaScript strings *)

Module JsString.

(** [s.startsWith(p)] *)
Fixpoint startsWith (s p : string) {struct p} : bool :=
  match p, s with
  | EmptyString, _ => true
  | String b p', String a s' => Ascii.eqb a b && startsWith s' p'
  | String _ _, EmptyString => false
  end.

(** [s.slice(1)] *)
Definition slice1 (s : string) : string :=
  match s with
  | EmptyString => EmptyString
  | String _ r => r
  end.

(** [s.substring(n)] for [n >= 0]. *)
Fixpoint substring_from (n : nat) (s : string) : string :=
  match n, s with
  | O, _ => s
  | S n', String _ r => substring_from n' r
  | S _, EmptyString => EmptyString
  end.

(** [s.split(c)] for a one-character separator: never the empty list. *)
Fixpoint split (c : ascii) (s : string) : list string :=
  match s with
  | EmptyString => [EmptyString]
  | String a r =>
      if Ascii.eqb a c then EmptyString :: split c r
      else match split c r with
           | h :: t => String a h :: t
           | [] => [String a EmptyString]
           end
  end.

(** [l.join(sep)] *)
Definition join (sep : string) (l : list string) : string :=
  String.concat sep l.

(** [s.includes(p)] *)
Fixpoint includes (s p : string) : bool :=
  startsWith s p ||
  match s with
  | EmptyString => false
  | String _ r => includes r p
  end.

End JsString.

Import JsString.

(** ** Values and errors *)

(** A value produced by [JSON.parse], also used for the objects handed to
    [JSON.stringify] in responses.  Object members keep their order; a
    number is modelled by an integer. *)
#[warnings="-register-all"]
Inductive JSON : Type :=
| JNull
| JBool (b : bool)
| JNum (n : Z)
| JStr (s : string)
| JArr (l : list JSON)
| JObj (members : list (string * JSON)).

(** A thrown JavaScript error, identified by its [message]. *)
Definition Error : Type := string.

(** The result of code that may throw. *)
Definition Exc (A : Type) : Type := Error + A.

Definition throw {A} (e : Error) : Exc A := inl e.
Definition ok {A} (a : A) : Exc A := inr a.

(** A [Buffer]. *)
Abbreviation Buffer := (list byte).

(** ** Node's POSIX [path.resolve] *)

Module Path.

Definition sep : ascii := "/"%char.

(** One step of [normalizeString] at a separator: [res] is the stack of
    segments kept so far, last segment first, and [seg] the segment just
    read.  Empty segments and [.] are dropped; [..] removes the last
    segment, unless there is none or it is itself [..], in which case
    [..] is kept only when [allowAboveRoot]. *)
Definition norm_step (allowAboveRoot : bool)
    (res : list string) (seg : string) : list string :=
  if String.eqb seg "" then res
  else if String.eqb seg "." then res
  else if String.eqb seg ".." then
    match res with
    | last :: rest =>
        if String.eqb last ".." then
          (if allowAboveRoot then ".." :: res else res)
        else rest
    | [] => if allowAboveRoot then [".."] else []
    end
  else seg :: res.

Definition normalize_segments (allowAboveRoot : bool)
    (segs : list string) : list string :=
  rev (fold_left (norm_step allowAboveRoot) segs []).

(** [normalizeString(path, allowAboveRoot, '/', isPosixPathSeparator)] *)
Definition normalizeString (path : string) (allowAboveRoot : bool) : string :=
  join "/" (normalize_segments allowAboveRoot (split sep path)).

(** The loop of [resolve]: arguments are visited from the last one to the
    first one, then the working directory, until an absolute one is met;
    empty arguments are skipped. *)
Fixpoint resolve_loop (paths : list string) (resolvedPath : string)
    : string * bool :=
  match paths with
  | [] => (resolvedPath, false)
  | path :: rest =>
      if String.eqb path "" then resolve_loop rest resolvedPath
      else
        let resolvedPath := path +:+ "/" +:+ resolvedPath in
        if startsWith path "/" then (resolvedPath, true)
        else resolve_loop rest resolvedPath
  end.

(** [path.resolve(...args)] in a process whose working directory is
    [cwd]. *)
Definition resolve (cwd : string) (args : list string) : string :=
  let '(resolvedPath, resolvedAbsolute) :=
    resolve_loop (rev args ++ [cwd]) "" in
  let resolvedPath := normalizeString resolvedPath (negb resolvedAbsolute) in
  if resolvedAbsolute then "/" +:+ resolvedPath
  else if String.eqb resolvedPath "" then "." else resolvedPath.

End Path.

(** ** [createPathResolver] *)

Definition outside_base : Error := "Invalid path: outside base directory".

(** The [TypeError] raised by [filePath.startsWith] when [filePath] is not a
    string. *)
Definition startsWith_TypeError (v : option JSON) : Error :=
  match v with
  | None => "Cannot read properties of undefined (reading 'startsWith')"
  | Some JNull => "Cannot read properties of null (reading 'startsWith')"
  | Some _ => "filePath.startsWith is not a function"
  end.

Definition createPathResolver (cwd baseDir : string)
    (filePath : option JSON) : Exc string :=
  match filePath with
  | Some (JStr filePath) =>
      let normalizedPath :=
        if startsWith filePath "/" then slice1 filePath else filePath in
      let resolved := Path.resolve cwd [baseDir; normalizedPath] in
      if negb (startsWith resolved baseDir) then throw outside_base
      else ok resolved
  | v => throw (startsWith_TypeError v)
  end.

(** ** Truthiness, property access and destructuring *)

(** [!!v] *)
Definition truthy (v : option JSON) : bool :=
  match v with
  | None | Some JNull => false
  | Some (JBool b) => b
  | Some (JNum n) => negb (n =? 0)%Z
  | Some (JStr s) => negb (String.eqb s "")
  | Some (JArr _) | Some (JObj _) => true
  end.

(** Own property [k] of an object literal written [members]; a later
    duplicate overrides an earlier one. *)
Fixpoint member (k : string) (members : list (string * JSON)) : option JSON :=
  match members with
  | [] => None
  | (k', v) :: rest =>
      match member k rest with
      | Some v' => Some v'
      | None => if String.eqb k' k then Some v else None
      end
  end.

(** [v.k] for a non-nullish [v] and a key [k] that no prototype defines:
    [undefined] unless [v] is an object with that member. *)
Definition prop (v : JSON) (k : string) : option JSON :=
  match v with
  | JObj members => member k members
  | _ => None
  end.

(** [body.k], which throws on [null]. *)
Definition get (body : JSON) (k : string) : Exc (option JSON) :=
  match body with
  | JNull => throw ("Cannot read properties of null (reading '" +:+ k +:+ "')")
  | v => ok (prop v k)
  end.

(** [const { k, ... } = v], which throws on [null]; [k] names the first
    destructured property. *)
Definition destructure (v : JSON) (k : string) : Exc JSON :=
  match v with
  | JNull =>
      throw ("Cannot destructure property '" +:+ k
             +:+ "' of 'JSON.parse(...)' as it is null.")
  | v => ok v
  end.

(** [x = d] in a destructuring pattern, and [x || d] on an optional
    string. *)
Definition default_to {A} (d : A) (x : option A) : A :=
  match x with Some a => a | None => d end.

(** An object literal in which [undefined] members are left out, as
    [JSON.stringify] does. *)
Definition object (members : list (string * option JSON)) : JSON :=
  JObj (omap (fun kv => match kv.2 with
                        | Some v => Some (kv.1, v)
                        | None => None
                        end) members).

(** ** Requests, responses and the filesystem interface *)

(** An incoming request; [rawBody] is what [getRawBody(req)] resolves to,
    the concatenation of the chunks received. *)
Record Request : Type := {
  method : string;
  url : string;
  headers : gmap string string;
  rawBody : Buffer
}.

Record Response : Type := {
  status : Z;
  res_headers : list (string * string);
  res_body : option JSON
}.

(** [res.writeHead(status, { 'Content-Type': 'application/json' });
     res.end(JSON.stringify(body))] *)
Definition json_response (status : Z) (body : JSON) : Response :=
  {| status := status;
     res_headers := [("Content-Type", "application/json")];
     res_body := Some body |}.

(** The projection of [fs.Stats] that [stat] and [lstat] return. *)
Record Stats : Type := {
  isFile : bool;
  isDirectory : bool;
  isSymbolicLink : bool;
  size : Z;
  mode : Z;
  mtime : string;
  atime : string;
  ctime : string;
  birthtime : string
}.

(** The primitives of [fs/promises] that the handlers call, indexed by the
    type of what they resolve to. *)
Inductive FsCall : Type -> Type :=
| fs_readFile (path encoding : string) : FsCall string
| fs_readdir (path : string) (withFileTypes : bool) : FsCall JSON
| fs_stat (path : string) : FsCall Stats
| fs_lstat (path : string) : FsCall Stats
| fs_realpath (path : string) : FsCall string
| fs_readlink (path : string) : FsCall string
| fs_writeFile (path : string) (data : Buffer) : FsCall unit
| fs_appendFile (path : string) (data : Buffer) : FsCall unit
| fs_copyFile (src dest : string) (flags : JSON) : FsCall unit
| fs_mkdir (path : string) (recursive : JSON) : FsCall unit
| fs_rmdir (path : string) (recursive : JSON) : FsCall unit
| fs_rm (path : string) (recursive force : JSON) : FsCall unit
| fs_rename (oldPath newPath : string) : FsCall unit
| fs_unlink (path : string) : FsCall unit.

(** An entry of the log of primitives called. *)
Inductive AnyCall : Type :=
| Call {A : Type} (c : FsCall A).

(** What the handlers take from the JavaScript runtime and from the
    operating system. *)
Class Platform : Type := {
  (** [process.cwd()] *)
  cwd : string;
  (** [JSON.parse(text)] *)
  JSON_parse : string -> Exc JSON;
  (** [JSON.stringify(value, null, 2)] *)
  JSON_stringify : JSON -> string;
  (** [String(value)] *)
  String_of : JSON -> string;
  (** [buffer.toString()] *)
  Buffer_toString : Buffer -> string;
  (** [Buffer.from(value)] and [Buffer.from(value, encoding)] *)
  Buffer_from : JSON -> option JSON -> Exc Buffer;
  (** The entries of [new URLSearchParams(queryString)], in order. *)
  URLSearchParams : string -> list (string * string);
  (** The state of the filesystem and the effect of a primitive on it. *)
  FS : Type;
  fs_run : forall A, FsCall A -> FS -> Exc A * FS
}.

(** ** The monad of handlers *)

(** A computation that may throw, over a state [S]. *)
Definition M (S A : Type) : Type := S -> Exc A * S.

Definition ret {S A} (a : A) : M S A := fun w => (ok a, w).

Definition bind {S A B} (m : M S A) (k : A -> M S B) : M S B :=
  fun w =>
    match m w with
    | (inr a, w') => k a w'
    | (inl e, w') => (inl e, w')
    end.

(** A pure step that may throw. *)
Definition lift {S A} (x : Exc A) : M S A := fun w => (x, w).

(** [try { m } catch (error) { h(error) }] *)
Definition try_catch {S A} (m : M S A) (h : Error -> A) : S -> A * S :=
  fun w =>
    match m w with
    | (inr a, w') => (a, w')
    | (inl e, w') => (h e, w')
    end.

Definition bindE {A B} (x : Exc A) (k : A -> Exc B) : Exc B :=
  match x with
  | inr a => k a
  | inl e => inl e
  end.

Notation "x <- m ;; k" := (bind m (fun x => k))
  (at level 100, m at next level, right associativity).
Notation "m ;;; k" := (bind m (fun _ => k))
  (at level 100, right associativity).
Notation "x <-? m ;; k" := (bindE m (fun x => k))
  (at level 100, m at next level, right associativity).

Section Gateway.

Context `{Platform}.

(** The filesystem and the primitives called on it so far. *)
Record World : Type := {
  fs : FS;
  calls : list AnyCall
}.

(** [await fs.primitive(...)] *)
Definition call {A} (c : FsCall A) : M World A :=
  fun w =>
    let '(r, fs') := fs_run A c (fs w) in
    (r, {| fs := fs'; calls := calls w ++ [Call c] |}).

(** *** [parseQuery] *)

(** [Object.fromEntries(entries)]: a later entry overrides an earlier
    one with the same key. *)
Definition Object_fromEntries (entries : list (string * string))
    : gmap string string :=
  foldl (fun m kv => <[kv.1 := kv.2]> m) ∅ entries.

Definition parseQuery (url : string) : gmap string string :=
  match split "?" url !! 1%nat with
  | None => ∅
  | Some queryString =>
      if String.eqb queryString "" then ∅
      else Object_fromEntries (URLSearchParams queryString)
  end.

(** *** The body decoder of [writeFile] and [appendFile]

    The two handlers hold the same code up to the final validation; it is
    written once here.  [Payload] stands for the three variables
    [filePath], [writeData] (or [appendData]) and [type] at that point,
    [Rejected] for an early [return] after a response was sent. *)

Inductive Decoded : Type :=
| Payload (filePath : option JSON) (writeData : Buffer) (type : JSON)
| Rejected (r : Response).

Definition bad_request (msg : string) : Response :=
  json_response 400 (object [("error", Some (JStr msg))]).

Definition isBinaryContentType (contentType : string) : bool :=
  includes contentType "application/octet-stream"
  || includes contentType "image/"
  || includes contentType "video/"
  || includes contentType "audio/"
  || includes contentType "application/pdf".

(** The [switch (dataType)] of the structured body. *)
Definition encodeData (data dataType encoding : JSON) : Exc Buffer :=
  match dataType with
  | JStr t =>
      if String.eqb t "text" then
        Buffer_from (JStr (String_of data)) (Some encoding)
      else if String.eqb t "json" then
        Buffer_from (JStr (JSON_stringify data)) (Some encoding)
      else if String.eqb t "buffer" then
        match data with
        | JArr _ => Buffer_from data None
        | _ => Buffer_from data (Some (JStr "base64"))
        end
      else Buffer_from (JStr (String_of data)) (Some encoding)
  | _ => Buffer_from (JStr (String_of data)) (Some encoding)
  end.

Definition decodeBody (req : Request) : Exc Decoded :=
  let contentType := default_to "" (headers req !! "content-type") in
  let query := parseQuery (url req) in
  let filePath := JStr <$> (query !! "path") in
  let rawBody := rawBody req in
  if isBinaryContentType contentType then
    ok (Payload filePath rawBody (JStr "binary"))
  else if includes contentType "text/plain" then
    ok (Payload filePath rawBody (JStr "text"))
  else if includes contentType "application/json" then
    if truthy filePath then
      ok (Payload filePath rawBody (JStr "json"))
    else
      if (length rawBody =? 0)%nat then
        ok (Rejected (bad_request "Empty request body"))
      else
        body <-? JSON_parse (Buffer_toString rawBody) ;;
        filePath <-? get body "path" ;;
        if negb (truthy filePath) then
          ok (Rejected (bad_request "Path is required"))
        else
          let data := prop body "data" in
          let dataType := default_to (JStr "text") (prop body "type") in
          let encoding := default_to (JStr "utf8") (prop body "encoding") in
          match data with
          | None | Some JNull =>
              ok (Rejected (bad_request "Data is required"))
          | Some data =>
              writeData <-? encodeData data dataType encoding ;;
              ok (Payload filePath writeData dataType)
          end
  else
    ok (Payload filePath rawBody (JStr "unknown")).

(** *** [createFsHandlers] *)

Section Handlers.

Variable baseDir : string.

Definition resolvePath : option JSON -> Exc string :=
  createPathResolver cwd baseDir.

Definition Handler : Type := Request -> M World Response.

Definition GET_root : Handler := fun req =>
  ret (json_response 200
         (object [("message", Some (JStr "fs-browser API"));
                  ("baseDirectory", Some (JStr baseDir))])).

Definition methods : list string :=
  ["readFile"; "writeFile"; "appendFile"; "copyFile";
   "readdir"; "mkdir"; "rmdir"; "rm";
   "rename"; "unlink";
   "stat"; "lstat"; "readlink"; "realpath"].

Definition GET_methods : Handler := fun req =>
  ret (json_response 200
         (object [("methods", Some (JArr (JStr <$> methods)))])).

Definition GET_readFile : Handler := fun req =>
  let query := parseQuery (url req) in
  let filePath := query !! "path" in
  let encoding := default_to "utf8" (query !! "encoding") in
  fullPath <- lift (resolvePath (JStr <$> filePath)) ;;
  data <- call (fs_readFile fullPath encoding) ;;
  ret (json_response 200 (object [("data", Some (JStr data))])).

Definition GET_readdir : Handler := fun req =>
  let query := parseQuery (url req) in
  let dirPath := default_to "." (query !! "path") in
  let withFileTypes := default_to "false" (query !! "withFileTypes") in
  fullPath <- lift (resolvePath (Some (JStr dirPath))) ;;
  files <- call (fs_readdir fullPath (String.eqb withFileTypes "true")) ;;
  ret (json_response 200 (object [("files", Some files)])).

Definition stats_object (stats : Stats) : JSON :=
  object [("isFile", Some (JBool (isFile stats)));
          ("isDirectory", Some (JBool (isDirectory stats)));
          ("isSymbolicLink", Some (JBool (isSymbolicLink stats)));
          ("size", Some (JNum (size stats)));
          ("mode", Some (JNum (mode stats)));
          ("mtime", Some (JStr (mtime stats)));
          ("atime", Some (JStr (atime stats)));
          ("ctime", Some (JStr (ctime stats)));
          ("birthtime", Some (JStr (birthtime stats)))].

Definition GET_stat : Handler := fun req =>
  let query := parseQuery (url req) in
  let filePath := query !! "path" in
  fullPath <- lift (resolvePath (JStr <$> filePath)) ;;
  stats <- call (fs_stat fullPath) ;;
  ret (json_response 200 (object [("stats", Some (stats_object stats))])).

Definition GET_lstat : Handler := fun req =>
  let query := parseQuery (url req) in
  let filePath := query !! "path" in
  fullPath <- lift (resolvePath (JStr <$> filePath)) ;;
  stats <- call (fs_lstat fullPath) ;;
  ret (json_response 200 (object [("stats", Some (stats_object stats))])).

Definition GET_realpath : Handler := fun req =>
  let query := parseQuery (url req) in
  let filePath := query !! "path" in
  fullPath <- lift (resolvePath (JStr <$> filePath)) ;;
  realPath <- call (fs_realpath fullPath) ;;
  ret (json_response 200 (object [("realPath", Some (JStr realPath))])).

Definition GET_readlink : Handler := fun req =>
  let query := parseQuery (url req) in
  let linkPath := query !! "path" in
  fullPath <- lift (resolvePath (JStr <$> linkPath)) ;;
  target <- call (fs_readlink fullPath) ;;
  ret (json_response 200 (object [("target", Some (JStr target))])).

Definition buffer_length (b : Buffer) : JSON := JNum (Z.of_nat (length b)).

Definition POST_writeFile : Handler := fun req =>
  decoded <- lift (decodeBody req) ;;
  match decoded with
  | Rejected r => ret r
  | Payload filePath writeData type =>
      if (length writeData =? 0)%nat then
        ret (bad_request "No data to write")
      else
        fullPath <- lift (resolvePath filePath) ;;
        call (fs_writeFile fullPath writeData) ;;;
        ret (json_response 200
               (object [("message", Some (JStr "File written successfully"));
                        ("path", filePath);
                        ("type", Some type);
                        ("size", Some (buffer_length writeData))]))
  end.

Definition POST_appendFile : Handler := fun req =>
  decoded <- lift (decodeBody req) ;;
  match decoded with
  | Rejected r => ret r
  | Payload filePath appendData type =>
      if (length appendData =? 0)%nat then
        ret (bad_request "No data to append")
      else
        fullPath <- lift (resolvePath filePath) ;;
        call (fs_appendFile fullPath appendData) ;;;
        ret (json_response 200
               (object [("message", Some (JStr "Data appended successfully"));
                        ("path", filePath);
                        ("type", Some type);
                        ("size", Some (buffer_length appendData))]))
  end.

(** [JSON.parse(rawBody.toString())] followed by a destructuring whose
    first property is [k]. *)
Definition parse_body (req : Request) (k : string) : Exc JSON :=
  body <-? JSON_parse (Buffer_toString (rawBody req)) ;;
  destructure body k.

Definition POST_copyFile : Handler := fun req =>
  body <- lift (parse_body req "src") ;;
  let src := prop body "src" in
  let dest := prop body "dest" in
  let flags := default_to (JNum 0) (prop body "flags") in
  srcPath <- lift (resolvePath src) ;;
  destPath <- lift (resolvePath dest) ;;
  call (fs_copyFile srcPath destPath flags) ;;;
  ret (json_response 200
         (object [("message", Some (JStr "File copied successfully"));
                  ("src", src); ("dest", dest)])).

Definition POST_mkdir : Handler := fun req =>
  body <- lift (parse_body req "path") ;;
  let dirPath := prop body "path" in
  let recursive := default_to (JBool true) (prop body "recursive") in
  fullPath <- lift (resolvePath dirPath) ;;
  call (fs_mkdir fullPath recursive) ;;;
  ret (json_response 200
         (object [("message", Some (JStr "Directory created"));
                  ("path", dirPath)])).

Definition DELETE_rmdir : Handler := fun req =>
  body <- lift (parse_body req "path") ;;
  let dirPath := prop body "path" in
  let recursive := default_to (JBool false) (prop body "recursive") in
  fullPath <- lift (resolvePath dirPath) ;;
  call (fs_rmdir fullPath recursive) ;;;
  ret (json_response 200
         (object [("message", Some (JStr "Directory removed"));
                  ("path", dirPath)])).

Definition DELETE_rm : Handler := fun req =>
  body <- lift (parse_body req "path") ;;
  let targetPath := prop body "path" in
  let recursive := default_to (JBool false) (prop body "recursive") in
  let force := default_to (JBool false) (prop body "force") in
  fullPath <- lift (resolvePath targetPath) ;;
  call (fs_rm fullPath recursive force) ;;;
  ret (json_response 200
         (object [("message", Some (JStr "Removed successfully"));
                  ("path", targetPath)])).

Definition PUT_rename : Handler := fun req =>
  body <- lift (parse_body req "oldPath") ;;
  let oldPath := prop body "oldPath" in
  let newPath := prop body "newPath" in
  oldFullPath <- lift (resolvePath oldPath) ;;
  newFullPath <- lift (resolvePath newPath) ;;
  call (fs_rename oldFullPath newFullPath) ;;;
  ret (json_response 200
         (object [("message", Some (JStr "Renamed successfully"));
                  ("oldPath", oldPath); ("newPath", newPath)])).

Definition DELETE_unlink : Handler := fun req =>
  body <- lift (parse_body req "path") ;;
  let filePath := prop body "path" in
  fullPath <- lift (resolvePath filePath) ;;
  call (fs_unlink fullPath) ;;;
  ret (json_response 200
         (object [("message", Some (JStr "File deleted"));
                  ("path", filePath)])).

(** The object returned by [createFsHandlers(baseDir)], as an
    association list and as the finite map it denotes. *)
Definition routes : list (string * Handler) :=
  [("GET /", GET_root);
   ("GET /methods", GET_methods);
   ("GET /readFile", GET_readFile);
   ("GET /readdir", GET_readdir);
   ("GET /stat", GET_stat);
   ("GET /lstat", GET_lstat);
   ("GET /realpath", GET_realpath);
   ("GET /readlink", GET_readlink);
   ("POST /writeFile", POST_writeFile);
   ("POST /appendFile", POST_appendFile);
   ("POST /copyFile", POST_copyFile);
   ("POST /mkdir", POST_mkdir);
   ("DELETE /rmdir", DELETE_rmdir);
   ("DELETE /rm", DELETE_rm);
   ("PUT /rename", PUT_rename);
   ("DELETE /unlink", DELETE_unlink)].

Definition createFsHandlers : gmap string Handler := list_to_map routes.

End Handlers.

End Gateway.

(** ** The dispatchers *)

Section Servers.

Context `{Platform}.

Definition route_not_found : Response :=
  json_response 404 (object [("error", Some (JStr "Route not found"))]).

(** The response of the [catch] clause of both dispatchers. *)
Definition internal_error (error : Error) : Response :=
  json_response 500
    (object [("error",
              Some (object [("message", Some (JStr error));
                            ("status", Some (JNum 500))]))]).

(** [req.url.substring(prefix.length) || '/'] *)
Definition routePath (prefix url : string) : string :=
  let r := substring_from (String.length prefix) url in
  if String.eqb r "" then "/" else r.

(** [`${req.method} ${routePath.split('?')[0]}`] *)
Definition handlerKey (prefix : string) (req : Request) : string :=
  method req +:+ " "
  +:+ default_to "" (head (split "?" (routePath prefix (url req)))).

(** The lookup in the handler table and the call of the handler found,
    common to both dispatchers. *)
Definition dispatch (handlers : gmap string Handler) (prefix : string)
    (req : Request) : M World Response :=
  match handlers !! handlerKey prefix req with
  | Some handler => handler req
  | None => ret route_not_found
  end.

(** *** The [withfs] server *)

Section Withfs.

Variable BASE_DIR : string.
Variable apiPrefix : string.
Variable justFs : bool.
(** Static file serving, outside the gateway. *)
Variable serveStaticFile : Request -> M World Response.

Definition fsHandlers : gmap string Handler := createFsHandlers BASE_DIR.

Definition cors_headers : list (string * string) :=
  [("Access-Control-Allow-Origin", "*");
   ("Access-Control-Allow-Methods", "GET, POST, PUT, DELETE, OPTIONS");
   ("Access-Control-Allow-Headers", "Content-Type")].

(** The headers set with [res.setHeader] are sent with those of
    [res.writeHead]. *)
Definition with_cors (r : Response) : Response :=
  {| status := status r;
     res_headers := cors_headers ++ res_headers r;
     res_body := res_body r |}.

Definition justfs_not_found : Response :=
  json_response 404
    (object [("error", Some (JStr "Not Found"));
             ("message",
              Some (JStr "Running in --justfs mode. Only fs API endpoints are available."))]).

(** The callback given to [http.createServer]. *)
Definition withfs_server (req : Request) : World -> Response * World :=
  fun w =>
    if String.eqb (method req) "OPTIONS" then
      (with_cors {| status := 200; res_headers := []; res_body := None |}, w)
    else
      let '(r, w') :=
        try_catch
          (if startsWith (url req) apiPrefix then
             dispatch fsHandlers apiPrefix req
           else if negb justFs then serveStaticFile req
           else ret justfs_not_found)
          internal_error w in
      (with_cors r, w').

End Withfs.

(** *** The Vite middleware *)

(** What the middleware does with a request: hand it to the next
    middleware or answer it. *)
Inductive Handled : Type :=
| Next
| Answered (r : Response).

Section Vite.

Variable BASE_DIR : string.
Variable API_PREFIX : string.

Definition handlers : gmap string Handler := createFsHandlers BASE_DIR.

(** The middleware installed by [configureServer]. *)
Definition vite_middleware (req : Request) : World -> Handled * World :=
  fun w =>
    if negb (startsWith (url req) API_PREFIX) then (Next, w)
    else
      let '(r, w') :=
        try_catch (dispatch handlers API_PREFIX req) internal_error w in
      (Answered r, w').

End Vite.

(** *** The listener: requests served one after the other *)

Fixpoint serve {R} (callback : Request -> World -> R * World)
    (reqs : list Request) (w : World) : list R * World :=
  match reqs with
  | [] => ([], w)
  | req :: rest =>
      let '(r, w') := callback req w in
      let '(rs, w'') := serve callback rest w' in
      (r :: rs, w'')
  end.

End Servers.

(** ** A reference platform

    An executable instance of [Platform], used to run the handlers on
    concrete requests.  Strings stand for their UTF-8 bytes.  The instance
    covers what the requests below exercise: JSON texts whose numbers are
    integer literals and whose strings have no [\u] escape; the [utf8] and
    [hex] encodings, every other encoding name being answered as Node
    answers a name it does not know; an in-memory filesystem of regular
    files and directories without symbolic links, permissions or
    timestamps. *)

Module Ref.

(** *** [JSON.stringify(value, null, 2)] *)

(** The double quote. *)
Definition dquote : ascii := "034"%char.

(** A text in which every apostrophe stands for a double quote. *)
Fixpoint dq (s : string) : string :=
  match s with
  | EmptyString => EmptyString
  | String c r => String (if Ascii.eqb c "'" then dquote else c) (dq r)
  end.

Definition hex_digit (n : nat) : ascii :=
  nth n (list_ascii_of_string "0123456789abcdef") "0"%char.

Definition escape_char (c : ascii) : string :=
  if Ascii.eqb c dquote then String "\" (String dquote "")
  else if Ascii.eqb c "\" then "\\"
  else if Ascii.eqb c "010" then "\n"
  else if Ascii.eqb c "013" then "\r"
  else if Ascii.eqb c "009" then "\t"
  else if Ascii.eqb c "008" then "\b"
  else if Ascii.eqb c "012" then "\f"
  else if (nat_of_ascii c <? 32)%nat then
    "\u00" +:+ String (hex_digit (nat_of_ascii c / 16))
                 (String (hex_digit (nat_of_ascii c mod 16)) "")
  else String c "".

Fixpoint escape (s : string) : string :=
  match s with
  | EmptyString => EmptyString
  | String c r => escape_char c +:+ escape r
  end.

Definition quote (s : string) : string :=
  String dquote (escape s +:+ String dquote "").

Definition number_to_string (n : Z) : string :=
  NilZero.string_of_int (Z.to_int n).

Fixpoint stringify (indent : string) (v : JSON) : string :=
  let inner := indent +:+ "  " in
  match v with
  | JNull => "null"
  | JBool true => "true"
  | JBool false => "false"
  | JNum n => number_to_string n
  | JStr s => quote s
  | JArr [] => "[]"
  | JArr l =>
      "[" +:+ String "010" inner
      +:+ join ("," +:+ String "010" inner) (List.map (stringify inner) l)
      +:+ String "010" indent +:+ "]"
  | JObj [] => "{}"
  | JObj members =>
      "{" +:+ String "010" inner
      +:+ join ("," +:+ String "010" inner)
            (List.map (fun kv => quote (fst kv) +:+ ": "
                                 +:+ stringify inner (snd kv)) members)
      +:+ String "010" indent +:+ "}"
  end.

Definition JSON_stringify (v : JSON) : string := stringify "" v.

(** *** [String(value)] *)

Fixpoint String_of (v : JSON) : string :=
  match v with
  | JNull => "null"
  | JBool true => "true"
  | JBool false => "false"
  | JNum n => number_to_string n
  | JStr s => s
  | JArr l =>
      join "," (List.map (fun x => match x with
                                   | JNull => ""
                                   | _ => String_of x
                                   end) l)
  | JObj _ => "[object Object]"
  end.

(** *** [JSON.parse] *)

Definition is_ws (c : ascii) : bool :=
  Ascii.eqb c " " || Ascii.eqb c "009" || Ascii.eqb c "010"
  || Ascii.eqb c "013".

Fixpoint skip_ws (s : string) : string :=
  match s with
  | String c r => if is_ws c then skip_ws r else s
  | EmptyString => EmptyString
  end.

Definition digit (c : ascii) : option Z :=
  let n := nat_of_ascii c in
  if ((48 <=? n) && (n <=? 57))%nat then Some (Z.of_nat (n - 48)) else None.

Definition is_digit (c : ascii) : bool :=
  match digit c with Some _ => true | None => false end.

Fixpoint parse_digits (acc : Z) (s : string) : Z * string :=
  match s with
  | String c r =>
      match digit c with
      | Some d => parse_digits (10 * acc + d) r
      | None => (acc, s)
      end
  | EmptyString => (acc, s)
  end.

(** An integer literal; a leading zero is not followed by a digit, and a
    fraction or an exponent is not accepted. *)
Definition parse_number (s : string) : option (Z * string) :=
  let '(neg, s) := match s with
                   | String "-" r => (true, r)
                   | _ => (false, s)
                   end in
  match s with
  | String c r =>
      match digit c with
      | Some d =>
          let '(n, rest) :=
            if (d =? 0)%Z then (0%Z, r) else parse_digits d r in
          match rest with
          | String c' _ =>
              if is_digit c' || Ascii.eqb c' "." || Ascii.eqb c' "e"
                 || Ascii.eqb c' "E"
              then None
              else Some (if neg then (- n)%Z else n, rest)
          | EmptyString => Some (if neg then (- n)%Z else n, rest)
          end
      | None => None
      end
  | EmptyString => None
  end.

(** The characters of a string literal after its opening quote. *)
Fixpoint parse_string (s : string) : option (string * string) :=
  match s with
  | EmptyString => None
  | String c r =>
      if Ascii.eqb c dquote then Some (EmptyString, r)
      else if Ascii.eqb c "\" then
        match r with
        | String e r' =>
            let unescaped :=
              if Ascii.eqb e dquote then Some dquote
              else if Ascii.eqb e "\" then Some "\"%char
              else if Ascii.eqb e "/" then Some "/"%char
              else if Ascii.eqb e "n" then Some "010"%char
              else if Ascii.eqb e "r" then Some "013"%char
              else if Ascii.eqb e "t" then Some "009"%char
              else if Ascii.eqb e "b" then Some "008"%char
              else if Ascii.eqb e "f" then Some "012"%char
              else None in
            match unescaped, parse_string r' with
            | Some u, Some (str, rest) => Some (String u str, rest)
            | _, _ => None
            end
        | EmptyString => None
        end
      else if (nat_of_ascii c <? 32)%nat then None
      else
        match parse_string r with
        | Some (str, rest) => Some (String c str, rest)
        | None => None
        end
  end.

Definition expect (lit : string) (v : JSON) (s : string)
    : option (JSON * string) :=
  if startsWith s lit
  then Some (v, substring_from (String.length lit) s)
  else None.

Fixpoint parse_value (fuel : nat) (s : string) : option (JSON * string) :=
  match fuel with
  | O => None
  | S fuel =>
      match skip_ws s with
      | String c r =>
          if Ascii.eqb c "n" then expect "null" JNull (String c r)
          else if Ascii.eqb c "t" then expect "true" (JBool true) (String c r)
          else if Ascii.eqb c "f" then expect "false" (JBool false) (String c r)
          else if Ascii.eqb c dquote then
            match parse_string r with
            | Some (str, rest) => Some (JStr str, rest)
            | None => None
            end
          else if Ascii.eqb c "[" then
            match skip_ws r with
            | String "]" rest => Some (JArr [], rest)
            | _ =>
                match parse_elements fuel r with
                | Some (l, rest) => Some (JArr l, rest)
                | None => None
                end
            end
          else if Ascii.eqb c "{" then
            match skip_ws r with
            | String "}" rest => Some (JObj [], rest)
            | _ =>
                match parse_members fuel r with
                | Some (l, rest) => Some (JObj l, rest)
                | None => None
                end
            end
          else
            match parse_number (String c r) with
            | Some (n, rest) => Some (JNum n, rest)
            | None => None
            end
      | EmptyString => None
      end
  end
with parse_elements (fuel : nat) (s : string)
    : option (list JSON * string) :=
  match fuel with
  | O => None
  | S fuel =>
      match parse_value fuel s with
      | Some (v, rest) =>
          match skip_ws rest with
          | String "]" rest' => Some ([v], rest')
          | String "," rest' =>
              match parse_elements fuel rest' with
              | Some (l, rest'') => Some (v :: l, rest'')
              | None => None
              end
          | _ => None
          end
      | None => None
      end
  end
with parse_members (fuel : nat) (s : string)
    : option (list (string * JSON) * string) :=
  match fuel with
  | O => None
  | S fuel =>
      match skip_ws s with
      | String "034" r =>
          match parse_string r with
          | Some (k, rest) =>
              match skip_ws rest with
              | String ":" rest' =>
                  match parse_value fuel rest' with
                  | Some (v, rest'') =>
                      match skip_ws rest'' with
                      | String "}" rest3 => Some ([(k, v)], rest3)
                      | String "," rest3 =>
                          match parse_members fuel rest3 with
                          | Some (l, rest4) => Some ((k, v) :: l, rest4)
                          | None => None
                          end
                      | _ => None
                      end
                  | None => None
                  end
              | _ => None
              end
          | None => None
          end
      | _ => None
      end
  end.

Definition JSON_parse (text : string) : Exc JSON :=
  match parse_value (S (String.length text)) text with
  | Some (v, rest) =>
      if String.eqb (skip_ws rest) "" then ok v
      else throw "Unexpected non-whitespace character after JSON"
  | None =>
      if String.eqb (skip_ws text) "" then throw "Unexpected end of JSON input"
      else throw "Unexpected token in JSON"
  end.

(** *** [Buffer] *)

Definition to_lower (c : ascii) : ascii :=
  let n := nat_of_ascii c in
  if ((65 <=? n) && (n <=? 90))%nat then ascii_of_nat (n + 32) else c.

Fixpoint lower (s : string) : string :=
  match s with
  | EmptyString => EmptyString
  | String c r => String (to_lower c) (lower r)
  end.

Definition hex_value (c : ascii) : option nat :=
  let n := nat_of_ascii (to_lower c) in
  if ((48 <=? n) && (n <=? 57))%nat then Some (n - 48)
  else if ((97 <=? n) && (n <=? 102))%nat then Some (n - 87)
  else None.

Definition byte_of_nat (n : nat) : byte :=
  default_to "000"%byte (Byte.of_nat (n mod 256)).

(** Decoding of [hex]: pairs of digits, up to the first pair that is
    not one. *)
Fixpoint hex_decode (s : string) : Buffer :=
  match s with
  | String a (String b r) =>
      match hex_value a, hex_value b with
      | Some h, Some l => byte_of_nat (16 * h + l) :: hex_decode r
      | _, _ => []
      end
  | _ => []
  end.

Fixpoint hex_encode (b : Buffer) : string :=
  match b with
  | [] => EmptyString
  | x :: r =>
      String (hex_digit (Byte.to_nat x / 16))
        (String (hex_digit (Byte.to_nat x mod 16)) (hex_encode r))
  end.

Definition is_utf8 (encoding : string) : bool :=
  String.eqb (lower encoding) "utf8" || String.eqb (lower encoding) "utf-8".

Definition is_hex (encoding : string) : bool :=
  String.eqb (lower encoding) "hex".

(** An element of an array given to [Buffer.from]: its number, modulo
    256. *)
Definition element_byte (v : JSON) : byte :=
  match v with
  | JNum n => byte_of_nat (Z.to_nat (n mod 256))
  | JBool true => "001"%byte
  | _ => "000"%byte
  end.

Definition Buffer_from (value : JSON) (encoding : option JSON) : Exc Buffer :=
  match value with
  | JStr s =>
      match encoding with
      | Some (JStr e) =>
          if String.eqb e "" || is_utf8 e then ok (list_byte_of_string s)
          else if is_hex e then ok (hex_decode s)
          else throw ("Unknown encoding: " +:+ e)
      | _ => ok (list_byte_of_string s)
      end
  | JArr l => ok (List.map element_byte l)
  | _ =>
      throw "The first argument must be of type string or an instance of Buffer, ArrayBuffer, or Array or an Array-like Object."
  end.

Definition Buffer_toString (b : Buffer) : string := string_of_list_byte b.

(** *** [URLSearchParams] *)

(** Percent-decoding, with [+] read as a space. *)
Fixpoint percent_decode (s : string) : string :=
  match s with
  | EmptyString => EmptyString
  | String c r =>
      if Ascii.eqb c "+" then String " " (percent_decode r)
      else if Ascii.eqb c "%" then
        match r with
        | String a (String b r') =>
            match hex_value a, hex_value b with
            | Some h, Some l =>
                String (ascii_of_nat (16 * h + l)) (percent_decode r')
            | _, _ => String c (percent_decode r)
            end
        | _ => String c (percent_decode r)
        end
      else String c (percent_decode r)
  end.

(** The name and the value of one [name=value] pair: the name ends at
    the first [=]. *)
Fixpoint split_pair (s : string) : string * string :=
  match s with
  | EmptyString => (EmptyString, EmptyString)
  | String c r =>
      if Ascii.eqb c "=" then (EmptyString, r)
      else let '(k, v) := split_pair r in (String c k, v)
  end.

Definition URLSearchParams (queryString : string) : list (string * string) :=
  List.map (fun p => let '(k, v) := split_pair p in
                     (percent_decode k, percent_decode v))
    (List.filter (fun p => negb (String.eqb p "")) (split "&" queryString)).

(** *** An in-memory filesystem *)

Record MemFS : Type := {
  files : gmap string Buffer;
  dirs : gset string
}.

(** [path.dirname] of a canonical absolute path. *)
Definition dirname (p : string) : string :=
  let d := join "/" (removelast (split "/" p)) in
  if String.eqb d "" then "/" else d.

Definition basename (p : string) : string :=
  List.last (split "/" p) "".

Definition is_file (m : MemFS) (p : string) : bool :=
  bool_decide (is_Some (files m !! p)).

Definition is_dir (m : MemFS) (p : string) : bool :=
  bool_decide (p ∈ dirs m).

(** [p] lies strictly below the directory [d]. *)
Definition below (d p : string) : bool :=
  startsWith p (if String.eqb d "/" then d else d +:+ "/")
  && negb (String.eqb p d).

Definition enoent (syscall p : string) : Error :=
  "ENOENT: no such file or directory, " +:+ syscall +:+ " '" +:+ p +:+ "'".

Definition eisdir (syscall p : string) : Error :=
  "EISDIR: illegal operation on a directory, " +:+ syscall +:+ " '" +:+ p +:+ "'".

Definition enotdir (syscall p : string) : Error :=
  "ENOTDIR: not a directory, " +:+ syscall +:+ " '" +:+ p +:+ "'".

Definition eexist (syscall p : string) : Error :=
  "EEXIST: file already exists, " +:+ syscall +:+ " '" +:+ p +:+ "'".

Definition epoch : string := "1970-01-01T00:00:00.000Z".

Definition stats_of (m : MemFS) (syscall p : string) : Exc Stats :=
  match files m !! p with
  | Some content =>
      ok {| isFile := true; isDirectory := false; isSymbolicLink := false;
            size := Z.of_nat (length content); mode := 33188;
            mtime := epoch; atime := epoch; ctime := epoch;
            birthtime := epoch |}
  | None =>
      if is_dir m p then
        ok {| isFile := false; isDirectory := true; isSymbolicLink := false;
              size := 4096; mode := 16877;
              mtime := epoch; atime := epoch; ctime := epoch;
              birthtime := epoch |}
      else throw (enoent syscall p)
  end.

(** The text of a file's bytes in [encoding]. *)
Definition decode (encoding : string) (content : Buffer) : Exc string :=
  if is_utf8 encoding then ok (string_of_list_byte content)
  else if is_hex encoding then ok (hex_encode content)
  else throw ("The argument 'encoding' is invalid. Received '"
              +:+ encoding +:+ "'").

(** Storing [content] at [p]: the parent directory must exist and [p] must
    not be a directory. *)
Definition store (m : MemFS) (p : string) (content : Buffer) : Exc unit * MemFS :=
  if is_dir m p then (throw (eisdir "open" p), m)
  else if is_dir m (dirname p) then
    (ok tt, {| files := <[p := content]> (files m); dirs := dirs m |})
  else (throw (enoent "open" p), m).

(** The names in directory [p]: plain, or as the objects a [Dirent]
    serialises to. *)
Definition entries (m : MemFS) (p : string) (withFileTypes : bool) : JSON :=
  let names :=
    List.map basename
      (List.filter (fun q => String.eqb (dirname q) p && negb (String.eqb q p))
         (List.map fst (map_to_list (files m)) ++ elements (dirs m))) in
  JArr (List.map (fun n =>
                    if withFileTypes then
                      JObj [("name", JStr n); ("parentPath", JStr p);
                            ("path", JStr p)]
                    else JStr n) names).

(** The directories from [p] up to the root. *)
Fixpoint ancestors (fuel : nat) (p : string) : list string :=
  match fuel with
  | O => [p]
  | S fuel => if String.eqb p "/" then [p] else p :: ancestors fuel (dirname p)
  end.

Definition remove_tree (m : MemFS) (p : string) : MemFS :=
  {| files := filter (fun kv => negb (below p kv.1) && negb (String.eqb kv.1 p))
                (files m);
     dirs := filter (fun q => negb (below p q) && negb (String.eqb q p))
               (dirs m) |}.

(** [q], found at or below [old], moved to the same place at or below
    [new]. *)
Definition moved (old new q : string) : string :=
  if String.eqb q old || below old q
  then new +:+ substring_from (String.length old) q
  else q.

Definition rename_tree (m : MemFS) (old new : string) : MemFS :=
  {| files := list_to_map
                (List.map (fun kv => (moved old new kv.1, kv.2))
                   (map_to_list (files m)));
     dirs := list_to_set (List.map (moved old new) (elements (dirs m))) |}.

Definition run (A : Type) (c : FsCall A) : MemFS -> Exc A * MemFS :=
  match c in FsCall T return MemFS -> Exc T * MemFS with
  | fs_readFile p encoding => fun m =>
      match files m !! p with
      | Some content => (decode encoding content, m)
      | None =>
          if is_dir m p then (throw (eisdir "read" p), m)
          else (throw (enoent "open" p), m)
      end
  | fs_readdir p withFileTypes => fun m =>
      if is_dir m p then (ok (entries m p withFileTypes), m)
      else if is_file m p then (throw (enotdir "scandir" p), m)
      else (throw (enoent "scandir" p), m)
  | fs_stat p => fun m => (stats_of m "stat" p, m)
  | fs_lstat p => fun m => (stats_of m "lstat" p, m)
  | fs_realpath p => fun m =>
      if is_file m p || is_dir m p then (ok p, m)
      else (throw (enoent "realpath" p), m)
  | fs_readlink p => fun m =>
      if is_file m p || is_dir m p
      then (throw ("EINVAL: invalid argument, readlink '" +:+ p +:+ "'"), m)
      else (throw (enoent "readlink" p), m)
  | fs_writeFile p data => fun m => store m p data
  | fs_appendFile p data => fun m =>
      store m p (default_to [] (files m !! p) ++ data)
  | fs_copyFile src dest flags => fun m =>
      match files m !! src with
      | Some content =>
          if is_file m dest && match flags with
                               | JNum n => Z.odd n
                               | _ => false
                               end
          then (throw (eexist "copyfile" dest), m)
          else store m dest content
      | None => (throw (enoent "copyfile" src), m)
      end
  | fs_mkdir p recursive => fun m =>
      if truthy (Some recursive) then
        match List.find (is_file m) (ancestors (String.length p) p) with
        | Some q => (throw (enotdir "mkdir" q), m)
        | None =>
            (ok tt,
             {| files := files m;
                dirs := list_to_set (ancestors (String.length p) p) ∪ dirs m |})
        end
      else if is_file m p || is_dir m p then (throw (eexist "mkdir" p), m)
      else if is_dir m (dirname p) then
        (ok tt, {| files := files m; dirs := {[p]} ∪ dirs m |})
      else (throw (enoent "mkdir" p), m)
  | fs_rmdir p recursive => fun m =>
      if is_dir m p then
        match entries m p false with
        | JArr [] => (ok tt, remove_tree m p)
        | _ =>
            if truthy (Some recursive) then (ok tt, remove_tree m p)
            else (throw ("ENOTEMPTY: directory not empty, rmdir '"
                         +:+ p +:+ "'"), m)
        end
      else if is_file m p then (throw (enotdir "rmdir" p), m)
      else (throw (enoent "rmdir" p), m)
  | fs_rm p recursive force => fun m =>
      if is_file m p then (ok tt, remove_tree m p)
      else if is_dir m p then
        if truthy (Some recursive) then (ok tt, remove_tree m p)
        else (throw ("Path is a directory: rm returned EISDIR (is a directory) "
                     +:+ p), m)
      else if truthy (Some force) then (ok tt, m)
      else (throw (enoent "rm" p), m)
  | fs_rename oldPath newPath => fun m =>
      if is_file m oldPath || is_dir m oldPath then
        if is_dir m (dirname newPath)
        then (ok tt, rename_tree (remove_tree m newPath) oldPath newPath)
        else (throw (enoent "rename" oldPath), m)
      else (throw (enoent "rename" oldPath), m)
  | fs_unlink p => fun m =>
      if is_file m p then (ok tt, remove_tree m p)
      else if is_dir m p then (throw (eisdir "unlink" p), m)
      else (throw (enoent "unlink" p), m)
  end.

(** *** The instance *)

#[global] Instance platform : Platform :=
  Build_Platform "/home/user/project" JSON_parse JSON_stringify String_of
    Buffer_toString Buffer_from URLSearchParams MemFS run.

End Ref.

(** ** Notions used by the specification *)

(** *** Canonical paths and containment *)

Fixpoint has_char (c : ascii) (s : string) : bool :=
  match s with
  | EmptyString => false
  | String a r => Ascii.eqb a c || has_char c r
  end.

(** A path segment that canonicalisation keeps: not empty, not [.], not
    [..], without a separator. *)
Definition proper_segment (s : string) : bool :=
  negb (String.eqb s "") && negb (String.eqb s ".")
  && negb (String.eqb s "..") && negb (has_char Path.sep s).

(** An absolute path that lexical canonicalisation leaves as it is, such as
    the [BASE_DIR] that both dispatchers obtain from [path.resolve]. *)
Definition absolute_canonical (p : string) : bool :=
  String.eqb ("/" +:+ Path.normalizeString p false) p.

(** The non-empty segments of a path. *)
Definition segments (p : string) : list string :=
  List.filter (fun s => negb (String.eqb s "")) (split Path.sep p).

Fixpoint starts_with_segments (l pre : list string) : bool :=
  match pre, l with
  | [], _ => true
  | b :: pre', a :: l' => String.eqb a b && starts_with_segments l' pre'
  | _ :: _, [] => false
  end.

(** [p] is [root] or a descendant of [root]. *)
Definition inside (root p : string) : bool :=
  starts_with_segments (segments p) (segments root).

(** The candidate path has a [..] segment. *)
Definition has_dotdot (candidate : string) : bool :=
  existsb (String.eqb "..") (split Path.sep candidate).

(** The candidate path, taken relative to [root] and canonicalised, leaves
    [root]. *)
Definition escapes (cwd root candidate : string) : bool :=
  negb (inside root
          (Path.resolve cwd
             [root; if startsWith candidate "/" then slice1 candidate
                    else candidate])).

(** *** The decision table of the body decoder

    The rows of the table of section 4.2 whose payload is the raw body, read
    top to bottom; [pathParam] tells whether the row's condition on the
    [path] query parameter holds.  [None] stands for the structured-body
    row. *)
Definition binary_markers : list string :=
  ["application/octet-stream"; "image/"; "video/"; "audio/";
   "application/pdf"].

Definition table_tag (contentType : string) (pathParam : bool) : option string :=
  if existsb (includes contentType) binary_markers then Some "binary"
  else if includes contentType "text/plain" then Some "text"
  else if includes contentType "application/json" then
    (if pathParam then Some "json" else None)
  else Some "unknown".

(** *** The route table of section 6 *)
Definition route_keys : list string :=
  ["GET /"; "GET /methods"; "GET /readFile"; "GET /readdir"; "GET /stat";
   "GET /lstat"; "GET /realpath"; "GET /readlink"; "POST /writeFile";
   "POST /appendFile"; "POST /copyFile"; "POST /mkdir"; "DELETE /rmdir";
   "DELETE /rm"; "PUT /rename"; "DELETE /unlink"].

Section Structured.

Context `{Platform}.

(** The request reaches the structured-body branch of the decoder: its
    content type selects the JSON row and the [path] query parameter is
    absent or empty. *)
Definition structured (req : Request) : bool :=
  let contentType := default_to "" (headers req !! "content-type") in
  negb (isBinaryContentType contentType)
  && negb (includes contentType "text/plain")
  && includes contentType "application/json"
  && negb (truthy (JStr <$> (parseQuery (url req) !! "path"))).

(** The structured body [body] makes the request invalid: no raw body, no
    usable [path], no [data], or a payload that decodes to zero bytes. *)
Definition invalid_structured (req : Request) (body : JSON) : Prop :=
  rawBody req = []
  \/ truthy (prop body "path") = false
  \/ prop body "data" = None
  \/ prop body "data" = Some JNull
  \/ exists data,
       prop body "data" = Some data
       /\ encodeData data (default_to (JStr "text") (prop body "type"))
            (default_to (JStr "utf8") (prop body "encoding")) = ok [].

(** The three conditions of the specification alone. *)
Definition invalid_as_stated (req : Request) (body : JSON) : Prop :=
  rawBody req = []
  \/ prop body "path" = None
  \/ prop body "data" = None
  \/ prop body "data" = Some JNull.

(** The request is one that the structured-body branch rejects: its raw
    body is empty, or parses to a value other than [null] that makes it
    invalid. *)
Definition rejected_structured (req : Request) : Prop :=
  rawBody req = []
  \/ exists body,
       JSON_parse (Buffer_toString (rawBody req)) = ok body
       /\ body <> JNull
       /\ invalid_structured req body.

(** The handler answers [req] with status 400. *)
Definition answers_400 (h : Handler) (req : Request) (w : World) : Prop :=
  exists r w', h req w = (ok r, w') /\ status r = 400%Z.

End Structured.

(** ** Scenarios on the reference platform *)

Module Scenario.

Import Ref.

(** A confinement root [/srv/data], empty, next to a directory
    [/srv/data2] that holds a file. *)
Definition fs0 : MemFS :=
  {| files := {["/srv/data2/secret" := list_byte_of_string "top secret"]};
     dirs := {["/"; "/srv"; "/srv/data"; "/srv/data2"]} |}.

Definition w0 : World := {| fs := fs0; calls := [] |}.

Definition request (method url : string) (contentType : option string)
    (body : string) : Request :=
  {| method := method;
     url := url;
     headers := match contentType with
                | Some c => {["content-type" := c]}
                | None => ∅
                end;
     rawBody := list_byte_of_string body |}.

Definition BASE_DIR : string := "/srv/data".
Definition apiPrefix : string := "/api/fs".

(** The [withfs] server in [--justfs] mode; static serving is not
    reached. *)
Definition server : Request -> World -> Response * World :=
  withfs_server BASE_DIR apiPrefix true (fun _ => ret justfs_not_found).

Definition middleware : Request -> World -> Handled * World :=
  vite_middleware BASE_DIR apiPrefix.

Definition read_sibling : Request :=
  request "GET" "/api/fs/readFile?path=../data2/secret" None "".

Definition read_escaping : Request :=
  request "GET" "/api/fs/readFile?path=../../etc/passwd" None "".

Definition write_empty : Request :=
  request "POST" "/api/fs/writeFile?path=a.txt" (Some "text/plain") "".

Definition write_json : Request :=
  request "POST" "/api/fs/writeFile" (Some "application/json")
    (dq "{'path':'data.json','data':{'name':'John','age':30},'type':'json'}").

Definition write_json_hex : Request :=
  request "POST" "/api/fs/writeFile" (Some "application/json")
    (dq "{'path':'data.json','data':{'name':'John','age':30},'type':'json','encoding':'hex'}").

Definition read_json : Request :=
  request "GET" "/api/fs/readFile?path=data.json" None "".

Definition john : JSON := JObj [("name", JStr "John"); ("age", JNum 30)].

Definition write_empty_path_param : Request :=
  request "POST" "/api/fs/writeFile?path=" (Some "application/json")
    (dq "{'path':'x.txt','data':'hi'}").

Definition write_raw_json : Request :=
  request "POST" "/api/fs/writeFile?path=raw.json" (Some "application/json")
    (dq "{'a':1}").

Definition write_empty_data : Request :=
  request "POST" "/api/fs/writeFile" (Some "application/json")
    (dq "{'path':'a.txt','data':''}").

Definition write_no_data : Request :=
  request "POST" "/api/fs/writeFile" (Some "application/json")
    (dq "{'path':'a.txt'}").

Definition options_unknown : Request :=
  request "OPTIONS" "/api/fs/nothing" None "".

Definition get_unknown : Request :=
  request "GET" "/api/fs/nothing?x=1" None "".

Definition readdir_rich : Request :=
  request "GET" "/api/fs/readdir?withFileTypes=true" None "".

Definition readdir_capital : Request :=
  request "GET" "/api/fs/readdir?withFileTypes=True" None "".

End Scenario.

(** * Further definitions *)

(** ** Notions used by the further properties *)

(** The paths a primitive is called on. *)
Definition call_paths (c : AnyCall) : list string :=
  match c with
  | @Call _ c =>
      match c with
      | fs_readFile p _ | fs_readdir p _ | fs_stat p | fs_lstat p
      | fs_realpath p | fs_readlink p | fs_writeFile p _ | fs_appendFile p _
      | fs_mkdir p _ | fs_rmdir p _ | fs_rm p _ _ | fs_unlink p => [p]
      | fs_copyFile a b _ | fs_rename a b => [a; b]
      end
  end.

(** Every path of every call of the log [l] starts with [baseDir], the
    test that the resolver applies. *)
Definition confined (baseDir : string) (l : list AnyCall) : Prop :=
  Forall (fun c => Forall (fun p => startsWith p baseDir = true)
                     (call_paths c)) l.

(** A response as the handlers send them: JSON content type and a body. *)
Definition json_shaped (r : Response) : Prop :=
  res_headers r = [("Content-Type", "application/json")]
  /\ is_Some (res_body r).

Section Logic.

Context `{Platform}.

(** [m] extends the log of calls by some [new] calls, and [Q] holds of
    these and of what [m] returns or throws. *)
Definition logs {A} (m : M World A) (Q : list AnyCall -> Exc A -> Prop) : Prop :=
  forall w, exists new, calls (m w).2 = calls w ++ new /\ Q new (m w).1.

(** What every handler of the table establishes. *)
Definition handler_post (baseDir : string) (new : list AnyCall)
    (r : Exc Response) : Prop :=
  length new <= 1
  /\ confined baseDir new
  /\ match r with
     | inr resp =>
         json_shaped resp
         /\ (status resp = 200%Z \/ status resp = 400%Z /\ new = [])
     | inl _ => True
     end.

End Logic.

(** ** The entry points: [withfs] and the Vite plugin *)

(** [x || d] for an optional string. *)
Definition or_string (d : string) (x : option string) : string :=
  match x with
  | Some s => if String.eqb s "" then d else s
  | None => d
  end.

Module Cli.

(** The variables set from the command line, with their initial values. *)
Record Options : Type := {
  projectDir : string;
  host : string;
  port : Z;
  baseDir : string;
  apiPrefix : string;
  openBrowser : bool;
  justFs : bool
}.

Definition initial : Options :=
  {| projectDir := "."; host := "localhost"; port := 3000;
     baseDir := "./data"; apiPrefix := "/api/fs";
     openBrowser := false; justFs := false |}.

Definition set_projectDir (v : string) (o : Options) : Options :=
  {| projectDir := v; host := host o; port := port o; baseDir := baseDir o;
     apiPrefix := apiPrefix o; openBrowser := openBrowser o;
     justFs := justFs o |}.

Definition set_host (v : string) (o : Options) : Options :=
  {| projectDir := projectDir o; host := v; port := port o;
     baseDir := baseDir o; apiPrefix := apiPrefix o;
     openBrowser := openBrowser o; justFs := justFs o |}.

Definition set_port (v : Z) (o : Options) : Options :=
  {| projectDir := projectDir o; host := host o; port := v;
     baseDir := baseDir o; apiPrefix := apiPrefix o;
     openBrowser := openBrowser o; justFs := justFs o |}.

Definition set_baseDir (v : string) (o : Options) : Options :=
  {| projectDir := projectDir o; host := host o; port := port o;
     baseDir := v; apiPrefix := apiPrefix o;
     openBrowser := openBrowser o; justFs := justFs o |}.

Definition set_apiPrefix (v : string) (o : Options) : Options :=
  {| projectDir := projectDir o; host := host o; port := port o;
     baseDir := baseDir o; apiPrefix := v;
     openBrowser := openBrowser o; justFs := justFs o |}.

Definition set_openBrowser (o : Options) : Options :=
  {| projectDir := projectDir o; host := host o; port := port o;
     baseDir := baseDir o; apiPrefix := apiPrefix o;
     openBrowser := true; justFs := justFs o |}.

Definition set_justFs (o : Options) : Options :=
  {| projectDir := projectDir o; host := host o; port := port o;
     baseDir := baseDir o; apiPrefix := apiPrefix o;
     openBrowser := openBrowser o; justFs := true |}.

Section Parse.

(** [parseInt(text)]: [None] stands for [NaN]. *)
Variable parseInt : string -> option Z.

(** [parseInt(args[++i]) || 3000] *)
Definition port_of (next : option string) : Z :=
  match next with
  | Some text =>
      match parseInt text with
      | Some n => if (n =? 0)%Z then 3000%Z else n
      | None => 3000%Z
      end
  | None => 3000%Z
  end.

(** The loop over [process.argv.slice(2)], from the argument at index [i]
    on; [None] stands for [--help], which prints the help and exits. *)
Fixpoint parseArgs (args : list string) (o : Options) : option Options :=
  match args with
  | [] => Some o
  | arg :: rest =>
      if String.eqb arg "--host" || String.eqb arg "-h" then
        match rest with
        | next :: rest' =>
            if negb (String.eqb next "") && negb (startsWith next "-")
            then parseArgs rest' (set_host next o)
            else parseArgs rest (set_host "0.0.0.0" o)
        | [] => Some (set_host "0.0.0.0" o)
        end
      else if String.eqb arg "--port" || String.eqb arg "-p" then
        match rest with
        | next :: rest' => parseArgs rest' (set_port (port_of (Some next)) o)
        | [] => Some (set_port (port_of None) o)
        end
      else if String.eqb arg "--base-dir" || String.eqb arg "-b" then
        match rest with
        | next :: rest' =>
            parseArgs rest' (set_baseDir (or_string "./data" (Some next)) o)
        | [] => Some (set_baseDir (or_string "./data" None) o)
        end
      else if String.eqb arg "--api-prefix" || String.eqb arg "-a" then
        match rest with
        | next :: rest' =>
            parseArgs rest' (set_apiPrefix (or_string "/api/fs" (Some next)) o)
        | [] => Some (set_apiPrefix (or_string "/api/fs" None) o)
        end
      else if String.eqb arg "--open" || String.eqb arg "-o" then
        parseArgs rest (set_openBrowser o)
      else if String.eqb arg "--justfs" then
        parseArgs rest (set_justFs o)
      else if String.eqb arg "--help" then None
      else if negb (startsWith arg "-") then
        parseArgs rest (set_projectDir arg o)
      else parseArgs rest o
  end.

(** Each variable holds its initial value, the value it falls back to, or
    a value taken from the arguments [args]: for the port, what [parseInt]
    gives for an argument; for the host and the project directory, an
    argument that does not start with [-]. *)
Definition defaults_or_given (args : list string) (o : Options) : Prop :=
  (port o = 3000%Z
   \/ exists text, List.In text args /\ parseInt text = Some (port o))
  /\ (host o = "localhost" \/ host o = "0.0.0.0"
      \/ List.In (host o) args /\ startsWith (host o) "-" = false)
  /\ (baseDir o = "./data" \/ List.In (baseDir o) args)
  /\ (apiPrefix o = "/api/fs" \/ List.In (apiPrefix o) args)
  /\ (projectDir o = "."
      \/ List.In (projectDir o) args /\ startsWith (projectDir o) "-" = false).

(** A command line written option by option: a flag with the argument
    that follows it, a flag alone, or a project directory. *)
Inductive Item : Type :=
| Host (flag value : string)
| Port (flag text : string)
| BaseDir (flag value : string)
| ApiPrefix (flag value : string)
| Open (flag : string)
| JustFs
| ProjectDir (value : string).

Definition tokens (item : Item) : list string :=
  match item with
  | Host flag value | BaseDir flag value | ApiPrefix flag value =>
      [flag; value]
  | Port flag text => [flag; text]
  | Open flag => [flag]
  | JustFs => ["--justfs"]
  | ProjectDir value => [value]
  end.

(** The flag is one of the two spellings of its option; a host is not
    empty, and neither a host nor a project directory starts with [-]. *)
Definition well_formed (item : Item) : Prop :=
  match item with
  | Host flag value =>
      (flag = "--host" \/ flag = "-h")
      /\ value <> "" /\ startsWith value "-" = false
  | Port flag _ => flag = "--port" \/ flag = "-p"
  | BaseDir flag _ => flag = "--base-dir" \/ flag = "-b"
  | ApiPrefix flag _ => flag = "--api-prefix" \/ flag = "-a"
  | Open flag => flag = "--open" \/ flag = "-o"
  | JustFs => True
  | ProjectDir value => startsWith value "-" = false
  end.

(** What the option sets. *)
Definition effect (o : Options) (item : Item) : Options :=
  match item with
  | Host _ value => set_host value o
  | Port _ text => set_port (port_of (Some text)) o
  | BaseDir _ value => set_baseDir (or_string "./data" (Some value)) o
  | ApiPrefix _ value => set_apiPrefix (or_string "/api/fs" (Some value)) o
  | Open _ => set_openBrowser o
  | JustFs => set_justFs o
  | ProjectDir value => set_projectDir value o
  end.

End Parse.

(** [path.resolve(process.cwd(), projectDir)] *)
Definition PROJECT_DIR (cwd : string) (o : Options) : string :=
  Path.resolve cwd [cwd; projectDir o].

(** [path.resolve(PROJECT_DIR, baseDir)] *)
Definition BASE_DIR (cwd : string) (o : Options) : string :=
  Path.resolve cwd [PROJECT_DIR cwd o; baseDir o].

(** The variables after a parse hold what the server needs of them. *)
Definition usable (o : Options) : Prop :=
  port o <> 0%Z /\ host o <> "" /\ baseDir o <> "" /\ apiPrefix o <> "".

End Cli.

Module Plugin.

(** The [options] of [vitePluginFsApi]. *)
Record Options : Type := {
  baseDir : option string;
  apiPrefix : option string
}.

(** [path.resolve(process.cwd(), options.baseDir || './data')] *)
Definition BASE_DIR (cwd : string) (options : Options) : string :=
  Path.resolve cwd [cwd; or_string "./data" (baseDir options)].

(** [options.apiPrefix || '/api/fs'] *)
Definition API_PREFIX (options : Options) : string :=
  or_string "/api/fs" (apiPrefix options).

End Plugin.

Section EntryPoints.

Context `{Platform}.

(** The callback that [withfs] hands to [http.createServer] once the
    command line is parsed. *)
Definition withfs_main (o : Cli.Options)
    (serveStaticFile : Request -> M World Response)
    : Request -> World -> Response * World :=
  withfs_server (Cli.BASE_DIR cwd o) (Cli.apiPrefix o) (Cli.justFs o)
    serveStaticFile.

(** The middleware that [vitePluginFsApi(options)] installs. *)
Definition vitePluginFsApi (options : Plugin.Options)
    : Request -> World -> Handled * World :=
  vite_middleware (Plugin.BASE_DIR cwd options) (Plugin.API_PREFIX options).

End EntryPoints.

(** The value of the last entry of [entries] whose key is [k]. *)
Fixpoint last_value (k : string) (entries : list (string * string))
    : option string :=
  match entries with
  | [] => None
  | (k', v) :: rest =>
      match last_value k rest with
      | Some v' => Some v'
      | None => if String.eqb k' k then Some v else None
      end
  end.

(** The body of the 200 response of a write of [writeData] or of an
    append. *)
Definition written_body (message : string) (filePath : option JSON)
    (type : JSON) (writeData : Buffer) : JSON :=
  object [("message", Some (JStr message)); ("path", filePath);
          ("type", Some type);
          ("size", Some (JNum (Z.of_nat (length writeData))))].

(** What follows the first segment in the joined text of the segments
    [x :: r]. *)
Definition tail_of (r : list string) : string :=
  match r with
  | [] => ""
  | _ :: _ => String "/" (join "/" r)
  end.

(** ** What the client takes from the browser *)

Module Js.

Definition upper_hex_digit (n : nat) : ascii :=
  nth n (list_ascii_of_string "0123456789ABCDEF") "0"%char.

(** The characters that [encodeURIComponent] leaves as they are: letters,
    digits and [- _ . ! ~ * ' ( )]. *)
Definition unreserved (c : ascii) : bool :=
  let n := nat_of_ascii c in
  ((65 <=? n) && (n <=? 90))%nat || ((97 <=? n) && (n <=? 122))%nat
  || ((48 <=? n) && (n <=? 57))%nat
  || existsb (Ascii.eqb c) (list_ascii_of_string "-_.!~*'()").

Definition encode_char (c : ascii) : string :=
  if unreserved c then String c ""
  else String "%" (String (upper_hex_digit (nat_of_ascii c / 16))
                     (String (upper_hex_digit (nat_of_ascii c mod 16)) "")).

(** [encodeURIComponent(text)], on the UTF-8 bytes that [text] stands
    for. *)
Fixpoint encodeURIComponent (text : string) : string :=
  match text with
  | EmptyString => EmptyString
  | String c r => encode_char c +:+ encodeURIComponent r
  end.

(** [JSON.stringify(value)] *)
Fixpoint stringify (v : JSON) : string :=
  match v with
  | JNull => "null"
  | JBool true => "true"
  | JBool false => "false"
  | JNum n => Ref.number_to_string n
  | JStr s => Ref.quote s
  | JArr l => "[" +:+ join "," (List.map stringify l) +:+ "]"
  | JObj members =>
      "{" +:+ join ","
                (List.map (fun kv => Ref.quote (fst kv) +:+ ":"
                                     +:+ stringify (snd kv)) members)
      +:+ "}"
  end.

Fixpoint parse_hex_digits (acc : Z) (s : string) : Z :=
  match s with
  | String c r =>
      match Ref.hex_value c with
      | Some d => parse_hex_digits (16 * acc + Z.of_nat d) r
      | None => acc
      end
  | EmptyString => acc
  end.

(** The digits that [parseInt] reads after the sign: hexadecimal after
    [0x] or [0X], decimal otherwise; [None] when there is no digit. *)
Definition parse_magnitude (s : string) : option Z :=
  match s with
  | String "0" (String x r) =>
      if Ascii.eqb x "x" || Ascii.eqb x "X" then
        match r with
        | String c _ =>
            match Ref.hex_value c with
            | Some _ => Some (parse_hex_digits 0 r)
            | None => None
            end
        | EmptyString => None
        end
      else Some (fst (Ref.parse_digits 0 s))
  | String c _ =>
      if Ref.is_digit c then Some (fst (Ref.parse_digits 0 s)) else None
  | EmptyString => None
  end.

(** Leading blanks, among the one-byte ones. *)
Fixpoint skip_blanks (s : string) : string :=
  match s with
  | String c r =>
      if Ref.is_ws c || Ascii.eqb c "011" || Ascii.eqb c "012"
      then skip_blanks r else s
  | EmptyString => EmptyString
  end.

(** [parseInt(text)]; [None] stands for [NaN]. *)
Definition parseInt (text : string) : option Z :=
  match skip_blanks text with
  | String "-" r => option_map Z.opp (parse_magnitude r)
  | String "+" r => parse_magnitude r
  | s => parse_magnitude s
  end.

End Js.

(** ** The client library *)

Module Client.

(** [s.endsWith('/')] *)
Fixpoint endsWithSlash (s : string) : bool :=
  match s with
  | EmptyString => false
  | String c EmptyString => Ascii.eqb c "/"
  | String _ r => endsWithSlash r
  end.

(** [s.slice(0, -1)] *)
Fixpoint dropLast (s : string) : string :=
  match s with
  | EmptyString => EmptyString
  | String _ EmptyString => EmptyString
  | String c r => String c (dropLast r)
  end.

(** [configure(options)]: the value of [API_BASE] after the call, from the
    one before it and from [options.apiBase]. *)
Definition configure (apiBase : option string) (API_BASE : string) : string :=
  match apiBase with
  | Some b => if endsWithSlash b then dropLast b else b
  | None => API_BASE
  end.

(** The [options] of [readFile]: an encoding, an object that may hold one,
    or [null]. *)
Inductive ReadOptions : Type :=
| Encoding (encoding : string)
| WithEncoding (encoding : option string)
| NoOptions.

(** [typeof options === 'string' ? options : options?.encoding || 'utf8'] *)
Definition encoding_of (options : ReadOptions) : string :=
  match options with
  | Encoding e => e
  | WithEncoding e => or_string "utf8" e
  | NoOptions => "utf8"
  end.

(** What [fetch(url)] sends when the page and the gateway share an origin
    and [url] is a path: a [GET] of that path without body. *)
Definition get (url : string) : Request :=
  {| method := "GET"; url := url; headers := ∅; rawBody := [] |}.

(** What [fetch(url, { method, headers: { 'Content-Type': contentType },
    body })] sends; Node gives the header under its lower-case name. *)
Definition send (method url contentType : string) (body : Buffer) : Request :=
  {| method := method; url := url;
     headers := {["content-type" := contentType]}; rawBody := body |}.

Section Requests.

Variable API_BASE : string.

Definition readFile (path : string) (options : ReadOptions) : Request :=
  get (API_BASE +:+ "/readFile?path=" +:+ Js.encodeURIComponent path
       +:+ "&encoding=" +:+ encoding_of options).

(** [`${options.withFileTypes || false}`] *)
Definition withFileTypes_text (withFileTypes : option JSON) : string :=
  if truthy withFileTypes
  then match withFileTypes with Some v => Ref.String_of v | None => "false" end
  else "false".

Definition readdir (path : string) (withFileTypes : option JSON) : Request :=
  get (API_BASE +:+ "/readdir?path=" +:+ Js.encodeURIComponent path
       +:+ "&withFileTypes=" +:+ withFileTypes_text withFileTypes).

Definition stat (path : string) : Request :=
  get (API_BASE +:+ "/stat?path=" +:+ Js.encodeURIComponent path).

Definition lstat (path : string) : Request :=
  get (API_BASE +:+ "/lstat?path=" +:+ Js.encodeURIComponent path).

Definition realpath (path : string) : Request :=
  get (API_BASE +:+ "/realpath?path=" +:+ Js.encodeURIComponent path).

Definition readlink (path : string) : Request :=
  get (API_BASE +:+ "/readlink?path=" +:+ Js.encodeURIComponent path).

(** The [data] of [writeFile] and [appendFile], by the test that takes
    it. *)
Inductive Data : Type :=
| Blob (type : string) (content : Buffer)
| ArrayBuffer (content : Buffer)
| View (content : Buffer)
| Text (text : string)
| Object (value : JSON)
| Other.

Definition contentType_of (data : Data) : Exc string :=
  match data with
  | Blob type _ => ok (or_string "application/octet-stream" (Some type))
  | ArrayBuffer _ | View _ => ok "application/octet-stream"
  | Text _ => ok "text/plain"
  | Object _ => ok "application/json"
  | Other => throw "Unsupported data type"
  end.

(** The bytes of the body sent. *)
Definition body_of (data : Data) : Buffer :=
  match data with
  | Blob _ content | ArrayBuffer content | View content => content
  | Text text => list_byte_of_string text
  | Object value => list_byte_of_string (Js.stringify value)
  | Other => []
  end.

Definition writeFile (path : string) (data : Data) : Exc Request :=
  contentType <-? contentType_of data ;;
  ok (send "POST"
        (API_BASE +:+ "/writeFile?path=" +:+ Js.encodeURIComponent path)
        contentType (body_of data)).

Definition appendFile (path : string) (data : Data) : Exc Request :=
  contentType <-? contentType_of data ;;
  ok (send "POST"
        (API_BASE +:+ "/appendFile?path=" +:+ Js.encodeURIComponent path)
        contentType (body_of data)).

(** [fetch] with a JSON body. *)
Definition send_json (method route : string) (body : JSON) : Request :=
  send method (API_BASE +:+ route) "application/json"
    (list_byte_of_string (Js.stringify body)).

Definition copyFile (src dest : string) (flags : option JSON) : Request :=
  send_json "POST" "/copyFile"
    (JObj [("src", JStr src); ("dest", JStr dest);
           ("flags", default_to (JNum 0) flags)]).

(** [options.recursive !== undefined ? options.recursive : true] *)
Definition mkdir (path : string) (recursive : option JSON) : Request :=
  send_json "POST" "/mkdir"
    (JObj [("path", JStr path);
           ("recursive", default_to (JBool true) recursive)]).

(** [options.flag || false] *)
Definition or_false (flag : option JSON) : JSON :=
  if truthy flag then default_to (JBool false) flag else JBool false.

Definition rmdir (path : string) (recursive : option JSON) : Request :=
  send_json "DELETE" "/rmdir"
    (JObj [("path", JStr path); ("recursive", or_false recursive)]).

Definition rm (path : string) (recursive force : option JSON) : Request :=
  send_json "DELETE" "/rm"
    (JObj [("path", JStr path); ("recursive", or_false recursive);
           ("force", or_false force)]).

Definition rename (oldPath newPath : string) : Request :=
  send_json "PUT" "/rename"
    (JObj [("oldPath", JStr oldPath); ("newPath", JStr newPath)]).

Definition unlink (path : string) : Request :=
  send_json "DELETE" "/unlink" (JObj [("path", JStr path)]).

End Requests.

(** [response.ok] *)
Definition response_ok (r : Response) : bool :=
  ((200 <=? status r) && (status r <=? 299))%Z.

(** [error.error?.message || fallback], the argument of [new Error] when
    the response is not [ok] and [error] is its body. *)
Definition error_message (error : JSON) (fallback : string) : JSON :=
  let message :=
    match prop error "error" with
    | None | Some JNull => None
    | Some inner => prop inner "message"
    end in
  if truthy message then default_to (JStr fallback) message
  else JStr fallback.

(** What a function of the client that ends with
    [const { key } = await response.json(); return key] returns from the
    response to its request: [Some None] stands for [undefined], and [None]
    for an exception instead of a value, which is thrown when the response
    is not [ok], when it has no body to parse, and when the body is [null],
    which cannot be destructured. *)
Definition returned (key : string) (response : Response)
    : option (option JSON) :=
  if response_ok response then
    match res_body response with
    | None | Some JNull => None
    | Some body => Some (prop body key)
    end
  else None.

(** [exists(path)] against a gateway [server] that receives the request of
    [stat] and whose response comes back: whether [stat] returns. *)
Definition exists_ `{Platform} (server : Request -> World -> Response * World)
    (API_BASE path : string) : World -> bool * World :=
  fun w =>
    let '(response, w') := server (stat API_BASE path) w in
    (match returned "stats" response with Some _ => true | None => false end,
     w').

End Client.

(** ** Static files: [path.join] and the security check *)

Module Posix.

(** [path.charCodeAt(path.length - 1) === 47] *)
Fixpoint endsWithSep (path : string) : bool :=
  match path with
  | EmptyString => false
  | String c EmptyString => Ascii.eqb c Path.sep
  | String _ r => endsWithSep r
  end.

(** [path.normalize(path)] *)
Definition normalize (path : string) : string :=
  if String.eqb path "" then "."
  else
    let isAbsolute := startsWith path "/" in
    let trailingSeparator := endsWithSep path in
    let path := Path.normalizeString path (negb isAbsolute) in
    if String.eqb path "" then
      if isAbsolute then "/" else if trailingSeparator then "./" else "."
    else
      let path := if trailingSeparator then path +:+ "/" else path in
      if isAbsolute then "/" +:+ path else path.

(** [path.join(...args)]: the arguments that are not empty, joined by
    separators and normalised. *)
Definition join (args : list string) : string :=
  match List.filter (fun arg => negb (String.eqb arg "")) args with
  | [] => "."
  | parts => normalize (JsString.join "/" parts)
  end.

End Posix.

(** The start of [serveStaticFile], up to its security check: from the
    [pathname] of the parsed URL to the file that is then read, [None] when
    the answer is [403 Forbidden]. *)
Definition serveStaticFile_filePath (PROJECT_DIR pathname : string)
    : option string :=
  let pathname := if String.eqb pathname "/" then "/index.html" else pathname in
  let filePath := Posix.join [PROJECT_DIR; pathname] in
  if negb (startsWith filePath PROJECT_DIR) then None else Some filePath.

(** ** Further scenarios on the reference platform *)

Module Cases.

Import Ref.

(** The confinement root of [Scenario] with one file in it. *)
Definition fs1 : MemFS :=
  {| files := {["/srv/data/notes.txt" := list_byte_of_string "remember"]};
     dirs := {["/"; "/srv"; "/srv/data"]} |}.

Definition w1 : World := {| fs := fs1; calls := [] |}.

(** A structured write whose body is not JSON text. *)
Definition write_unparsable : Request :=
  Scenario.request "POST" "/api/fs/writeFile" (Some "application/json")
    "{path: a.txt".

Definition write_text : Request :=
  Scenario.request "POST" "/api/fs/writeFile?path=a.txt" (Some "text/plain")
    "hi".

Definition append_text : Request :=
  Scenario.request "POST" "/api/fs/appendFile?path=a.txt" (Some "text/plain")
    "hi".

End Cases.

(** * Properties *)

(** ** Strings and paths *)
Lemma append_nil_l (s : string) : "" +:+ s = s.
Proof. reflexivity. Qed.

Lemma append_cons (c : ascii) (s t : string) :
  String c s +:+ t = String c (s +:+ t).
Proof. reflexivity. Qed.

Lemma append_nil_r (s : string) : s +:+ "" = s.
Proof. induction s as [|c s IH]; [reflexivity|]. rewrite append_cons, IH. reflexivity. Qed.

Lemma append_assoc (a b c : string) : (a +:+ b) +:+ c = a +:+ (b +:+ c).
Proof. induction a as [|x a IH]; [reflexivity|]. rewrite !append_cons, IH. reflexivity. Qed.

Lemma startsWith_app (a b : string) : startsWith (a +:+ b) a = true.
Proof.
  induction a as [|x a IH]; [destruct b; reflexivity|].
  rewrite append_cons. simpl. rewrite Ascii.eqb_refl. exact IH.
Qed.

Lemma split_nonempty c s : split c s <> [].
Proof.
  destruct s as [|a r]; simpl; [discriminate|].
  destruct (Ascii.eqb a c); [discriminate|].
  destruct (split c r); discriminate.
Qed.

Lemma split_app_sep c (a b : string) :
  split c (a +:+ String c b) = split c a ++ split c b.
Proof.
  induction a as [|x a IH].
  - rewrite append_nil_l. simpl. rewrite Ascii.eqb_refl. reflexivity.
  - rewrite append_cons. simpl. rewrite IH.
    destruct (Ascii.eqb x c); [reflexivity|].
    pose proof (split_nonempty c a) as Hne.
    destruct (split c a); [congruence|]. reflexivity.
Qed.

Lemma split_no_sep c s : has_char c s = false -> split c s = [s].
Proof.
  induction s as [|a r IH]; simpl; [reflexivity|].
  intros Hc. apply orb_false_iff in Hc as [Ha Hr].
  rewrite Ha, (IH Hr). reflexivity.
Qed.

Lemma split_elems c s : Forall (fun x => has_char c x = false) (split c s).
Proof.
  induction s as [|a r IH]; simpl.
  - constructor; [reflexivity | constructor].
  - destruct (Ascii.eqb a c) eqn:E.
    + constructor; [reflexivity | exact IH].
    + destruct (split c r) as [|h t]; [repeat constructor; simpl; rewrite E; reflexivity|].
      inversion IH; subst. constructor; [simpl; rewrite E; assumption | assumption].
Qed.

Lemma join_cons2 sep x y r :
  join sep (x :: y :: r) = x +:+ sep +:+ join sep (y :: r).
Proof. reflexivity. Qed.

Lemma split_join (segs : list string) :
  Forall (fun x => has_char Path.sep x = false) segs -> segs <> [] ->
  split Path.sep (join "/" segs) = segs.
Proof.
  induction segs as [|x r IH]; [congruence|].
  intros Hall _. inversion Hall as [|? ? Hx Hr]; subst.
  destruct r as [|y r].
  - simpl. apply split_no_sep, Hx.
  - rewrite join_cons2.
    change ("/" +:+ join "/" (y :: r)) with (String Path.sep (join "/" (y :: r))).
    rewrite split_app_sep, (split_no_sep _ _ Hx), IH; [reflexivity | assumption | discriminate].
Qed.

Lemma proper_no_sep s : proper_segment s = true -> has_char Path.sep s = false.
Proof.
  unfold proper_segment. rewrite !andb_true_iff, !negb_true_iff. tauto.
Qed.

Lemma norm_step_proper b res seg :
  proper_segment seg = true -> Path.norm_step b res seg = seg :: res.
Proof.
  unfold proper_segment, Path.norm_step.
  rewrite !andb_true_iff, !negb_true_iff. intros [[[-> ->] ->] _]. reflexivity.
Qed.

Lemma norm_fold_proper b segs acc :
  Forall (fun s => proper_segment s = true) segs ->
  fold_left (Path.norm_step b) segs acc = rev segs ++ acc.
Proof.
  revert acc. induction segs as [|x r IH]; intros acc Hall; [reflexivity|].
  inversion Hall; subst. simpl. rewrite norm_step_proper by assumption.
  rewrite IH by assumption. rewrite <- app_assoc. reflexivity.
Qed.

Lemma norm_step_keeps_proper res seg :
  Forall (fun s => proper_segment s = true) res ->
  has_char Path.sep seg = false ->
  Forall (fun s => proper_segment s = true) (Path.norm_step false res seg).
Proof.
  intros Hres Hseg. unfold Path.norm_step.
  destruct (String.eqb seg "") eqn:E1; [assumption|].
  destruct (String.eqb seg ".") eqn:E2; [assumption|].
  destruct (String.eqb seg "..") eqn:E3.
  - destruct res as [|last rest]; [constructor|].
    inversion Hres; subst.
    destruct (String.eqb last ".."); assumption.
  - constructor; [|assumption].
    unfold proper_segment. rewrite E1, E2, E3, Hseg. reflexivity.
Qed.

Lemma norm_fold_keeps_proper segs acc :
  Forall (fun s => proper_segment s = true) acc ->
  Forall (fun x => has_char Path.sep x = false) segs ->
  Forall (fun s => proper_segment s = true)
    (fold_left (Path.norm_step false) segs acc).
Proof.
  revert acc. induction segs as [|x r IH]; intros acc Hacc Hall; [assumption|].
  inversion Hall; subst. simpl. apply IH; [|assumption].
  apply norm_step_keeps_proper; assumption.
Qed.

Lemma Forall_rev_proper (l : list string) :
  Forall (fun s => proper_segment s = true) l ->
  Forall (fun s => proper_segment s = true) (rev l).
Proof. apply List.Forall_rev. Qed.

Lemma canonical_segments p :
  absolute_canonical p = true ->
  exists segs, Forall (fun s => proper_segment s = true) segs
               /\ p = "/" +:+ join "/" segs.
Proof.
  unfold absolute_canonical. intros Hp. apply String.eqb_eq in Hp.
  exists (Path.normalize_segments false (split Path.sep p)). split.
  - unfold Path.normalize_segments. apply Forall_rev_proper.
    apply norm_fold_keeps_proper; [constructor | apply split_elems].
  - symmetry. exact Hp.
Qed.

(** Splitting a canonical absolute path. *)
Lemma fold_canonical b segs :
  Forall (fun s => proper_segment s = true) segs ->
  fold_left (Path.norm_step b) (split Path.sep ("/" +:+ join "/" segs)) []
  = rev segs.
Proof.
  intros Hs.
  change ("/" +:+ join "/" segs) with ("" +:+ String Path.sep (join "/" segs)).
  rewrite split_app_sep. simpl split at 1.
  destruct segs as [|x r].
  - reflexivity.
  - rewrite split_join; [| | discriminate].
    + change (fold_left (Path.norm_step b) (x :: r) [] = rev (x :: r)).
      rewrite norm_fold_proper by assumption.
      apply app_nil_r.
    + eapply List.Forall_impl; [|exact Hs]. apply proper_no_sep.
Qed.

Lemma join_app (a b : list string) :
  a <> [] -> b <> [] ->
  join "/" (a ++ b) = join "/" a +:+ "/" +:+ join "/" b.
Proof.
  induction a as [|x r IH]; [congruence|]. intros _ Hb.
  destruct r as [|y r].
  - destruct b as [|z b]; [congruence|]. reflexivity.
  - change ((x :: y :: r) ++ b) with (x :: y :: (r ++ b)).
    rewrite !join_cons2. change (y :: r ++ b) with ((y :: r) ++ b).
    rewrite IH by (discriminate || assumption).
    rewrite !append_assoc. reflexivity.
Qed.

Lemma proper_nonempty s : proper_segment s = true -> s <> "".
Proof.
  unfold proper_segment. rewrite !andb_true_iff, !negb_true_iff.
  intros [[[E _] _] _]. apply String.eqb_neq. exact E.
Qed.

Lemma proper_not_absolute s t :
  proper_segment s = true -> startsWith (s +:+ t) "/" = false.
Proof.
  intros Hs. pose proof (proper_no_sep _ Hs) as Hn.
  pose proof (proper_nonempty _ Hs) as Hne.
  destruct s as [|c s]; [congruence|].
  simpl in Hn. apply orb_false_iff in Hn as [Hc _].
  rewrite append_cons. cbn [startsWith]. unfold Path.sep in Hc. rewrite Hc. reflexivity.
Qed.

Lemma join_proper_head x r t :
  proper_segment x = true -> startsWith (join "/" (x :: r) +:+ t) "/" = false.
Proof.
  intros Hx. destruct r as [|y r].
  - apply proper_not_absolute, Hx.
  - rewrite join_cons2, append_assoc. apply proper_not_absolute, Hx.
Qed.

Lemma join_proper_nonempty x r :
  proper_segment x = true -> join "/" (x :: r) <> "".
Proof.
  intros Hx. pose proof (proper_nonempty _ Hx).
  destruct x; [congruence|]. destruct r; discriminate.
Qed.

Lemma resolve_loop_skip rest acc :
  Path.resolve_loop ("" :: rest) acc = Path.resolve_loop rest acc.
Proof. reflexivity. Qed.

Lemma resolve_loop_relative q rest acc :
  q <> "" -> startsWith q "/" = false ->
  Path.resolve_loop (q :: rest) acc
  = Path.resolve_loop rest (q +:+ "/" +:+ acc).
Proof.
  intros Hq Hrel. apply String.eqb_neq in Hq.
  cbn [Path.resolve_loop]. rewrite Hq, Hrel. reflexivity.
Qed.

Lemma resolve_loop_absolute t rest acc :
  Path.resolve_loop (String "/" t :: rest) acc
  = (String "/" t +:+ "/" +:+ acc, true).
Proof. reflexivity. Qed.

(** [path.resolve(root, q)] for a canonical absolute [root] and a relative,
    non-empty [q]. *)
Lemma resolve_relative cwd rsegs q :
  Forall (fun s => proper_segment s = true) rsegs ->
  q <> "" -> startsWith q "/" = false ->
  Path.resolve cwd ["/" +:+ join "/" rsegs; q]
  = "/" +:+ join "/" (rev (fold_left (Path.norm_step false)
                            (split Path.sep q) (rev rsegs))).
Proof.
  intros Hr Hq Hrel. unfold Path.resolve.
  change (rev ["/" +:+ join "/" rsegs; q] ++ [cwd])
    with (q :: String "/" (join "/" rsegs) :: [cwd]).
  rewrite resolve_loop_relative, resolve_loop_absolute by assumption.
  cbn [negb]. unfold Path.normalizeString, Path.normalize_segments.
  do 3 f_equal.
  change (String "/" (join "/" rsegs) +:+ "/" +:+ q +:+ "/" +:+ "")
    with (("/" +:+ join "/" rsegs) +:+ String Path.sep (q +:+ String Path.sep "")).
  rewrite !split_app_sep, !fold_left_app, fold_canonical by assumption.
  reflexivity.
Qed.

(** [path.resolve(root, "")] and [path.resolve(root)] for a canonical
    absolute [root]. *)
Lemma resolve_canonical cwd rsegs :
  Forall (fun s => proper_segment s = true) rsegs ->
  Path.resolve cwd ["/" +:+ join "/" rsegs] = "/" +:+ join "/" rsegs.
Proof.
  intros Hr. unfold Path.resolve.
  change (rev ["/" +:+ join "/" rsegs] ++ [cwd])
    with (String "/" (join "/" rsegs) :: [cwd]).
  rewrite resolve_loop_absolute.
  cbn [negb]. unfold Path.normalizeString, Path.normalize_segments.
  change (String "/" (join "/" rsegs) +:+ "/" +:+ "")
    with (("/" +:+ join "/" rsegs) +:+ String Path.sep "").
  rewrite split_app_sep, fold_left_app, fold_canonical by assumption.
  cbn [split fold_left]. change (Path.norm_step false (rev rsegs) "") with (rev rsegs).
  rewrite rev_involutive. reflexivity.
Qed.

Lemma resolve_empty cwd rsegs :
  Forall (fun s => proper_segment s = true) rsegs ->
  Path.resolve cwd ["/" +:+ join "/" rsegs; ""] = "/" +:+ join "/" rsegs.
Proof. intros Hr. rewrite <- (resolve_canonical cwd rsegs Hr) at 2. reflexivity. Qed.

Lemma resolve_shape cwd rsegs q :
  Forall (fun s => proper_segment s = true) rsegs ->
  exists segs, Forall (fun s => proper_segment s = true) segs
    /\ Path.resolve cwd ["/" +:+ join "/" rsegs; q] = "/" +:+ join "/" segs.
Proof.
  intros Hr. destruct (String.eqb q "") eqn:Hq.
  - apply String.eqb_eq in Hq as ->. exists rsegs. split; [assumption|].
    apply resolve_empty, Hr.
  - apply String.eqb_neq in Hq. destruct (startsWith q "/") eqn:Habs.
    + destruct q as [|c t]; [congruence|].
      cbn [startsWith] in Habs. apply andb_true_iff in Habs as [Hc _].
      apply Ascii.eqb_eq in Hc as ->.
      eexists. split; [|unfold Path.resolve;
        change (rev ["/" +:+ join "/" rsegs; String "/" t] ++ [cwd])
          with (String "/" t :: String "/" (join "/" rsegs) :: [cwd]);
        rewrite resolve_loop_absolute; cbn [negb]; reflexivity].
      unfold Path.normalize_segments. apply Forall_rev_proper.
      apply norm_fold_keeps_proper; [constructor | apply split_elems].
    + eexists. split; [|apply resolve_relative; assumption].
      apply Forall_rev_proper.
      apply norm_fold_keeps_proper; [apply Forall_rev_proper, Hr | apply split_elems].
Qed.

Lemma startsWith_nil_inv p : startsWith "" p = true -> p = "".
Proof. destruct p; [reflexivity | discriminate]. Qed.

Lemma startsWith_refl s : startsWith s s = true.
Proof. rewrite <- (append_nil_r s) at 1. apply startsWith_app. Qed.

(** C3, amended: under a canonical absolute root, the result [r] of the
    resolver on a string is itself canonical, so that canonicalising it again
    changes nothing; but the resolver takes [r] as a path relative to the
    root: resolving [r] again gives the root followed by [r], and [r] itself
    only when the root is [/]. *)
Theorem resolve_again (cwd baseDir p r : string) :
  absolute_canonical baseDir = true ->
  createPathResolver cwd baseDir (Some (JStr p)) = ok r ->
  Path.resolve cwd [r] = r
  /\ createPathResolver cwd baseDir (Some (JStr r))
     = ok (if String.eqb baseDir "/" then r else baseDir +:+ r).
Proof.
  intros Hcan Hres.
  destruct (canonical_segments _ Hcan) as (rsegs & Hr & ->).
  unfold createPathResolver in Hres.
  set (q := if startsWith p "/" then slice1 p else p) in Hres.
  destruct (resolve_shape cwd rsegs q Hr) as (segs & Hs & Hq).
  rewrite Hq in Hres.
  destruct (startsWith ("/" +:+ join "/" segs) ("/" +:+ join "/" rsegs)) eqn:Hin;
    [|discriminate].
  cbn [negb] in Hres. injection Hres as <-.
  split; [apply resolve_canonical, Hs|].
  unfold createPathResolver.
  change (startsWith ("/" +:+ join "/" segs) "/") with true.
  change (slice1 ("/" +:+ join "/" segs)) with (join "/" segs).
  cbv iota.
  destruct segs as [|x l].
  - (* the result is the root itself *)
    change (join "/" []) with "". rewrite resolve_empty by assumption.
    rewrite startsWith_refl. cbn [negb].
    change ("/" +:+ join "/" []) with "/" in Hin.
    cbn [startsWith] in Hin.
    change ("/" +:+ join "/" rsegs) with (String "/" (join "/" rsegs)) in Hin.
    cbn [startsWith] in Hin. apply andb_true_iff in Hin as [_ Hin].
    apply startsWith_nil_inv in Hin. rewrite Hin. reflexivity.
  - inversion Hs as [|? ? Hx Hl]; subst.
    rewrite resolve_relative; [|assumption|apply join_proper_nonempty, Hx|].
    2:{ rewrite <- (append_nil_r (join "/" (x :: l))). apply join_proper_head, Hx. }
    rewrite split_join; [| |discriminate].
    2:{ eapply List.Forall_impl; [|exact Hs]. apply proper_no_sep. }
    rewrite norm_fold_proper by assumption.
    rewrite rev_app_distr, !rev_involutive.
    destruct rsegs as [|y rs].
    + cbn [app]. reflexivity.
    + rewrite join_app by discriminate.
      assert (Hne : String.eqb ("/" +:+ join "/" (y :: rs)) "/" = false).
      { apply String.eqb_neq. intros E. injection E as E.
        inversion Hr; subst. eapply join_proper_nonempty; eassumption. }
      rewrite Hne.
      replace ("/" +:+ join "/" (y :: rs) +:+ "/" +:+ join "/" (x :: l))
        with (("/" +:+ join "/" (y :: rs)) +:+ "/" +:+ join "/" (x :: l))
        by (rewrite append_assoc; reflexivity).
      rewrite startsWith_app. reflexivity.
Qed.

(** ** The path resolver *)

(** C4: for every relative path [p], one that does not start with a
    separator, resolving ["/" + p] gives what resolving [p] gives, be it a
    path or the rejection. *)
Theorem resolve_leading_slash (cwd baseDir p : string) :
  startsWith p "/" = false ->
  createPathResolver cwd baseDir (Some (JStr ("/" +:+ p)))
  = createPathResolver cwd baseDir (Some (JStr p)).
Proof.
  intros Hp. unfold createPathResolver.
  change (startsWith ("/" +:+ p) "/") with true.
  change (slice1 ("/" +:+ p)) with p.
  rewrite Hp. reflexivity.
Qed.

Lemma resolve_leading_slash_witness :
  startsWith "a/b" "/" = false
  /\ createPathResolver "/home" "/srv/data" (Some (JStr "/a/b"))
     = createPathResolver "/home" "/srv/data" (Some (JStr "a/b")).
Proof.
  split; [reflexivity|].
  apply (resolve_leading_slash "/home" "/srv/data" "a/b"). reflexivity.
Defined.

(** C3, as stated, fails: under the root [/srv/data] the path [a/b]
    resolves to [/srv/data/a/b], and resolving that result again gives
    [/srv/data/srv/data/a/b]. *)
Lemma resolve_not_idempotent :
  absolute_canonical "/srv/data" = true
  /\ createPathResolver "/home" "/srv/data" (Some (JStr "a/b"))
     = ok "/srv/data/a/b"
  /\ createPathResolver "/home" "/srv/data" (Some (JStr "/srv/data/a/b"))
     = ok "/srv/data/srv/data/a/b"
  /\ createPathResolver "/home" "/srv/data" (Some (JStr "/srv/data/a/b"))
     <> createPathResolver "/home" "/srv/data" (Some (JStr "a/b")).
Proof. vm_compute. repeat split; discriminate. Qed.

Lemma resolve_again_witness :
  absolute_canonical "/srv/data" = true
  /\ createPathResolver "/home" "/srv/data" (Some (JStr "a/./b"))
     = ok "/srv/data/a/b"
  /\ Path.resolve "/home" ["/srv/data/a/b"] = "/srv/data/a/b"
  /\ createPathResolver "/home" "/srv/data" (Some (JStr "/srv/data/a/b"))
     = ok "/srv/data/srv/data/a/b".
Proof.
  assert (Hc : absolute_canonical "/srv/data" = true) by reflexivity.
  assert (Hr : createPathResolver "/home" "/srv/data" (Some (JStr "a/./b"))
               = ok "/srv/data/a/b") by reflexivity.
  split; [exact Hc|]. split; [exact Hr|].
  exact (resolve_again "/home" "/srv/data" "a/./b" "/srv/data/a/b" Hc Hr).
Defined.

(** C1, at the failing input: under the root [/srv/data] the candidate
    [../data2/secret] has a [..] segment and leaves the root, yet the
    resolver returns [/srv/data2/secret], and the request that reads it calls
    [fs.readFile] on that path and is answered with the file's content. *)
Theorem sibling_prefix_not_rejected :
  has_dotdot "../data2/secret" = true
  /\ escapes "/home" "/srv/data" "../data2/secret" = true
  /\ createPathResolver "/home" "/srv/data" (Some (JStr "../data2/secret"))
     = ok "/srv/data2/secret"
  /\ (Scenario.server Scenario.read_sibling Scenario.w0).1
     = with_cors (json_response 200 (JObj [("data", JStr "top secret")]))
  /\ calls (Scenario.server Scenario.read_sibling Scenario.w0).2
     = [Call (fs_readFile "/srv/data2/secret" "utf8")].
Proof. vm_compute. repeat split. Qed.

(** ** The monad *)

Lemma bind_lift_ok {S A B} (x : Exc A) (a : A) (k : A -> M S B) (w : S) :
  x = ok a -> bind (lift x) k w = k a w.
Proof. intros ->. reflexivity. Qed.

Lemma bind_lift_throw {S A B} (x : Exc A) (e : Error) (k : A -> M S B) (w : S) :
  x = throw e -> bind (lift x) k w = (throw e, w).
Proof. intros ->. reflexivity. Qed.

(** A result of a handler, compared component by component. *)
Lemma run_eq `{Platform} {A} (x : A * World) (a : A) (w : World) :
  x.1 = a -> fs x.2 = fs w -> calls x.2 = calls w -> x = (a, w).
Proof.
  destruct x as [a' [f c]], w as [f' c']. simpl. intros -> -> ->. reflexivity.
Qed.

Lemma serve_cons {R} `{Platform} (callback : Request -> World -> R * World)
    (req : Request) (rest : list Request) (w w' : World) (r : R) :
  callback req w = (r, w') ->
  serve callback (req :: rest) w
  = (r :: (serve callback rest w').1, (serve callback rest w').2).
Proof.
  intros Hc. cbn [serve]. rewrite Hc.
  destruct (serve callback rest w'). reflexivity.
Qed.

Lemma serve_length {R} `{Platform} (callback : Request -> World -> R * World)
    (reqs : list Request) (w : World) :
  length (serve callback reqs w).1 = length reqs.
Proof.
  revert w. induction reqs as [|req rest IH]; intros w; [reflexivity|].
  cbn [serve]. destruct (callback req w) as [r w'].
  specialize (IH w'). destruct (serve callback rest w'). simpl in *.
  congruence.
Qed.

Section Dispatch.

Context `{Platform}.

Lemma route_keys_routes (baseDir : string) : (routes baseDir).*1 = route_keys.
Proof. reflexivity. Qed.

Lemma unmatched_lookup (baseDir key : string) :
  key ∉ route_keys -> createFsHandlers baseDir !! key = None.
Proof.
  intros Hk. unfold createFsHandlers.
  apply not_elem_of_list_to_map_1. rewrite route_keys_routes. exact Hk.
Qed.

(** C9, amended: a request under the prefix whose key is not in the route
    table is answered 404 with [{error: "Route not found"}], without any
    primitive being called, by the Vite middleware always and by the [withfs]
    server unless its method is [OPTIONS]. *)
Theorem unmatched_route_404 (BASE prefix : string) (justFs : bool)
    (static : Request -> M World Response) (req : Request) (w : World) :
  startsWith (url req) prefix = true ->
  handlerKey prefix req ∉ route_keys ->
  status route_not_found = 404%Z
  /\ res_body route_not_found = Some (JObj [("error", JStr "Route not found")])
  /\ vite_middleware BASE prefix req w = (Answered route_not_found, w)
  /\ (method req <> "OPTIONS" ->
      withfs_server BASE prefix justFs static req w
      = (with_cors route_not_found, w)).
Proof.
  intros Hp Hk. split; [reflexivity|]. split; [reflexivity|].
  pose proof (unmatched_lookup BASE _ Hk) as Hl. split.
  - unfold vite_middleware, try_catch, dispatch, handlers.
    unfold Handler in *. rewrite Hp, Hl. reflexivity.
  - intros Hm. apply String.eqb_neq in Hm.
    unfold withfs_server, try_catch, dispatch, fsHandlers.
    unfold Handler in *. rewrite Hm, Hp, Hl. reflexivity.
Qed.

(** C5: when the handler selected for a request throws [e], whatever the
    source of [e], both dispatchers answer 500 with the body
    [{error: {message: e, status: 500}}], and the requests that follow are
    served from the state the failed one left. *)
Theorem exception_becomes_500 (BASE prefix : string) (justFs : bool)
    (static : Request -> M World Response) (req : Request)
    (rest : list Request) (w w' : World) (h : Handler) (e : Error) :
  startsWith (url req) prefix = true ->
  createFsHandlers BASE !! handlerKey prefix req = Some h ->
  h req w = (throw e, w') ->
  status (internal_error e) = 500%Z
  /\ res_body (internal_error e)
     = Some (JObj [("error", JObj [("message", JStr e);
                                   ("status", JNum 500)])])
  /\ vite_middleware BASE prefix req w = (Answered (internal_error e), w')
  /\ serve (vite_middleware BASE prefix) (req :: rest) w
     = (Answered (internal_error e)
          :: (serve (vite_middleware BASE prefix) rest w').1,
        (serve (vite_middleware BASE prefix) rest w').2)
  /\ (method req <> "OPTIONS" ->
      withfs_server BASE prefix justFs static req w
      = (with_cors (internal_error e), w')
      /\ serve (withfs_server BASE prefix justFs static) (req :: rest) w
         = (with_cors (internal_error e)
              :: (serve (withfs_server BASE prefix justFs static) rest w').1,
            (serve (withfs_server BASE prefix justFs static) rest w').2)).
Proof.
  intros Hp Hl Hh. split; [reflexivity|]. split; [reflexivity|].
  assert (Hv : vite_middleware BASE prefix req w
               = (Answered (internal_error e), w')).
  { unfold vite_middleware, try_catch, dispatch, handlers.
    unfold Handler in *. rewrite Hp, Hl, Hh. reflexivity. }
  split; [exact Hv|]. split; [apply serve_cons, Hv|].
  intros Hm. apply String.eqb_neq in Hm.
  assert (Hs : withfs_server BASE prefix justFs static req w
               = (with_cors (internal_error e), w')).
  { unfold withfs_server, try_catch, dispatch, fsHandlers.
    unfold Handler in *. rewrite Hm, Hp, Hl, Hh. reflexivity. }
  split; [exact Hs | apply serve_cons, Hs].
Qed.

End Dispatch.

Ltac not_a_route :=
  let Hin := fresh "Hin" in
  vm_compute; intros Hin;
  repeat (apply elem_of_cons in Hin as [Hin|Hin]; [discriminate Hin|]);
  apply elem_of_nil in Hin; exact Hin.

Lemma unmatched_route_404_witness :
  startsWith (url Scenario.get_unknown) Scenario.apiPrefix = true
  /\ (handlerKey Scenario.apiPrefix Scenario.get_unknown ∉ route_keys)
  /\ Scenario.middleware Scenario.get_unknown Scenario.w0
     = (Answered route_not_found, Scenario.w0)
  /\ Scenario.server Scenario.get_unknown Scenario.w0
     = (with_cors route_not_found, Scenario.w0).
Proof.
  assert (Hp : startsWith (url Scenario.get_unknown) Scenario.apiPrefix = true)
    by reflexivity.
  assert (Hk : handlerKey Scenario.apiPrefix Scenario.get_unknown ∉ route_keys)
    by not_a_route.
  split; [exact Hp|]. split; [exact Hk|].
  destruct (unmatched_route_404 Scenario.BASE_DIR Scenario.apiPrefix true
              (fun _ => ret justfs_not_found) Scenario.get_unknown Scenario.w0
              Hp Hk) as (_ & _ & Hv & Hs).
  split; [exact Hv|]. apply Hs. discriminate.
Defined.

(** C9, as stated, fails on the [withfs] server: an [OPTIONS] request under
    the prefix whose key is not in the route table is answered with a bare
    200. *)
Lemma options_unmatched_200 :
  startsWith (url Scenario.options_unknown) Scenario.apiPrefix = true
  /\ (handlerKey Scenario.apiPrefix Scenario.options_unknown ∉ route_keys)
  /\ status (Scenario.server Scenario.options_unknown Scenario.w0).1 = 200%Z
  /\ res_body (Scenario.server Scenario.options_unknown Scenario.w0).1 = None
  /\ (Scenario.server Scenario.options_unknown Scenario.w0).1
     <> with_cors route_not_found.
Proof.
  split; [reflexivity|]. split; [not_a_route|].
  vm_compute. repeat split. discriminate.
Qed.

Lemma exception_becomes_500_witness :
  startsWith (url Scenario.read_escaping) Scenario.apiPrefix = true
  /\ createFsHandlers Scenario.BASE_DIR
       !! handlerKey Scenario.apiPrefix Scenario.read_escaping
     = Some (GET_readFile Scenario.BASE_DIR)
  /\ GET_readFile Scenario.BASE_DIR Scenario.read_escaping Scenario.w0
     = (throw outside_base, Scenario.w0)
  /\ Scenario.middleware Scenario.read_escaping Scenario.w0
     = (Answered (internal_error outside_base), Scenario.w0)
  /\ serve Scenario.server [Scenario.read_escaping; Scenario.read_sibling]
       Scenario.w0
     = (with_cors (internal_error outside_base)
          :: (serve Scenario.server [Scenario.read_sibling] Scenario.w0).1,
        (serve Scenario.server [Scenario.read_sibling] Scenario.w0).2).
Proof.
  assert (Hp : startsWith (url Scenario.read_escaping) Scenario.apiPrefix = true)
    by reflexivity.
  assert (Hl : createFsHandlers Scenario.BASE_DIR
                 !! handlerKey Scenario.apiPrefix Scenario.read_escaping
               = Some (GET_readFile Scenario.BASE_DIR))
    by reflexivity.
  assert (Hh : GET_readFile Scenario.BASE_DIR Scenario.read_escaping Scenario.w0
               = (throw outside_base, Scenario.w0))
    by (apply run_eq; vm_compute; reflexivity).
  split; [exact Hp|]. split; [exact Hl|]. split; [exact Hh|].
  destruct (exception_becomes_500 Scenario.BASE_DIR Scenario.apiPrefix true
              (fun _ => ret justfs_not_found) Scenario.read_escaping
              [Scenario.read_sibling] Scenario.w0 Scenario.w0 _ outside_base
              Hp Hl Hh) as (_ & _ & Hv & _ & Hs).
  split; [exact Hv|]. apply Hs. discriminate.
Defined.

Section Readdir.

Context `{Platform}.

Lemma flag_exact (v : option string) :
  String.eqb (default_to "false" v) "true" = true <-> v = Some "true".
Proof.
  destruct v as [s|]; simpl.
  - rewrite String.eqb_eq. split; [intros ->; reflexivity | congruence].
  - split; discriminate.
Qed.

Lemma resolve_dot (baseDir : string) :
  absolute_canonical baseDir = true ->
  resolvePath baseDir (Some (JStr ".")) = ok baseDir.
Proof.
  intros Hcan. destruct (canonical_segments _ Hcan) as (rsegs & Hr & ->).
  unfold resolvePath, createPathResolver.
  change (startsWith "." "/") with false. cbv iota.
  rewrite resolve_relative; [|assumption|discriminate|reflexivity].
  change (fold_left (Path.norm_step false) (split Path.sep ".") (rev rsegs))
    with (rev rsegs).
  rewrite rev_involutive, startsWith_refl. reflexivity.
Qed.

(** C10: [GET /readdir] calls [fs.readdir] with [withFileTypes] true exactly
    when the query parameter [withFileTypes] is the string [true], and with
    [withFileTypes] false, which asks for plain names, for any other value
    or none; the listing it answers with, under [files] and with status 200,
    is what that call returned, and what the call throws, it throws.
    Without a [path] parameter the directory listed is the confinement
    root. *)
Theorem readdir_withFileTypes (baseDir : string) (req : Request) (w : World)
    (fullPath : string) :
  absolute_canonical baseDir = true ->
  resolvePath baseDir
    (Some (JStr (default_to "." (parseQuery (url req) !! "path"))))
  = ok fullPath ->
  (parseQuery (url req) !! "path" = None -> fullPath = baseDir)
  /\ exists flag,
       (flag = true <-> parseQuery (url req) !! "withFileTypes" = Some "true")
       /\ let listed := fs_run JSON (fs_readdir fullPath flag) (fs w) in
          GET_readdir baseDir req w
          = (match listed.1 with
             | inr files =>
                 ok (json_response 200 (object [("files", Some files)]))
             | inl e => throw e
             end,
             {| fs := listed.2;
                calls := calls w ++ [Call (fs_readdir fullPath flag)] |}).
Proof.
  intros Hcan Hres. split.
  - intros Hnone. rewrite Hnone in Hres. cbn [default_to] in Hres.
    rewrite (resolve_dot _ Hcan) in Hres. injection Hres as <-. reflexivity.
  - exists (String.eqb
              (default_to "false" (parseQuery (url req) !! "withFileTypes"))
              "true").
    split; [apply flag_exact|].
    unfold GET_readdir. rewrite (bind_lift_ok _ _ _ _ Hres).
    unfold bind, call.
    destruct (fs_run _ (fs_readdir fullPath _) (fs w)) as [[e|files] fs'];
      reflexivity.
Qed.

End Readdir.

Lemma readdir_withFileTypes_witness :
  absolute_canonical Scenario.BASE_DIR = true
  /\ resolvePath Scenario.BASE_DIR
       (Some (JStr (default_to "."
                      (parseQuery (url Scenario.readdir_rich) !! "path"))))
     = ok Scenario.BASE_DIR
  /\ (GET_readdir Scenario.BASE_DIR Scenario.readdir_rich Cases.w1).1
     = ok (json_response 200
             (JObj [("files",
                     JArr [JObj [("name", JStr "notes.txt");
                                 ("parentPath", JStr "/srv/data");
                                 ("path", JStr "/srv/data")]])]))
  /\ calls (GET_readdir Scenario.BASE_DIR Scenario.readdir_rich Cases.w1).2
     = [Call (fs_readdir Scenario.BASE_DIR true)].
Proof.
  assert (Hc : absolute_canonical Scenario.BASE_DIR = true) by reflexivity.
  assert (Hr : resolvePath Scenario.BASE_DIR
                 (Some (JStr (default_to "."
                          (parseQuery (url Scenario.readdir_rich) !! "path"))))
               = ok Scenario.BASE_DIR) by (vm_compute; reflexivity).
  split; [exact Hc|]. split; [exact Hr|].
  destruct (readdir_withFileTypes Scenario.BASE_DIR Scenario.readdir_rich
              Cases.w1 Scenario.BASE_DIR Hc Hr) as (_ & flag & Hflag & Hrun).
  assert (Ht : flag = true) by (apply Hflag; vm_compute; reflexivity).
  subst flag. rewrite Hrun. split; [vm_compute; reflexivity | reflexivity].
Defined.

(** Any other value of the parameter gives the plain names. *)
Example readdir_capital_plain :
  (GET_readdir Scenario.BASE_DIR Scenario.readdir_capital Cases.w1).1
  = ok (json_response 200 (JObj [("files", JArr [JStr "notes.txt"])]))
  /\ calls (GET_readdir Scenario.BASE_DIR Scenario.readdir_capital
              Cases.w1).2
     = [Call (fs_readdir Scenario.BASE_DIR false)].
Proof. split; vm_compute; reflexivity. Qed.

(** ** The body decoder and the write handlers *)

Section Decoder.

Context `{Platform}.

Lemma binary_markers_spec (contentType : string) :
  existsb (includes contentType) binary_markers
  = isBinaryContentType contentType.
Proof.
  unfold binary_markers, isBinaryContentType. cbn [existsb].
  rewrite orb_false_r, !orb_assoc. reflexivity.
Qed.

(** C6, amended: the decoder follows the decision table read top to bottom,
    by substring: a binary marker gives the raw body tagged [binary];
    otherwise [text/plain] gives it tagged [text]; otherwise
    [application/json] with a non-empty [path] query parameter gives it
    tagged [json]; any other content type gives it tagged [unknown]. *)
Theorem decoder_follows_table (req : Request) (tag : string) :
  table_tag (default_to "" (headers req !! "content-type"))
    (truthy (JStr <$> (parseQuery (url req) !! "path"))) = Some tag ->
  decodeBody req
  = ok (Payload (JStr <$> (parseQuery (url req) !! "path")) (rawBody req)
          (JStr tag)).
Proof.
  unfold table_tag, decodeBody. rewrite binary_markers_spec.
  destruct (isBinaryContentType _); [intros [= <-]; reflexivity|].
  destruct (includes _ "text/plain"); [intros [= <-]; reflexivity|].
  destruct (includes _ "application/json").
  - destruct (truthy _); [intros [= <-]; reflexivity | discriminate].
  - intros [= <-]. reflexivity.
Qed.

Lemma structured_facts (req : Request) :
  structured req = true ->
  isBinaryContentType (default_to "" (headers req !! "content-type")) = false
  /\ includes (default_to "" (headers req !! "content-type")) "text/plain" = false
  /\ includes (default_to "" (headers req !! "content-type")) "application/json" = true
  /\ truthy (JStr <$> (parseQuery (url req) !! "path")) = false.
Proof.
  unfold structured. rewrite !andb_true_iff, !negb_true_iff. tauto.
Qed.

Lemma decode_structured_empty (req : Request) :
  structured req = true -> rawBody req = [] ->
  decodeBody req = ok (Rejected (bad_request "Empty request body")).
Proof.
  intros Hs Hraw. destruct (structured_facts _ Hs) as (Hb & Ht & Hj & Hq).
  unfold decodeBody. rewrite Hb, Ht, Hj, Hq, Hraw. reflexivity.
Qed.

Lemma decode_structured (req : Request) (body : JSON) :
  structured req = true -> rawBody req <> [] ->
  JSON_parse (Buffer_toString (rawBody req)) = ok body -> body <> JNull ->
  decodeBody req
  = if negb (truthy (prop body "path")) then
      ok (Rejected (bad_request "Path is required"))
    else
      match prop body "data" with
      | None | Some JNull => ok (Rejected (bad_request "Data is required"))
      | Some data =>
          writeData <-? encodeData data
                          (default_to (JStr "text") (prop body "type"))
                          (default_to (JStr "utf8") (prop body "encoding")) ;;
          ok (Payload (prop body "path") writeData
                (default_to (JStr "text") (prop body "type")))
      end.
Proof.
  intros Hs Hraw Hparse Hnull.
  destruct (structured_facts _ Hs) as (Hb & Ht & Hj & Hq).
  assert (Hlen : (length (rawBody req) =? 0)%nat = false)
    by (destruct (rawBody req); [congruence | reflexivity]).
  unfold decodeBody. rewrite Hb, Ht, Hj, Hq, Hlen, Hparse. cbn [bindE].
  destruct body; try congruence; reflexivity.
Qed.

(** What the two handlers do once the decoder has returned. *)
Lemma writeFile_rejected (baseDir : string) (req : Request) (w : World)
    (r : Response) :
  decodeBody req = ok (Rejected r) ->
  POST_writeFile baseDir req w = (ok r, w).
Proof. intros Hd. unfold POST_writeFile. rewrite (bind_lift_ok _ _ _ _ Hd). reflexivity. Qed.

Lemma appendFile_rejected (baseDir : string) (req : Request) (w : World)
    (r : Response) :
  decodeBody req = ok (Rejected r) ->
  POST_appendFile baseDir req w = (ok r, w).
Proof. intros Hd. unfold POST_appendFile. rewrite (bind_lift_ok _ _ _ _ Hd). reflexivity. Qed.

Lemma writeFile_no_data (baseDir : string) (req : Request) (w : World)
    (fp : option JSON) (ty : JSON) :
  decodeBody req = ok (Payload fp [] ty) ->
  POST_writeFile baseDir req w = (ok (bad_request "No data to write"), w).
Proof. intros Hd. unfold POST_writeFile. rewrite (bind_lift_ok _ _ _ _ Hd). reflexivity. Qed.

Lemma appendFile_no_data (baseDir : string) (req : Request) (w : World)
    (fp : option JSON) (ty : JSON) :
  decodeBody req = ok (Payload fp [] ty) ->
  POST_appendFile baseDir req w = (ok (bad_request "No data to append"), w).
Proof. intros Hd. unfold POST_appendFile. rewrite (bind_lift_ok _ _ _ _ Hd). reflexivity. Qed.

Lemma writeFile_throws (baseDir : string) (req : Request) (w : World)
    (e : Error) :
  decodeBody req = throw e -> POST_writeFile baseDir req w = (throw e, w).
Proof. intros Hd. unfold POST_writeFile. rewrite (bind_lift_throw _ _ _ _ Hd). reflexivity. Qed.

Lemma appendFile_throws (baseDir : string) (req : Request) (w : World)
    (e : Error) :
  decodeBody req = throw e -> POST_appendFile baseDir req w = (throw e, w).
Proof. intros Hd. unfold POST_appendFile. rewrite (bind_lift_throw _ _ _ _ Hd). reflexivity. Qed.

(** With a payload of at least one byte, the handler throws or answers
    200. *)
Lemma writeFile_with_data (baseDir : string) (req : Request) (w : World)
    (fp : option JSON) (b : byte) (bs : Buffer) (ty : JSON) :
  decodeBody req = ok (Payload fp (b :: bs) ty) ->
  (exists e w', POST_writeFile baseDir req w = (throw e, w'))
  \/ (exists r w', POST_writeFile baseDir req w = (ok r, w')
                   /\ status r = 200%Z).
Proof.
  intros Hd. unfold POST_writeFile. rewrite (bind_lift_ok _ _ _ _ Hd).
  cbn [length Nat.eqb].
  destruct (resolvePath baseDir fp) as [e|full].
  - left. eexists _, _. reflexivity.
  - unfold bind, lift, call.
    destruct (fs_run _ (fs_writeFile full (b :: bs)) (fs w)) as [[e|[]] fs'].
    + left. eexists _, _. reflexivity.
    + right. eexists _, _. split; reflexivity.
Qed.

Lemma appendFile_with_data (baseDir : string) (req : Request) (w : World)
    (fp : option JSON) (b : byte) (bs : Buffer) (ty : JSON) :
  decodeBody req = ok (Payload fp (b :: bs) ty) ->
  (exists e w', POST_appendFile baseDir req w = (throw e, w'))
  \/ (exists r w', POST_appendFile baseDir req w = (ok r, w')
                   /\ status r = 200%Z).
Proof.
  intros Hd. unfold POST_appendFile. rewrite (bind_lift_ok _ _ _ _ Hd).
  cbn [length Nat.eqb].
  destruct (resolvePath baseDir fp) as [e|full].
  - left. eexists _, _. reflexivity.
  - unfold bind, lift, call.
    destruct (fs_run _ (fs_appendFile full (b :: bs)) (fs w)) as [[e|[]] fs'].
    + left. eexists _, _. reflexivity.
    + right. eexists _, _. split; reflexivity.
Qed.

(** C2: a [POST /writeFile] request whose raw body is empty, whatever its
    content type, or whose decoded payload is empty, is answered with status
    400, and neither the filesystem nor the log of primitives changes. *)
Theorem writeFile_empty_payload (baseDir : string) (req : Request) (w : World) :
  rawBody req = []
  \/ (exists fp ty, decodeBody req = ok (Payload fp [] ty)) ->
  exists r, POST_writeFile baseDir req w = (ok r, w) /\ status r = 400%Z.
Proof.
  intros [Hraw | (fp & ty & Hd)].
  - unfold POST_writeFile, decodeBody. rewrite Hraw.
    destruct (isBinaryContentType _); [eexists; split; reflexivity|].
    destruct (includes _ "text/plain"); [eexists; split; reflexivity|].
    destruct (includes _ "application/json"); [|eexists; split; reflexivity].
    destruct (truthy _); eexists; split; reflexivity.
  - rewrite (writeFile_no_data _ _ _ _ _ Hd). eexists; split; reflexivity.
Qed.

End Decoder.

Lemma writeFile_empty_payload_witness :
  rawBody Scenario.write_empty = []
  /\ exists r,
       POST_writeFile Scenario.BASE_DIR Scenario.write_empty Scenario.w0
       = (ok r, Scenario.w0) /\ status r = 400%Z.
Proof.
  split; [reflexivity|].
  apply (writeFile_empty_payload Scenario.BASE_DIR Scenario.write_empty
           Scenario.w0).
  left. reflexivity.
Defined.

Lemma decoder_follows_table_witness :
  table_tag
    (default_to "" (headers Scenario.write_raw_json !! "content-type"))
    (truthy (JStr <$> (parseQuery (url Scenario.write_raw_json) !! "path")))
  = Some "json"
  /\ decodeBody Scenario.write_raw_json
     = ok (Payload (Some (JStr "raw.json")) (rawBody Scenario.write_raw_json)
             (JStr "json")).
Proof.
  assert (Ht : table_tag
                 (default_to ""
                    (headers Scenario.write_raw_json !! "content-type"))
                 (truthy (JStr <$>
                    (parseQuery (url Scenario.write_raw_json) !! "path")))
               = Some "json") by (vm_compute; reflexivity).
  split; [exact Ht|].
  exact (decoder_follows_table Scenario.write_raw_json "json" Ht).
Defined.

(** C6, as stated, fails: with content type [application/json] and the
    query string [path=], the [path] parameter is present and the table read
    with "present" gives the tag [json], yet the decoder parses the body as a
    structured one and returns its [data] tagged [text]. *)
Lemma empty_path_param_is_structured :
  parseQuery (url Scenario.write_empty_path_param) !! "path" = Some ""
  /\ table_tag
       (default_to ""
          (headers Scenario.write_empty_path_param !! "content-type"))
       (bool_decide
          (is_Some (parseQuery (url Scenario.write_empty_path_param) !! "path")))
     = Some "json"
  /\ decodeBody Scenario.write_empty_path_param
     = ok (Payload (Some (JStr "x.txt")) (list_byte_of_string "hi")
             (JStr "text"))
  /\ decodeBody Scenario.write_empty_path_param
     <> ok (Payload (Some (JStr ""))
              (rawBody Scenario.write_empty_path_param) (JStr "json")).
Proof.
  split; [vm_compute; reflexivity|]. split; [vm_compute; reflexivity|].
  assert (Hd : decodeBody Scenario.write_empty_path_param
               = ok (Payload (Some (JStr "x.txt")) (list_byte_of_string "hi")
                       (JStr "text"))) by (vm_compute; reflexivity).
  split; [exact Hd|]. rewrite Hd. discriminate.
Qed.

Section StructuredBody.

Context `{Platform}.

Lemma not_400_of_throw (h : Handler) (req : Request) (w w' : World) (e : Error) :
  h req w = (throw e, w') -> ~ answers_400 h req w.
Proof. intros Hh (r & w'' & Hr & _). rewrite Hh in Hr. discriminate. Qed.

Lemma not_400_of_200 (h : Handler) (req : Request) (w w' : World)
    (r : Response) :
  h req w = (ok r, w') -> status r = 200%Z -> ~ answers_400 h req w.
Proof.
  intros Hh Hs (r' & w'' & Hr & Hs'). rewrite Hh in Hr.
  injection Hr as <- <-. rewrite Hs in Hs'. discriminate.
Qed.

(** The structured-body branch on a body that, when not empty, parses to
    a value other than [null]. *)
Lemma parsed_bad_request (baseDir : string) (req : Request)
    (body : JSON) (w : World) :
  structured req = true ->
  (rawBody req <> [] ->
   JSON_parse (Buffer_toString (rawBody req)) = ok body /\ body <> JNull) ->
  (answers_400 (POST_writeFile baseDir) req w <-> invalid_structured req body)
  /\ (answers_400 (POST_appendFile baseDir) req w
      <-> invalid_structured req body)
  /\ (invalid_structured req body ->
      exists r r',
        POST_writeFile baseDir req w = (ok r, w) /\ status r = 400%Z
        /\ POST_appendFile baseDir req w = (ok r', w) /\ status r' = 400%Z).
Proof.
  intros Hs Hbody.
  assert (Hcases :
    (invalid_structured req body
     /\ exists r r',
          POST_writeFile baseDir req w = (ok r, w) /\ status r = 400%Z
          /\ POST_appendFile baseDir req w = (ok r', w) /\ status r' = 400%Z)
    \/ (~ invalid_structured req body
        /\ ~ answers_400 (POST_writeFile baseDir) req w
        /\ ~ answers_400 (POST_appendFile baseDir) req w)).
  { destruct (rawBody req) as [|b0 bs0] eqn:Hraw.
    { left. split; [left; exact Hraw|].
      pose proof (decode_structured_empty req Hs Hraw) as Hd.
      rewrite (writeFile_rejected baseDir req w _ Hd),
        (appendFile_rejected baseDir req w _ Hd).
      eexists _, _. repeat split. }
    destruct Hbody as [Hparse Hnull]; [discriminate|].
    assert (Hne : rawBody req <> []) by (rewrite Hraw; discriminate).
    rewrite <- Hraw in Hparse.
    pose proof (decode_structured req body Hs Hne Hparse Hnull) as Hd.
    destruct (truthy (prop body "path")) eqn:Hpath; cbn [negb] in Hd.
    2:{ left. split; [right; left; exact Hpath|].
        rewrite (writeFile_rejected baseDir req w _ Hd),
          (appendFile_rejected baseDir req w _ Hd).
        eexists _, _. repeat split. }
    destruct (prop body "data") as [data|] eqn:Hdata.
    2:{ left. split; [right; right; left; exact Hdata|].
        rewrite (writeFile_rejected baseDir req w _ Hd),
          (appendFile_rejected baseDir req w _ Hd).
        eexists _, _. repeat split. }
    assert (Hnull_or : data = JNull \/ data <> JNull)
      by (destruct data; (left; reflexivity) || (right; discriminate)).
    destruct Hnull_or as [->|Hdn].
    { left. split; [right; right; right; left; exact Hdata|].
      rewrite (writeFile_rejected baseDir req w _ Hd),
        (appendFile_rejected baseDir req w _ Hd).
      eexists _, _. repeat split. }
    assert (Hd' : decodeBody req
      = (writeData <-? encodeData data
                         (default_to (JStr "text") (prop body "type"))
                         (default_to (JStr "utf8") (prop body "encoding")) ;;
         ok (Payload (prop body "path") writeData
               (default_to (JStr "text") (prop body "type"))))).
    { rewrite Hd. destruct data; try reflexivity. congruence. }
    clear Hd.
    destruct (encodeData data _ _) as [e|[|b bs]] eqn:Henc; cbn [bindE] in Hd'.
    - right. split; [|split].
      + intros [Hi|[Hi|[Hi|[Hi|(d & Hi & Hi')]]]]; try congruence.
        rewrite Hdata in Hi. injection Hi as <-.
        rewrite Henc in Hi'. discriminate Hi'.
      + eapply not_400_of_throw, writeFile_throws, Hd'.
      + eapply not_400_of_throw, appendFile_throws, Hd'.
    - left. split.
      + right; right; right; right. exists data. split; [exact Hdata | exact Henc].
      + rewrite (writeFile_no_data baseDir req w _ _ Hd'),
          (appendFile_no_data baseDir req w _ _ Hd').
        eexists _, _. repeat split.
    - right. split; [|split].
      + intros [Hi|[Hi|[Hi|[Hi|(d & Hi & Hi')]]]]; try congruence.
        rewrite Hdata in Hi. injection Hi as <-.
        rewrite Henc in Hi'. discriminate Hi'.
      + destruct (writeFile_with_data baseDir req w _ _ _ _ Hd')
          as [(e & w' & Hw)|(r & w' & Hw & Hst)].
        * eapply not_400_of_throw, Hw.
        * eapply not_400_of_200; eassumption.
      + destruct (appendFile_with_data baseDir req w _ _ _ _ Hd')
          as [(e & w' & Hw)|(r & w' & Hw & Hst)].
        * eapply not_400_of_throw, Hw.
        * eapply not_400_of_200; eassumption. }
  destruct Hcases as [(Hinv & r & r' & Hw & Hsw & Ha & Hsa)|(Hninv & Hnw & Hna)].
  - split; [|split].
    + split; [intros _; exact Hinv | intros _; exists r, w; split; assumption].
    + split; [intros _; exact Hinv | intros _; exists r', w; split; assumption].
    + intros _. exists r, r'. repeat split; assumption.
  - split; [|split].
    + split; [intros Hx; contradiction | intros Hx; contradiction].
    + split; [intros Hx; contradiction | intros Hx; contradiction].
    + intros Hx; contradiction.
Qed.

Lemma decode_structured_throws (req : Request) (e : Error) :
  structured req = true -> rawBody req <> [] ->
  JSON_parse (Buffer_toString (rawBody req)) = throw e ->
  decodeBody req = throw e.
Proof.
  intros Hs Hraw Hparse.
  destruct (structured_facts _ Hs) as (Hb & Ht & Hj & Hq).
  assert (Hlen : (length (rawBody req) =? 0)%nat = false)
    by (destruct (rawBody req); [congruence | reflexivity]).
  unfold decodeBody. rewrite Hb, Ht, Hj, Hq, Hlen, Hparse. reflexivity.
Qed.

Lemma decode_structured_null (req : Request) :
  structured req = true -> rawBody req <> [] ->
  JSON_parse (Buffer_toString (rawBody req)) = ok JNull ->
  decodeBody req = throw "Cannot read properties of null (reading 'path')".
Proof.
  intros Hs Hraw Hparse.
  destruct (structured_facts _ Hs) as (Hb & Ht & Hj & Hq).
  assert (Hlen : (length (rawBody req) =? 0)%nat = false)
    by (destruct (rawBody req); [congruence | reflexivity]).
  unfold decodeBody. rewrite Hb, Ht, Hj, Hq, Hlen, Hparse. reflexivity.
Qed.

(** C8, amended: a request that reaches the structured-body branch is
    answered with status 400 exactly when its raw body is empty, or parses
    to a value other than [null] in which [path] is absent or otherwise
    falsy, or [data] is absent or [null], or the payload decodes to zero
    bytes; in each such case the filesystem and the log of primitives are
    left as they were.  A body that is not empty and does not parse, or
    parses to [null], is not answered with status 400: the handler throws,
    leaving the filesystem and the log as they were.  For [writeFile] and
    [appendFile] alike. *)
Theorem structured_bad_request (baseDir : string) (req : Request)
    (w : World) :
  structured req = true ->
  (answers_400 (POST_writeFile baseDir) req w <-> rejected_structured req)
  /\ (answers_400 (POST_appendFile baseDir) req w <-> rejected_structured req)
  /\ (rejected_structured req ->
      exists r r',
        POST_writeFile baseDir req w = (ok r, w) /\ status r = 400%Z
        /\ POST_appendFile baseDir req w = (ok r', w) /\ status r' = 400%Z)
  /\ (rawBody req <> [] ->
      (forall e,
         JSON_parse (Buffer_toString (rawBody req)) = throw e ->
         POST_writeFile baseDir req w = (throw e, w)
         /\ POST_appendFile baseDir req w = (throw e, w))
      /\ (JSON_parse (Buffer_toString (rawBody req)) = ok JNull ->
          exists e,
            POST_writeFile baseDir req w = (throw e, w)
            /\ POST_appendFile baseDir req w = (throw e, w))).
Proof.
  intros Hs.
  assert (Hthrows : forall e, decodeBody req = throw e ->
            POST_writeFile baseDir req w = (throw e, w)
            /\ POST_appendFile baseDir req w = (throw e, w)).
  { intros e Hd. split; [apply writeFile_throws | apply appendFile_throws];
      exact Hd. }
  assert (Hnot : forall e, decodeBody req = throw e ->
            rawBody req <> [] ->
            (forall body, JSON_parse (Buffer_toString (rawBody req)) = ok body ->
                          body = JNull) ->
            (answers_400 (POST_writeFile baseDir) req w
             <-> rejected_structured req)
            /\ (answers_400 (POST_appendFile baseDir) req w
                <-> rejected_structured req)
            /\ (rejected_structured req ->
                exists r r',
                  POST_writeFile baseDir req w = (ok r, w) /\ status r = 400%Z
                  /\ POST_appendFile baseDir req w = (ok r', w)
                  /\ status r' = 400%Z)).
  { intros e Hd Hraw Hnull. destruct (Hthrows e Hd) as [Hw Ha].
    assert (Hrej : ~ rejected_structured req).
    { intros [Hempty | (body & Hp & Hn & _)]; [contradiction|].
      apply Hn, Hnull, Hp. }
    split; [|split].
    - split; [intros Hx; exfalso; exact (not_400_of_throw _ _ _ _ _ Hw Hx)
             | intros Hx; contradiction].
    - split; [intros Hx; exfalso; exact (not_400_of_throw _ _ _ _ _ Ha Hx)
             | intros Hx; contradiction].
    - intros Hx; contradiction. }
  assert (Hempty_or : rawBody req = [] \/ rawBody req <> [])
    by (destruct (rawBody req); [left; reflexivity | right; discriminate]).
  destruct Hempty_or as [Hraw | Hne].
  { destruct (parsed_bad_request baseDir req JNull w Hs) as (Hw & Ha & Hno).
    { intros Hx; contradiction. }
    assert (Hinv : invalid_structured req JNull) by (left; exact Hraw).
    split; [|split; [|split]].
    - split; [intros _; left; exact Hraw | intros _; apply Hw, Hinv].
    - split; [intros _; left; exact Hraw | intros _; apply Ha, Hinv].
    - intros _. apply Hno, Hinv.
    - intros Hx; contradiction. }
  destruct (JSON_parse (Buffer_toString (rawBody req))) as [e|body] eqn:Hparse.
  - pose proof (decode_structured_throws req e Hs Hne Hparse) as Hd.
    destruct (Hnot e Hd Hne) as (H1 & H2 & H3); [intros ? [=]|].
    split; [exact H1|]. split; [exact H2|]. split; [exact H3|].
    intros _. split.
    + intros e' [= <-]. apply Hthrows, Hd.
    + intros [=].
  - assert (Hnull_or : body = JNull \/ body <> JNull)
      by (destruct body; (left; reflexivity) || (right; discriminate)).
    destruct Hnull_or as [-> | Hnn].
    + pose proof (decode_structured_null req Hs Hne Hparse) as Hd.
      destruct (Hnot _ Hd Hne) as (H1 & H2 & H3);
        [intros ? [= <-]; reflexivity|].
      split; [exact H1|]. split; [exact H2|]. split; [exact H3|].
      intros _. split; [intros e' [=]|].
      intros _. eexists. apply Hthrows, Hd.
    + destruct (parsed_bad_request baseDir req body w Hs) as (Hw & Ha & Hno).
      { intros _. split; [exact Hparse | exact Hnn]. }
      assert (Hiff : rejected_structured req <-> invalid_structured req body).
      { split.
        - intros [Hempty | (body' & Hp & _ & Hinv)]; [contradiction|].
          rewrite Hparse in Hp. injection Hp as <-. exact Hinv.
        - intros Hinv. right. exists body. repeat split; assumption. }
      split; [|split; [|split]].
      * rewrite Hiff. exact Hw.
      * rewrite Hiff. exact Ha.
      * intros Hx. apply Hno, Hiff, Hx.
      * intros _. split; [intros e' [=]|].
        intros [= ->]. contradiction.
Qed.

End StructuredBody.

Lemma structured_bad_request_witness :
  structured Scenario.write_no_data = true
  /\ answers_400 (POST_writeFile Scenario.BASE_DIR) Scenario.write_no_data
       Scenario.w0
  /\ structured Cases.write_unparsable = true
  /\ ~ answers_400 (POST_writeFile Scenario.BASE_DIR) Cases.write_unparsable
        Scenario.w0.
Proof.
  assert (Hs : structured Scenario.write_no_data = true)
    by (vm_compute; reflexivity).
  assert (Hu : structured Cases.write_unparsable = true)
    by (vm_compute; reflexivity).
  split; [exact Hs|]. split; [|split; [exact Hu|]].
  - apply (structured_bad_request Scenario.BASE_DIR Scenario.write_no_data
             Scenario.w0 Hs).
    right. exists (JObj [("path", JStr "a.txt")]).
    split; [vm_compute; reflexivity|]. split; [discriminate|].
    right; right; left. reflexivity.
  - intros H400.
    apply (structured_bad_request Scenario.BASE_DIR Cases.write_unparsable
             Scenario.w0 Hu) in H400.
    destruct H400 as [Hempty | (body & Hp & _)].
    + vm_compute in Hempty. discriminate Hempty.
    + vm_compute in Hp. discriminate Hp.
Defined.

(** C8, as stated, fails: the structured body [{path: "a.txt", data: ""}]
    is not empty, has a [path], and has a [data] that is neither absent nor
    [null], yet the request is answered with status 400. *)
Lemma empty_data_is_bad_request :
  structured Scenario.write_empty_data = true
  /\ JSON_parse (Buffer_toString (rawBody Scenario.write_empty_data))
     = ok (JObj [("path", JStr "a.txt"); ("data", JStr "")])
  /\ ~ invalid_as_stated Scenario.write_empty_data
         (JObj [("path", JStr "a.txt"); ("data", JStr "")])
  /\ answers_400 (POST_writeFile Scenario.BASE_DIR) Scenario.write_empty_data
       Scenario.w0.
Proof.
  split; [vm_compute; reflexivity|]. split; [vm_compute; reflexivity|]. split.
  - intros [Hi|[Hi|[Hi|Hi]]]; vm_compute in Hi; discriminate Hi.
  - exists (bad_request "No data to write"), Scenario.w0.
    split; [apply run_eq; vm_compute; reflexivity | reflexivity].
Qed.

Section RoundTrip.

Context `{Platform}.

Lemma pair_fst {A B} (x : A * B) (a : A) : x.1 = a -> x = (a, x.2).
Proof. destruct x. simpl. intros ->. reflexivity. Qed.

(** C7, amended: a structured write with [type] [json] and no [encoding]
    (or [utf8]) hands to [fs.writeFile] the utf8 bytes of the pretty-printed
    serialization of [data]; when that write succeeds and the filesystem then
    returns these bytes decoded as utf8, reading the same path answers with
    that text, which parses back to [data] wherever [JSON.parse] undoes
    [JSON.stringify] on it. *)
Theorem json_round_trip (BASE : string) (wreq rreq : Request) (w : World)
    (body data : JSON) (p full : string) (bytes : Buffer) (fs1 fs2 : FS) :
  structured wreq = true ->
  rawBody wreq <> [] ->
  JSON_parse (Buffer_toString (rawBody wreq)) = ok body ->
  prop body "path" = Some (JStr p) -> p <> "" ->
  prop body "data" = Some data -> data <> JNull ->
  prop body "type" = Some (JStr "json") ->
  prop body "encoding" = None \/ prop body "encoding" = Some (JStr "utf8") ->
  Buffer_from (JStr (JSON_stringify data)) (Some (JStr "utf8")) = ok bytes ->
  bytes <> [] ->
  resolvePath BASE (Some (JStr p)) = ok full ->
  fs_run unit (fs_writeFile full bytes) (fs w) = (ok tt, fs1) ->
  parseQuery (url rreq) !! "path" = Some p ->
  parseQuery (url rreq) !! "encoding" = None ->
  fs_run string (fs_readFile full "utf8") fs1
  = (ok (Buffer_toString bytes), fs2) ->
  Buffer_toString bytes = JSON_stringify data ->
  JSON_parse (JSON_stringify data) = ok data ->
  exists r1 w1 text w2,
    POST_writeFile BASE wreq w = (ok r1, w1)
    /\ status r1 = 200%Z
    /\ calls w1 = calls w ++ [Call (fs_writeFile full bytes)]
    /\ fs w1 = fs1
    /\ GET_readFile BASE rreq w1
       = (ok (json_response 200 (JObj [("data", JStr text)])), w2)
    /\ calls w2 = calls w1 ++ [Call (fs_readFile full "utf8")]
    /\ text = JSON_stringify data
    /\ JSON_parse text = ok data.
Proof.
  intros Hs Hraw Hparse Hpath Hp Hdata Hdn Htype Henc Hbuf Hbytes Hres
    Hwrite Hqp Hqe Hread Hutf Hjson.
  assert (Hnull : body <> JNull) by (intros ->; discriminate Hpath).
  pose proof (decode_structured wreq body Hs Hraw Hparse Hnull) as Hd.
  assert (Htruthy : truthy (prop body "path") = true).
  { rewrite Hpath. cbn [truthy]. apply negb_true_iff, String.eqb_neq, Hp. }
  assert (Hencoding : default_to (JStr "utf8") (prop body "encoding")
                      = JStr "utf8")
    by (destruct Henc as [-> | ->]; reflexivity).
  rewrite Htruthy, Hdata, Htype, Hencoding in Hd. cbn [negb default_to] in Hd.
  assert (Hd' : decodeBody wreq
                = ok (Payload (prop body "path") bytes (JStr "json"))).
  { rewrite Hd. unfold encodeData.
    change (String.eqb "json" "text") with false.
    change (String.eqb "json" "json") with true. cbv iota.
    rewrite Hbuf. destruct data; try reflexivity. congruence. }
  clear Hd. rewrite Hpath in Hd'.
  assert (Hlen : (length bytes =? 0)%nat = false)
    by (destruct bytes; [congruence | reflexivity]).
  eexists _, {| fs := fs1; calls := calls w ++ [Call (fs_writeFile full bytes)] |},
    (Buffer_toString bytes), {| fs := fs2; calls := _ |}.
  split.
  { unfold POST_writeFile. rewrite (bind_lift_ok _ _ _ _ Hd'), Hlen.
    rewrite (bind_lift_ok _ _ _ _ Hres). unfold bind, call.
    rewrite Hwrite. reflexivity. }
  split; [reflexivity|]. split; [reflexivity|]. split; [reflexivity|].
  split.
  { unfold GET_readFile. rewrite Hqp, Hqe. cbn [fmap option_fmap option_map default_to].
    rewrite (bind_lift_ok _ _ _ _ Hres). unfold bind, call. cbn [fs calls].
    rewrite Hread. reflexivity. }
  split; [reflexivity|]. split; [exact Hutf|].
  rewrite Hutf. exact Hjson.
Qed.

End RoundTrip.

Lemma json_round_trip_witness :
  exists r1 w1 text w2,
    POST_writeFile Scenario.BASE_DIR Scenario.write_json Scenario.w0
    = (ok r1, w1)
    /\ status r1 = 200%Z
    /\ calls w1
       = calls Scenario.w0
         ++ [Call (fs_writeFile "/srv/data/data.json"
                     (list_byte_of_string (JSON_stringify Scenario.john)))]
    /\ fs w1
       = (fs_run unit
            (fs_writeFile "/srv/data/data.json"
               (list_byte_of_string (JSON_stringify Scenario.john)))
            (fs Scenario.w0)).2
    /\ GET_readFile Scenario.BASE_DIR Scenario.read_json w1
       = (ok (json_response 200 (JObj [("data", JStr text)])), w2)
    /\ calls w2 = calls w1 ++ [Call (fs_readFile "/srv/data/data.json" "utf8")]
    /\ text = JSON_stringify Scenario.john
    /\ JSON_parse text = ok Scenario.john.
Proof.
  apply (json_round_trip Scenario.BASE_DIR Scenario.write_json
           Scenario.read_json Scenario.w0
           (JObj [("path", JStr "data.json"); ("data", Scenario.john);
                  ("type", JStr "json")])
           Scenario.john "data.json" "/srv/data/data.json"
           (list_byte_of_string (JSON_stringify Scenario.john))
           (fs_run unit
              (fs_writeFile "/srv/data/data.json"
                 (list_byte_of_string (JSON_stringify Scenario.john)))
              (fs Scenario.w0)).2
           (fs_run string (fs_readFile "/srv/data/data.json" "utf8")
              (fs_run unit
                 (fs_writeFile "/srv/data/data.json"
                    (list_byte_of_string (JSON_stringify Scenario.john)))
                 (fs Scenario.w0)).2).2).
  - vm_compute. reflexivity.
  - discriminate.
  - vm_compute. reflexivity.
  - reflexivity.
  - discriminate.
  - reflexivity.
  - discriminate.
  - reflexivity.
  - left. reflexivity.
  - reflexivity.
  - vm_compute. discriminate.
  - vm_compute. reflexivity.
  - apply pair_fst. vm_compute. reflexivity.
  - vm_compute. reflexivity.
  - vm_compute. reflexivity.
  - apply pair_fst. vm_compute. reflexivity.
  - vm_compute. reflexivity.
  - vm_compute. reflexivity.
Defined.

(** C7, as stated, fails: the structured write of [{name: "John", age: 30}]
    with [type] [json] and [encoding] [hex] decodes the pretty-printed text
    as hexadecimal digits, which gives no byte; the request is answered with
    status 400 without any write, and reading the path back is answered with
    status 500. *)
Lemma hex_encoding_stores_nothing :
  structured Scenario.write_json_hex = true
  /\ JSON_parse (Buffer_toString (rawBody Scenario.write_json_hex))
     = ok (JObj [("path", JStr "data.json"); ("data", Scenario.john);
                 ("type", JStr "json"); ("encoding", JStr "hex")])
  /\ status <$> (serve Scenario.server
                   [Scenario.write_json_hex; Scenario.read_json]
                   Scenario.w0).1
     = [400%Z; 500%Z]
  /\ calls (serve Scenario.server
              [Scenario.write_json_hex; Scenario.read_json] Scenario.w0).2
     = [Call (fs_readFile "/srv/data/data.json" "utf8")]
  /\ Ref.files
       (fs (serve Scenario.server
              [Scenario.write_json_hex; Scenario.read_json] Scenario.w0).2)
     !! "/srv/data/data.json" = None.
Proof. vm_compute. repeat split. Qed.

Example json_round_trip_served :
  (serve Scenario.server [Scenario.write_json; Scenario.read_json]
     Scenario.w0).1
  = [with_cors
       (json_response 200
          (JObj [("message", JStr "File written successfully");
                 ("path", JStr "data.json"); ("type", JStr "json");
                 ("size", JNum 33)]));
     with_cors
       (json_response 200
          (JObj [("data", JStr (JSON_stringify Scenario.john))]))].
Proof. vm_compute. reflexivity. Qed.

(** ** A rejected path, an unparsable body, a failing primitive *)

Section Failures.

Context `{Platform}.

Ltac throws_at H :=
  repeat split;
  match goal with
  | |- ?h _ _ _ _ = _ => unfold h
  end;
  rewrite ?(bind_lift_throw _ _ _ _ H); try reflexivity.

(** When the resolver rejects the [path] query parameter, the handlers that
    take it throw the resolver's error and call no primitive. *)
Lemma query_path_rejected (baseDir : string) (req : Request) (w : World)
    (e : Error) :
  resolvePath baseDir (JStr <$> (parseQuery (url req) !! "path")) = throw e ->
  GET_readFile baseDir req w = (throw e, w)
  /\ GET_stat baseDir req w = (throw e, w)
  /\ GET_lstat baseDir req w = (throw e, w)
  /\ GET_realpath baseDir req w = (throw e, w)
  /\ GET_readlink baseDir req w = (throw e, w).
Proof. intros Hres. throws_at Hres. Qed.

Lemma readdir_path_rejected (baseDir : string) (req : Request) (w : World)
    (e : Error) :
  resolvePath baseDir
    (Some (JStr (default_to "." (parseQuery (url req) !! "path")))) = throw e ->
  GET_readdir baseDir req w = (throw e, w).
Proof. intros Hres. throws_at Hres. Qed.

Lemma write_path_rejected (baseDir : string) (req : Request) (w : World)
    (fp : option JSON) (b : byte) (bs : Buffer) (ty : JSON) (e : Error) :
  decodeBody req = ok (Payload fp (b :: bs) ty) ->
  resolvePath baseDir fp = throw e ->
  POST_writeFile baseDir req w = (throw e, w)
  /\ POST_appendFile baseDir req w = (throw e, w).
Proof.
  intros Hd Hres. split.
  - unfold POST_writeFile. rewrite (bind_lift_ok _ _ _ _ Hd).
    cbn [length Nat.eqb]. rewrite (bind_lift_throw _ _ _ _ Hres). reflexivity.
  - unfold POST_appendFile. rewrite (bind_lift_ok _ _ _ _ Hd).
    cbn [length Nat.eqb]. rewrite (bind_lift_throw _ _ _ _ Hres). reflexivity.
Qed.

Lemma parse_body_ok (req : Request) (k : string) (body : JSON) :
  JSON_parse (Buffer_toString (rawBody req)) = ok body -> body <> JNull ->
  parse_body req k = ok body.
Proof.
  intros Hp Hn. unfold parse_body. rewrite Hp. cbn [bindE].
  destruct body; try reflexivity. congruence.
Qed.

Lemma body_path_rejected (baseDir : string) (req : Request) (w : World)
    (body : JSON) (e : Error) :
  JSON_parse (Buffer_toString (rawBody req)) = ok body -> body <> JNull ->
  resolvePath baseDir (prop body "path") = throw e ->
  POST_mkdir baseDir req w = (throw e, w)
  /\ DELETE_rmdir baseDir req w = (throw e, w)
  /\ DELETE_rm baseDir req w = (throw e, w)
  /\ DELETE_unlink baseDir req w = (throw e, w).
Proof.
  intros Hp Hn Hres.
  pose proof (parse_body_ok req "path" body Hp Hn) as Hb.
  repeat split;
    match goal with |- ?h _ _ _ _ = _ => unfold h end;
    rewrite (bind_lift_ok _ _ _ _ Hb), (bind_lift_throw _ _ _ _ Hres);
    reflexivity.
Qed.

(** [copyFile] and [rename] resolve two paths and call no primitive as soon
    as one of them is rejected. *)
Lemma two_paths_rejected (baseDir : string) (req : Request) (w : World)
    (body : JSON) (a b : string) (e : Error) :
  JSON_parse (Buffer_toString (rawBody req)) = ok body -> body <> JNull ->
  (resolvePath baseDir (prop body a) = throw e
   \/ (exists full, resolvePath baseDir (prop body a) = ok full)
      /\ resolvePath baseDir (prop body b) = throw e) ->
  (a = "src" -> b = "dest" -> POST_copyFile baseDir req w = (throw e, w))
  /\ (a = "oldPath" -> b = "newPath" ->
      PUT_rename baseDir req w = (throw e, w)).
Proof.
  intros Hp Hn Hres. split; intros -> ->.
  - pose proof (parse_body_ok req "src" body Hp Hn) as Hb.
    unfold POST_copyFile. rewrite (bind_lift_ok _ _ _ _ Hb).
    destruct Hres as [Ha | [[full Ha] Hb']].
    + rewrite (bind_lift_throw _ _ _ _ Ha). reflexivity.
    + rewrite (bind_lift_ok _ _ _ _ Ha), (bind_lift_throw _ _ _ _ Hb').
      reflexivity.
  - pose proof (parse_body_ok req "oldPath" body Hp Hn) as Hb.
    unfold PUT_rename. rewrite (bind_lift_ok _ _ _ _ Hb).
    destruct Hres as [Ha | [[full Ha] Hb']].
    + rewrite (bind_lift_throw _ _ _ _ Ha). reflexivity.
    + rewrite (bind_lift_ok _ _ _ _ Ha), (bind_lift_throw _ _ _ _ Hb').
      reflexivity.
Qed.

(** A body that [JSON.parse] refuses makes the handlers that read their
    parameters from it throw, before any path is resolved. *)
Lemma body_not_json (baseDir : string) (req : Request) (w : World) (e : Error) :
  JSON_parse (Buffer_toString (rawBody req)) = throw e ->
  POST_copyFile baseDir req w = (throw e, w)
  /\ POST_mkdir baseDir req w = (throw e, w)
  /\ DELETE_rmdir baseDir req w = (throw e, w)
  /\ DELETE_rm baseDir req w = (throw e, w)
  /\ PUT_rename baseDir req w = (throw e, w)
  /\ DELETE_unlink baseDir req w = (throw e, w).
Proof.
  intros Hp.
  assert (Hb : forall k, parse_body req k = throw e)
    by (intros k; unfold parse_body; rewrite Hp; reflexivity).
  repeat split;
    match goal with |- ?h _ _ _ _ = _ => unfold h end;
    rewrite (bind_lift_throw _ _ _ _ (Hb _)); reflexivity.
Qed.

(** An error of the primitive itself is thrown by the handler, after the
    call was logged. *)
Lemma unlink_primitive_fails (baseDir : string) (req : Request) (w : World)
    (body : JSON) (full : string) (e : Error) (fs' : FS) :
  JSON_parse (Buffer_toString (rawBody req)) = ok body -> body <> JNull ->
  resolvePath baseDir (prop body "path") = ok full ->
  fs_run unit (fs_unlink full) (fs w) = (throw e, fs') ->
  DELETE_unlink baseDir req w
  = (throw e, {| fs := fs'; calls := calls w ++ [Call (fs_unlink full)] |}).
Proof.
  intros Hp Hn Hres Hrun.
  pose proof (parse_body_ok req "path" body Hp Hn) as Hb.
  unfold DELETE_unlink.
  rewrite (bind_lift_ok _ _ _ _ Hb), (bind_lift_ok _ _ _ _ Hres).
  unfold bind, call. rewrite Hrun. reflexivity.
Qed.

End Failures.

(** * Further properties *)

(** ** A logic of the log of calls *)

Section LogicRules.

Context `{Platform}.

Lemma logs_ret {A} (a : A) (Q : list AnyCall -> Exc A -> Prop) :
  Q [] (ok a) -> logs (ret a) Q.
Proof. intros HQ w. exists []. rewrite app_nil_r. split; [reflexivity | exact HQ]. Qed.

Lemma logs_lift {A} (x : Exc A) (Q : list AnyCall -> Exc A -> Prop) :
  Q [] x -> logs (lift x) Q.
Proof. intros HQ w. exists []. rewrite app_nil_r. split; [reflexivity | exact HQ]. Qed.

Lemma logs_call {A} (c : FsCall A) (Q : list AnyCall -> Exc A -> Prop) :
  (forall r, Q [Call c] r) -> logs (call c) Q.
Proof.
  intros HQ w. exists [Call c]. unfold call.
  destruct (fs_run A c (fs w)) as [r fs']. split; [reflexivity | apply HQ].
Qed.

Lemma logs_bind {A B} (m : M World A) (k : A -> M World B)
    (P : list AnyCall -> Exc A -> Prop) (Q : list AnyCall -> Exc B -> Prop) :
  logs m P ->
  (forall new e, P new (throw e) -> Q new (throw e)) ->
  (forall new a, P new (ok a) -> logs (k a) (fun new' r => Q (new ++ new') r)) ->
  logs (bind m k) Q.
Proof.
  intros Hm Hthrow Hk w. destruct (Hm w) as (new & Hcalls & HP).
  unfold bind. destruct (m w) as [[e|a] w']; simpl in *.
  - exists new. split; [exact Hcalls | apply Hthrow, HP].
  - destruct (Hk new a HP w') as (new' & Hcalls' & HQ).
    exists (new ++ new'). split; [|exact HQ].
    rewrite Hcalls', Hcalls, app_assoc. reflexivity.
Qed.

Lemma logs_weaken {A} (m : M World A) (P Q : list AnyCall -> Exc A -> Prop) :
  logs m P -> (forall new r, P new r -> Q new r) -> logs m Q.
Proof.
  intros Hm HPQ w. destruct (Hm w) as (new & Hc & HP).
  exists new. split; [exact Hc | apply HPQ, HP].
Qed.

(** What the resolver returns starts with the base directory. *)
Lemma resolved_starts_with_base (cwd baseDir : string) (v : option JSON)
    (full : string) :
  createPathResolver cwd baseDir v = ok full -> startsWith full baseDir = true.
Proof.
  unfold createPathResolver. destruct v as [[| | |s| |]|]; try discriminate.
  destruct (startsWith (Path.resolve cwd _) baseDir) eqn:Hs; [|discriminate].
  intros [= <-]. exact Hs.
Qed.

(** Resolution of a path, as a step of a handler. *)
Lemma logs_resolve (baseDir : string) (v : option JSON) :
  logs (lift (resolvePath baseDir v))
    (fun new r => new = []
                  /\ forall full, r = ok full -> startsWith full baseDir = true).
Proof.
  apply logs_lift. split; [reflexivity|].
  intros full Hr. eapply resolved_starts_with_base, Hr.
Qed.

Lemma logs_pure {A} (x : Exc A) :
  logs (lift x) (fun new r => new = [] /\ r = x).
Proof. apply logs_lift. split; reflexivity. Qed.

End LogicRules.

(** ** Every handler of the table *)

Section HandlerSpec.

Context `{Platform}.

Variable baseDir : string.

Ltac post :=
  unfold handler_post, confined, json_shaped, ok, throw;
  cbn [length app call_paths]; cbv beta iota;
  repeat match goal with
         | |- _ /\ _ => split
         | |- _ <= _ => repeat constructor
         | |- Forall _ (call_paths _) => cbn [call_paths]
         | |- Forall _ [] => constructor
         | |- Forall _ (_ :: _) => constructor
         | |- is_Some _ => eexists; reflexivity
         | |- True => exact I
         | |- startsWith _ _ = true => assumption
         | |- _ = 200%Z \/ _ => left; reflexivity
         | |- _ = _ => reflexivity
         end.

Ltac step :=
  lazymatch goal with
  | |- logs (bind (lift (resolvePath _ _)) _) _ =>
      let Hfull := fresh "Hfull" in
      eapply logs_bind;
      [ apply logs_resolve
      | intros ? ? [-> _]
      | intros ? ? [-> Hfull]; specialize (Hfull _ eq_refl); cbn [app] ]
  | |- logs (bind (lift _) _) _ =>
      eapply logs_bind;
      [ apply logs_pure
      | intros ? ? [-> _]
      | intros ? ? [-> _]; cbn [app] ]
  | |- logs (bind (call ?c) _) _ =>
      eapply logs_bind;
      [ apply (logs_call c (fun new _ => new = [Call c])); intros; reflexivity
      | intros ? ? ->
      | intros ? ? ->; cbn [app] ]
  | |- logs (ret _) _ => apply logs_ret
  end.

Ltac handler h := intros req; unfold h; repeat (step; try post).

Lemma GET_root_post req : logs (GET_root baseDir req) (handler_post baseDir).
Proof. revert req. handler (@GET_root). Qed.

Lemma GET_methods_post req : logs (GET_methods req) (handler_post baseDir).
Proof. revert req. handler (@GET_methods). Qed.

Lemma GET_readFile_post req : logs (GET_readFile baseDir req) (handler_post baseDir).
Proof. revert req. handler (@GET_readFile). Qed.

Lemma GET_readdir_post req : logs (GET_readdir baseDir req) (handler_post baseDir).
Proof. revert req. handler (@GET_readdir). Qed.

Lemma GET_stat_post req : logs (GET_stat baseDir req) (handler_post baseDir).
Proof. revert req. handler (@GET_stat). Qed.

Lemma GET_lstat_post req : logs (GET_lstat baseDir req) (handler_post baseDir).
Proof. revert req. handler (@GET_lstat). Qed.

Lemma GET_realpath_post req : logs (GET_realpath baseDir req) (handler_post baseDir).
Proof. revert req. handler (@GET_realpath). Qed.

Lemma GET_readlink_post req : logs (GET_readlink baseDir req) (handler_post baseDir).
Proof. revert req. handler (@GET_readlink). Qed.

Lemma POST_copyFile_post req : logs (POST_copyFile baseDir req) (handler_post baseDir).
Proof. revert req. handler (@POST_copyFile). Qed.

Lemma POST_mkdir_post req : logs (POST_mkdir baseDir req) (handler_post baseDir).
Proof. revert req. handler (@POST_mkdir). Qed.

Lemma DELETE_rmdir_post req : logs (DELETE_rmdir baseDir req) (handler_post baseDir).
Proof. revert req. handler (@DELETE_rmdir). Qed.

Lemma DELETE_rm_post req : logs (DELETE_rm baseDir req) (handler_post baseDir).
Proof. revert req. handler (@DELETE_rm). Qed.

Lemma PUT_rename_post req : logs (PUT_rename baseDir req) (handler_post baseDir).
Proof. revert req. handler (@PUT_rename). Qed.

Lemma DELETE_unlink_post req : logs (DELETE_unlink baseDir req) (handler_post baseDir).
Proof. revert req. handler (@DELETE_unlink). Qed.

(** The decoder refuses a request only with a 400 response. *)
Lemma decode_rejected_is_400 (req : Request) (r : Response) :
  decodeBody req = ok (Rejected r) -> exists msg, r = bad_request msg.
Proof.
  unfold decodeBody.
  destruct (isBinaryContentType _); [discriminate|].
  destruct (includes _ "text/plain"); [discriminate|].
  destruct (includes _ "application/json"); [|discriminate].
  destruct (truthy (JStr <$> _)); [discriminate|].
  destruct (length (rawBody req) =? 0)%nat; [intros [= <-]; eauto|].
  destruct (JSON_parse _) as [e|body]; [discriminate|]. cbn [bindE].
  destruct (get body "path") as [e|filePath]; [discriminate|]. cbn [bindE].
  destruct (negb (truthy filePath)); [intros [= <-]; eauto|].
  destruct (prop body "data") as [data|]; [|intros [= <-]; eauto].
  destruct data; try (intros [= <-]; eauto);
    destruct (encodeData _ _ _); discriminate.
Qed.

Lemma write_post (req : Request) :
  logs (POST_writeFile baseDir req) (handler_post baseDir)
  /\ logs (POST_appendFile baseDir req) (handler_post baseDir).
Proof.
  split.
  - unfold POST_writeFile.
    eapply logs_bind; [apply logs_pure | intros ? ? [-> _]; post |].
    intros ? decoded [-> Hd]. cbn [app].
    destruct decoded as [fp data ty | r].
    + destruct (length data =? 0)%nat; [apply logs_ret; post; right; split; reflexivity|].
      repeat (step; try post).
    + destruct (decode_rejected_is_400 _ _ (eq_sym Hd)) as [msg ->].
      apply logs_ret. post. right; split; reflexivity.
  - unfold POST_appendFile.
    eapply logs_bind; [apply logs_pure | intros ? ? [-> _]; post |].
    intros ? decoded [-> Hd]. cbn [app].
    destruct decoded as [fp data ty | r].
    + destruct (length data =? 0)%nat; [apply logs_ret; post; right; split; reflexivity|].
      repeat (step; try post).
    + destruct (decode_rejected_is_400 _ _ (eq_sym Hd)) as [msg ->].
      apply logs_ret. post. right; split; reflexivity.
Qed.

End HandlerSpec.

Section Table.

Context `{Platform}.

(** The handlers of the table, one by one. *)
Lemma routed_handler (baseDir key : string) (h : Handler) :
  createFsHandlers baseDir !! key = Some h ->
  forall req, logs (h req) (handler_post baseDir).
Proof.
  intros Hl req. unfold createFsHandlers in Hl.
  apply elem_of_list_to_map_2 in Hl. unfold routes in Hl.
  repeat (apply elem_of_cons in Hl as [Hl|Hl];
          [injection Hl as _ ->;
           first [ apply GET_root_post | apply GET_methods_post
                 | apply GET_readFile_post | apply GET_readdir_post
                 | apply GET_stat_post | apply GET_lstat_post
                 | apply GET_realpath_post | apply GET_readlink_post
                 | apply write_post | apply POST_copyFile_post
                 | apply POST_mkdir_post | apply DELETE_rmdir_post
                 | apply DELETE_rm_post | apply PUT_rename_post
                 | apply DELETE_unlink_post ]|]).
  apply elem_of_nil in Hl. contradiction.
Qed.

End Table.

Section TableProperties.

Context `{Platform}.

Lemma dispatch_found (hs : gmap string Handler) (prefix : string)
    (req : Request) (h : Handler) :
  hs !! handlerKey prefix req = Some h -> dispatch hs prefix req = h req.
Proof. unfold dispatch. unfold Handler in *. intros ->. reflexivity. Qed.

Lemma dispatch_missing (hs : gmap string Handler) (prefix : string)
    (req : Request) :
  hs !! handlerKey prefix req = None ->
  dispatch hs prefix req = ret route_not_found.
Proof. unfold dispatch. unfold Handler in *. intros ->. reflexivity. Qed.

(** X1: whatever the request, a handler of the table calls at most one
    filesystem primitive, and every path that primitive is called on starts
    with the base directory. *)
Theorem one_confined_call (baseDir key : string) (h : Handler) (req : Request)
    (w : World) :
  createFsHandlers baseDir !! key = Some h ->
  exists new,
    calls (h req w).2 = calls w ++ new
    /\ length new <= 1
    /\ confined baseDir new.
Proof.
  intros Hl. destruct (routed_handler baseDir key h Hl req w)
    as (new & Hc & Hlen & Hconf & _).
  exists new. repeat split; assumption.
Qed.

(** X2: a request under the prefix is answered by the Vite middleware with
    status 200, 400, 404 or 500, always with the JSON content type and a
    body; a 400 or a 404 is sent without any primitive having been called.
    The [withfs] server answers the same, with its CORS headers added, to
    every such request whose method is not [OPTIONS]. *)
Theorem api_answers (BASE prefix : string) (justFs : bool)
    (static : Request -> M World Response) (req : Request) (w : World) :
  startsWith (url req) prefix = true ->
  exists r w',
    vite_middleware BASE prefix req w = (Answered r, w')
    /\ (method req <> "OPTIONS" ->
        withfs_server BASE prefix justFs static req w = (with_cors r, w'))
    /\ json_shaped r
    /\ (status r = 200%Z
        \/ (status r = 400%Z \/ status r = 404%Z) /\ calls w' = calls w
        \/ status r = 500%Z).
Proof.
  intros Hp.
  assert (Hd : exists r w',
    try_catch (dispatch (createFsHandlers BASE) prefix req) internal_error w
    = (r, w')
    /\ json_shaped r
    /\ (status r = 200%Z
        \/ (status r = 400%Z \/ status r = 404%Z) /\ calls w' = calls w
        \/ status r = 500%Z)).
  { unfold try_catch.
    destruct (createFsHandlers BASE !! handlerKey prefix req) as [h|] eqn:Hl.
    2:{ rewrite (dispatch_missing _ _ _ Hl). eexists _, _.
        split; [reflexivity|].
        split; [split; [reflexivity | eexists; reflexivity]|].
        right; left. split; [right; reflexivity | reflexivity]. }
    rewrite (dispatch_found _ _ _ _ Hl).
    - destruct (routed_handler BASE _ h Hl req w)
        as (new & Hc & _ & _ & Hpost).
      destruct (h req w) as [[e|resp] w'] eqn:Hh; simpl in *.
      + eexists _, _. split; [reflexivity|].
        split; [split; [reflexivity | eexists; reflexivity]|].
        right; right. reflexivity.
      + destruct Hpost as [Hshape [Hs | [Hs ->]]].
        * eexists _, _. split; [reflexivity|]. split; [exact Hshape|].
          left. exact Hs.
        * eexists _, _. split; [reflexivity|]. split; [exact Hshape|].
          right; left. split; [left; exact Hs|].
          rewrite Hc. apply app_nil_r. }
  destruct Hd as (r & w' & Hd & Hshape & Hstatus).
  exists r, w'. split; [|split; [|split; assumption]].
  - unfold vite_middleware, handlers. rewrite Hp. cbn [negb].
    rewrite Hd. reflexivity.
  - intros Hm. apply String.eqb_neq in Hm.
    unfold withfs_server, fsHandlers. rewrite Hm, Hp, Hd. reflexivity.
Qed.

Lemma dispatch_confined (BASE prefix : string) (req : Request) (w : World) :
  exists new,
    calls (try_catch (dispatch (createFsHandlers BASE) prefix req)
             internal_error w).2 = calls w ++ new
    /\ length new <= 1
    /\ confined BASE new.
Proof.
  unfold try_catch.
  destruct (createFsHandlers BASE !! handlerKey prefix req) as [h|] eqn:Hl.
  - rewrite (dispatch_found _ _ _ _ Hl).
    destruct (routed_handler BASE _ h Hl req w)
      as (new & Hc & Hlen & Hconf & _).
    exists new. destruct (h req w) as [[e|resp] w']; simpl in *;
      repeat split; assumption.
  - rewrite (dispatch_missing _ _ _ Hl). exists [].
    split; [symmetry; apply app_nil_r|]. split; [apply Nat.le_0_l|].
    constructor.
Qed.

(** X3: whatever the command line and the request, a [withfs] server that
    does not serve static files, or that receives a request under its
    prefix, calls at most one filesystem primitive to answer it, on paths
    that start with the base directory computed from the command line; the
    middleware of the Vite plugin does so for every request and every
    options. *)
Theorem entry_points_confined (o : Cli.Options) (options : Plugin.Options)
    (static : Request -> M World Response) (req : Request) (w : World) :
  (startsWith (url req) (Cli.apiPrefix o) = true \/ Cli.justFs o = true ->
   exists new,
     calls (withfs_main o static req w).2 = calls w ++ new
     /\ length new <= 1
     /\ confined (Cli.BASE_DIR cwd o) new)
  /\ exists new,
       calls (vitePluginFsApi options req w).2 = calls w ++ new
       /\ length new <= 1
       /\ confined (Plugin.BASE_DIR cwd options) new.
Proof.
  assert (Hnone : exists new : list AnyCall,
             calls w = calls w ++ new /\ length new <= 1
             /\ forall b, confined b new).
  { exists []. split; [symmetry; apply app_nil_r|].
    split; [apply Nat.le_0_l | constructor]. }
  split.
  - intros Hapi. unfold withfs_main, withfs_server.
    destruct (String.eqb (method req) "OPTIONS").
    { destruct Hnone as (new & H1 & H2 & H3). exists new. auto. }
    destruct (startsWith (url req) (Cli.apiPrefix o)) eqn:Hp.
    + destruct (dispatch_confined (Cli.BASE_DIR cwd o) (Cli.apiPrefix o) req w)
        as (new & Hc & Hlen & Hconf).
      exists new. unfold fsHandlers.
      destruct (try_catch _ internal_error w) as [r w']. auto.
    + destruct Hapi as [Hapi | ->]; [discriminate|]. cbn [negb].
      destruct Hnone as (new & H1 & H2 & H3). exists new. auto.
  - unfold vitePluginFsApi, vite_middleware.
    destruct (startsWith (url req) (Plugin.API_PREFIX options)); cbn [negb].
    + destruct (dispatch_confined (Plugin.BASE_DIR cwd options)
                  (Plugin.API_PREFIX options) req w)
        as (new & Hc & Hlen & Hconf).
      exists new. unfold handlers.
      destruct (try_catch _ internal_error w) as [r w']. auto.
    + destruct Hnone as (new & H1 & H2 & H3). exists new. auto.
Qed.

End TableProperties.

(** ** More on the resolver *)

Lemma starts_with_segments_app (a b : list string) :
  starts_with_segments (a ++ b) a = true.
Proof.
  induction a as [|x a IH]; [destruct b; reflexivity|].
  cbn [app starts_with_segments]. rewrite String.eqb_refl. exact IH.
Qed.

Lemma filter_proper (l : list string) :
  Forall (fun s => proper_segment s = true) l ->
  List.filter (fun s => negb (String.eqb s "")) l = l.
Proof.
  induction l as [|x l IH]; [reflexivity|]. intros Hl.
  inversion Hl as [|? ? Hx Hr]; subst. cbn [List.filter].
  pose proof (proper_nonempty _ Hx) as Hne. apply String.eqb_neq in Hne.
  rewrite Hne. cbn [negb]. rewrite IH by assumption. reflexivity.
Qed.

(** The segments of a canonical absolute path. *)
Lemma segments_canonical (segs : list string) :
  Forall (fun s => proper_segment s = true) segs ->
  segments ("/" +:+ join "/" segs) = segs.
Proof.
  intros Hs. unfold segments.
  change ("/" +:+ join "/" segs) with ("" +:+ String Path.sep (join "/" segs)).
  rewrite split_app_sep.
  destruct segs as [|x r]; [reflexivity|].
  rewrite split_join; [| |discriminate].
  - change (split Path.sep "" ++ x :: r) with ("" :: x :: r).
    change (List.filter (fun s => negb (String.eqb s "")) ("" :: x :: r))
      with (List.filter (fun s => negb (String.eqb s "")) (x :: r)).
    apply filter_proper, Hs.
  - eapply List.Forall_impl; [|exact Hs]. apply proper_no_sep.
Qed.

Lemma join_app_starts (a b : list string) :
  startsWith (join "/" (a ++ b)) (join "/" a) = true.
Proof.
  destruct a as [|x a]; [reflexivity|].
  destruct b as [|y b]; [rewrite app_nil_r; apply startsWith_refl|].
  rewrite join_app by discriminate. apply startsWith_app.
Qed.

(** Segments without [..] are only pushed or skipped. *)
Lemma norm_fold_no_dotdot (segs acc : list string) :
  Forall (fun s => proper_segment s = true) acc ->
  Forall (fun x => has_char Path.sep x = false) segs ->
  existsb (String.eqb "..") segs = false ->
  exists new, Forall (fun s => proper_segment s = true) new
    /\ fold_left (Path.norm_step false) segs acc = new ++ acc.
Proof.
  revert acc. induction segs as [|x r IH]; intros acc Hacc Hsep Hdd.
  - exists []. split; [constructor | reflexivity].
  - inversion Hsep as [|? ? Hx Hr]; subst.
    cbn [existsb] in Hdd. apply orb_false_iff in Hdd as [Hx' Hdd].
    cbn [fold_left]. unfold Path.norm_step at 2.
    destruct (String.eqb x "") eqn:E1; [apply IH; assumption|].
    destruct (String.eqb x ".") eqn:E2; [apply IH; assumption|].
    rewrite String.eqb_sym in Hx'. rewrite Hx'.
    destruct (IH (x :: acc)) as (new & Hnew & Hfold); [|assumption|assumption|].
    { constructor; [|assumption]. unfold proper_segment.
      rewrite E1, E2, Hx', Hx. reflexivity. }
    exists (new ++ [x]). split.
    + apply Forall_app. split; [assumption|]. constructor; [|constructor].
      unfold proper_segment. rewrite E1, E2, Hx', Hx. reflexivity.
    + rewrite Hfold, <- app_assoc. reflexivity.
Qed.

(** X4: under a canonical absolute root, a path that has no [..] segment and
    that, once its leading separator is stripped, is relative, is never
    rejected: the resolver returns a path that is the root or a descendant
    of it. *)
Theorem plain_path_accepted (cwd baseDir p : string) :
  absolute_canonical baseDir = true ->
  startsWith (if startsWith p "/" then slice1 p else p) "/" = false ->
  has_dotdot (if startsWith p "/" then slice1 p else p) = false ->
  exists r,
    createPathResolver cwd baseDir (Some (JStr p)) = ok r
    /\ inside baseDir r = true.
Proof.
  intros Hcan Hrel Hdd.
  destruct (canonical_segments _ Hcan) as (rsegs & Hr & ->).
  unfold createPathResolver.
  set (q := if startsWith p "/" then slice1 p else p) in *.
  assert (Hshape : exists new,
             Forall (fun s => proper_segment s = true) new
             /\ Path.resolve cwd ["/" +:+ join "/" rsegs; q]
                = "/" +:+ join "/" (rsegs ++ new)).
  { destruct (String.eqb q "") eqn:Hq.
    - apply String.eqb_eq in Hq. rewrite Hq. exists [].
      split; [constructor|]. rewrite app_nil_r. apply resolve_empty, Hr.
    - apply String.eqb_neq in Hq.
      rewrite resolve_relative by assumption.
      destruct (norm_fold_no_dotdot (split Path.sep q) (rev rsegs))
        as (new & Hnew & Hfold);
        [apply Forall_rev_proper, Hr | apply split_elems | exact Hdd |].
      exists (rev new). split; [apply Forall_rev_proper, Hnew|].
      rewrite Hfold, rev_app_distr, rev_involutive. reflexivity. }
  destruct Hshape as (new & Hnew & ->).
  assert (Hstarts : startsWith ("/" +:+ join "/" (rsegs ++ new))
                      ("/" +:+ join "/" rsegs) = true).
  { change (startsWith (String "/" (join "/" (rsegs ++ new)))
              (String "/" (join "/" rsegs)) = true).
    cbn [startsWith]. rewrite Ascii.eqb_refl. apply join_app_starts. }
  rewrite Hstarts. cbn [negb]. eexists. split; [reflexivity|].
  unfold inside. rewrite !segments_canonical.
  - apply starts_with_segments_app.
  - exact Hr.
  - apply Forall_app. split; assumption.
Qed.

Lemma plain_path_accepted_witness :
  exists r,
    createPathResolver "/home" "/srv/data" (Some (JStr "/a//./b.txt")) = ok r
    /\ inside "/srv/data" r = true.
Proof.
  apply (plain_path_accepted "/home" "/srv/data" "/a//./b.txt");
    reflexivity.
Defined.

Lemma join_cons (x : string) (r : list string) :
  join "/" (x :: r) = x +:+ tail_of r.
Proof. destruct r; [symmetry; apply append_nil_r | reflexivity]. Qed.

(** A segment compared with the start of another one, each followed by
    nothing or by a separator. *)
Lemma segment_prefix (n y S T : string) :
  has_char Path.sep n = false -> has_char Path.sep y = false ->
  (S = "" \/ exists S', S = String "/" S') ->
  startsWith (y +:+ S) (n +:+ T) = true ->
  (T = "" -> exists x, y = n +:+ x)
  /\ (forall T', T = String "/" T' ->
      y = n /\ exists S', S = String "/" S' /\ startsWith S' T' = true).
Proof.
  revert y. induction n as [|c n IH]; intros y Hn Hy HS Hst.
  - rewrite append_nil_l in Hst. split.
    + intros _. exists y. reflexivity.
    + intros T' ->. destruct y as [|d y].
      * rewrite append_nil_l in Hst. destruct HS as [-> | [S' ->]];
          [discriminate|].
        cbn [startsWith] in Hst. apply andb_true_iff in Hst as [_ Hst].
        split; [reflexivity|]. exists S'. split; [reflexivity | exact Hst].
      * rewrite append_cons in Hst. cbn [startsWith] in Hst.
        apply andb_true_iff in Hst as [Hd _].
        cbn [has_char] in Hy. apply orb_false_iff in Hy as [Hy _].
        unfold Path.sep in Hy. congruence.
  - cbn [has_char] in Hn. apply orb_false_iff in Hn as [Hc Hn].
    rewrite append_cons in Hst. destruct y as [|d y].
    + rewrite append_nil_l in Hst. destruct HS as [-> | [S' ->]];
        [discriminate|].
      cbn [startsWith] in Hst. apply andb_true_iff in Hst as [Hd _].
      apply Ascii.eqb_eq in Hd. subst c. discriminate.
    + rewrite append_cons in Hst. cbn [startsWith] in Hst.
      apply andb_true_iff in Hst as [Hd Hst]. apply Ascii.eqb_eq in Hd.
      subst d. cbn [has_char] in Hy. apply orb_false_iff in Hy as [_ Hy].
      destruct (IH y Hn Hy HS Hst) as [IH1 IH2]. split.
      * intros HT. destruct (IH1 HT) as [x ->]. exists x. reflexivity.
      * intros T' HT. destruct (IH2 T' HT) as [-> HS']. split; [reflexivity|].
        exact HS'.
Qed.

Lemma tail_of_cases (r : list string) :
  tail_of r = "" \/ exists S', tail_of r = String "/" S'.
Proof. destruct r; [left; reflexivity | right; eexists; reflexivity]. Qed.

(** When the text of one canonical path starts with the text of another,
    the first lies below the second, or the segment of the first that faces
    the last segment of the second extends it. *)
Lemma join_prefix_cases (a b : list string) :
  Forall (fun s => proper_segment s = true) a ->
  Forall (fun s => proper_segment s = true) b ->
  startsWith (join "/" b) (join "/" a) = true ->
  (exists c, b = a ++ c)
  \/ (exists parent name ext rest,
        ext <> "" /\ a = parent ++ [name]
        /\ b = parent ++ (name +:+ ext) :: rest).
Proof.
  revert b. induction a as [|n a IH]; intros b Ha Hb Hst.
  - left. exists b. reflexivity.
  - inversion Ha as [|? ? Hn Ha']; subst.
    destruct b as [|y b].
    + rewrite join_cons in Hst. pose proof (proper_nonempty _ Hn) as Hne.
      destruct n; [congruence|]. rewrite append_cons in Hst. discriminate.
    + inversion Hb as [|? ? Hy Hb']; subst.
      rewrite !join_cons in Hst.
      destruct (segment_prefix n y (tail_of b) (tail_of a)
                  (proper_no_sep _ Hn) (proper_no_sep _ Hy)
                  (tail_of_cases b) Hst) as [H1 H2].
      destruct a as [|n' a].
      * destruct (H1 eq_refl) as [x ->].
        destruct (String.eqb x "") eqn:Hx.
        -- apply String.eqb_eq in Hx as ->. rewrite append_nil_r.
           left. exists b. reflexivity.
        -- apply String.eqb_neq in Hx. right.
           exists [], n, x, b. repeat split; assumption || reflexivity.
      * destruct (H2 _ eq_refl) as [-> (S' & HS & Hst')].
        destruct b as [|y' b]; [discriminate|].
        injection HS as <-.
        destruct (IH (y' :: b) Ha' Hb' Hst')
          as [[c Hc] | (parent & name & ext & rest & Hext & Hpa & Hpb)].
        -- left. exists c. rewrite Hc. reflexivity.
        -- right. exists (n :: parent), name, ext, rest.
           rewrite Hpa, Hpb. repeat split; assumption || reflexivity.
Qed.

(** X5: under a canonical absolute root, a path that the resolver returns
    is the root, a descendant of the root, or a path that leaves the root
    through a sibling whose name extends the name of the root's last
    segment. *)
Theorem accepted_inside_or_sibling (cwd baseDir : string) (v : option JSON)
    (r : string) :
  absolute_canonical baseDir = true ->
  createPathResolver cwd baseDir v = ok r ->
  inside baseDir r = true
  \/ (exists parent name ext rest,
        ext <> ""
        /\ baseDir = "/" +:+ join "/" (parent ++ [name])
        /\ r = "/" +:+ join "/" (parent ++ (name +:+ ext) :: rest)).
Proof.
  intros Hcan Hres.
  destruct (canonical_segments _ Hcan) as (rsegs & Hr & ->).
  unfold createPathResolver in Hres.
  destruct v as [[| | |p| |]|]; try discriminate.
  set (q := if startsWith p "/" then slice1 p else p) in Hres.
  destruct (resolve_shape cwd rsegs q Hr) as (segs & Hs & Hq).
  rewrite Hq in Hres.
  destruct (startsWith ("/" +:+ join "/" segs) ("/" +:+ join "/" rsegs))
    eqn:Hin; [|discriminate].
  cbn [negb] in Hres. injection Hres as <-.
  change (startsWith (String "/" (join "/" segs))
            (String "/" (join "/" rsegs)) = true) in Hin.
  cbn [startsWith] in Hin. apply andb_true_iff in Hin as [_ Hin].
  destruct (join_prefix_cases rsegs segs Hr Hs Hin)
    as [[c ->] | (parent & name & ext & rest & Hext & -> & ->)].
  - left. unfold inside. rewrite !segments_canonical by assumption.
    apply starts_with_segments_app.
  - right. exists parent, name, ext, rest. repeat split; assumption || reflexivity.
Qed.

Lemma accepted_inside_or_sibling_witness :
  inside "/srv/data" "/srv/data2/secret" = true
  \/ (exists parent name ext rest,
        ext <> ""
        /\ "/srv/data" = "/" +:+ join "/" (parent ++ [name])
        /\ "/srv/data2/secret"
           = "/" +:+ join "/" (parent ++ (name +:+ ext) :: rest)).
Proof.
  apply (accepted_inside_or_sibling "/home" "/srv/data"
           (Some (JStr "../data2/secret")) "/srv/data2/secret");
    reflexivity.
Defined.

(** ** The entry points *)

Lemma resolve_loop_reaches (cwd : string) (l : list string) (acc : string) :
  startsWith cwd "/" = true ->
  exists resolvedPath, Path.resolve_loop (l ++ [cwd]) acc = (resolvedPath, true).
Proof.
  intros Hcwd. revert acc. induction l as [|p l IH]; intros acc.
  - cbn [app Path.resolve_loop]. destruct cwd as [|c t]; [discriminate|].
    cbn [String.eqb]. rewrite Hcwd. eexists. reflexivity.
  - cbn [app Path.resolve_loop]. destruct (String.eqb p ""); [apply IH|].
    destruct (startsWith p "/"); [eexists; reflexivity | apply IH].
Qed.

Lemma canonical_of_segments (segs : list string) :
  Forall (fun s => proper_segment s = true) segs ->
  absolute_canonical ("/" +:+ join "/" segs) = true.
Proof.
  intros Hs. unfold absolute_canonical, Path.normalizeString,
    Path.normalize_segments.
  rewrite fold_canonical by assumption. rewrite rev_involutive.
  apply String.eqb_refl.
Qed.

(** What [path.resolve] returns in a process whose working directory is
    absolute is a canonical absolute path. *)
Lemma resolve_is_canonical (cwd : string) (args : list string) :
  startsWith cwd "/" = true ->
  absolute_canonical (Path.resolve cwd args) = true.
Proof.
  intros Hcwd. unfold Path.resolve.
  destruct (resolve_loop_reaches cwd (rev args) "" Hcwd) as [rp ->].
  cbn [negb]. apply canonical_of_segments.
  unfold Path.normalize_segments. apply Forall_rev_proper.
  apply norm_fold_keeps_proper; [constructor | apply split_elems].
Qed.

(** X6: in a process whose working directory is absolute, the base
    directory that [withfs] computes from any command line and the one that
    the Vite plugin computes from any options are canonical absolute
    paths. *)
Theorem base_dir_canonical (cwd : string) (o : Cli.Options)
    (options : Plugin.Options) :
  startsWith cwd "/" = true ->
  absolute_canonical (Cli.BASE_DIR cwd o) = true
  /\ absolute_canonical (Plugin.BASE_DIR cwd options) = true.
Proof.
  intros Hcwd. split; apply resolve_is_canonical, Hcwd.
Qed.

Lemma base_dir_canonical_witness :
  absolute_canonical (Cli.BASE_DIR "/home/user/project" Cli.initial) = true
  /\ absolute_canonical
       (Plugin.BASE_DIR "/home/user/project"
          {| Plugin.baseDir := Some "../shared//files/";
             Plugin.apiPrefix := None |}) = true.
Proof.
  apply (base_dir_canonical "/home/user/project"). reflexivity.
Defined.

Section CliParse.

Variable parseInt : string -> option Z.

Lemma or_string_nonempty (d : string) (x : option string) :
  d <> "" -> or_string d x <> "".
Proof.
  intros Hd. unfold or_string. destruct x as [s|]; [|exact Hd].
  destruct (String.eqb s "") eqn:E; [exact Hd | apply String.eqb_neq, E].
Qed.

Lemma port_of_nonzero (next : option string) : Cli.port_of parseInt next <> 0%Z.
Proof.
  unfold Cli.port_of. destruct next as [text|]; [|discriminate].
  destruct (parseInt text) as [n|]; [|discriminate].
  destruct (n =? 0)%Z eqn:E; [discriminate | apply Z.eqb_neq, E].
Qed.

Lemma parse_keeps_usable (n : nat) (args : list string) (o o' : Cli.Options) :
  length args <= n ->
  Cli.usable o ->
  Cli.parseArgs parseInt args o = Some o' ->
  Cli.usable o'.
Proof.
  revert args o. induction n as [|n IH]; intros args o Hlen Ho.
  { destruct args; [intros [= <-]; exact Ho | inversion Hlen]. }
  destruct args as [|arg rest]; [intros [= <-]; exact Ho|].
  assert (IH' : forall l, length l <= length rest ->
                forall o, Cli.usable o ->
                Cli.parseArgs parseInt l o = Some o' -> Cli.usable o').
  { intros l Hl o0. apply IH. simpl in Hlen.
    apply Nat.succ_le_mono in Hlen. etransitivity; eassumption. }
  destruct Ho as (Hport & Hhost & Hbase & Hprefix).
  assert (Hgo : forall o0, Cli.usable o0 ->
                Cli.parseArgs parseInt rest o0 = Some o' -> Cli.usable o')
    by (apply IH'; reflexivity).
  assert (Hskip : forall next rest' o0, rest = next :: rest' ->
                  Cli.usable o0 ->
                  Cli.parseArgs parseInt rest' o0 = Some o' -> Cli.usable o').
  { intros next rest' o0 ->. apply IH'. simpl. apply Nat.le_succ_diag_r. }
  cbn [Cli.parseArgs].
  destruct (String.eqb arg "--host" || String.eqb arg "-h").
  { destruct rest as [|next rest'].
    - intros [= <-]. repeat split; assumption || discriminate.
    - destruct (negb (String.eqb next "") && negb (startsWith next "-")) eqn:E.
      + apply (Hskip next rest' _ eq_refl).
        apply andb_true_iff in E as [E _]. apply negb_true_iff in E.
        repeat split; try assumption. apply String.eqb_neq, E.
      + apply Hgo. repeat split; assumption || discriminate. }
  destruct (String.eqb arg "--port" || String.eqb arg "-p").
  { destruct rest as [|next rest'].
    - intros [= <-]. repeat split; try assumption.
      apply (port_of_nonzero None).
    - apply (Hskip next rest' _ eq_refl).
      repeat split; try assumption. apply (port_of_nonzero (Some next)). }
  destruct (String.eqb arg "--base-dir" || String.eqb arg "-b").
  { destruct rest as [|next rest'].
    - intros [= <-]. repeat split; try assumption.
      apply (or_string_nonempty "./data" None). discriminate.
    - apply (Hskip next rest' _ eq_refl).
      repeat split; try assumption.
      apply (or_string_nonempty "./data" (Some next)). discriminate. }
  destruct (String.eqb arg "--api-prefix" || String.eqb arg "-a").
  { destruct rest as [|next rest'].
    - intros [= <-]. repeat split; try assumption.
      apply (or_string_nonempty "/api/fs" None). discriminate.
    - apply (Hskip next rest' _ eq_refl).
      repeat split; try assumption.
      apply (or_string_nonempty "/api/fs" (Some next)). discriminate. }
  destruct (String.eqb arg "--open" || String.eqb arg "-o").
  { apply Hgo. repeat split; assumption. }
  destruct (String.eqb arg "--justfs").
  { apply Hgo. repeat split; assumption. }
  destruct (String.eqb arg "--help"); [discriminate|].
  destruct (negb (startsWith arg "-")).
  - apply Hgo. repeat split; assumption.
  - apply Hgo. repeat split; assumption.
Qed.

Lemma port_of_cases (next : string) :
  Cli.port_of parseInt (Some next) = 3000%Z
  \/ parseInt next = Some (Cli.port_of parseInt (Some next)).
Proof.
  unfold Cli.port_of. destruct (parseInt next) as [n|]; [|left; reflexivity].
  destruct (n =? 0)%Z; [left | right]; reflexivity.
Qed.

Lemma or_string_cases (d s : string) :
  or_string d (Some s) = d \/ or_string d (Some s) = s.
Proof. unfold or_string. destruct (String.eqb s ""); [left | right]; reflexivity. Qed.

Lemma parse_keeps_given (all : list string) (n : nat) (args : list string)
    (o o' : Cli.Options) :
  length args <= n ->
  (forall a, List.In a args -> List.In a all) ->
  Cli.defaults_or_given parseInt all o ->
  Cli.parseArgs parseInt args o = Some o' ->
  Cli.defaults_or_given parseInt all o'.
Proof.
  revert args o. induction n as [|n IH]; intros args o Hlen Hin Ho.
  { destruct args; [intros [= <-]; exact Ho | inversion Hlen]. }
  destruct args as [|arg rest]; [intros [= <-]; exact Ho|].
  assert (Harg : List.In arg all) by (apply Hin; left; reflexivity).
  assert (Hrest : forall a, List.In a rest -> List.In a all)
    by (intros a Ha; apply Hin; right; exact Ha).
  assert (Hgo : forall o0, Cli.defaults_or_given parseInt all o0 ->
                Cli.parseArgs parseInt rest o0 = Some o' ->
                Cli.defaults_or_given parseInt all o').
  { intros o0. apply IH; [|exact Hrest]. simpl in Hlen.
    apply Nat.succ_le_mono in Hlen. exact Hlen. }
  assert (Hskip : forall next rest' o0, rest = next :: rest' ->
                  Cli.defaults_or_given parseInt all o0 ->
                  Cli.parseArgs parseInt rest' o0 = Some o' ->
                  Cli.defaults_or_given parseInt all o').
  { intros next rest' o0 ->. apply IH.
    - simpl in Hlen. apply Nat.succ_le_mono in Hlen.
      etransitivity; [apply Nat.le_succ_diag_r | exact Hlen].
    - intros a Ha. apply Hrest. right. exact Ha. }
  destruct Ho as (Hport & Hhost & Hbase & Hprefix & Hproject).
  cbn [Cli.parseArgs].
  destruct (String.eqb arg "--host" || String.eqb arg "-h").
  { destruct rest as [|next rest'].
    - intros [= <-]. repeat split; try assumption. right; left; reflexivity.
    - destruct (negb (String.eqb next "") && negb (startsWith next "-")) eqn:E.
      + apply (Hskip next rest' _ eq_refl).
        apply andb_true_iff in E as [_ E]. apply negb_true_iff in E.
        repeat split; try assumption. right; right.
        split; [apply Hrest; left; reflexivity | exact E].
      + apply Hgo. repeat split; try assumption. right; left; reflexivity. }
  destruct (String.eqb arg "--port" || String.eqb arg "-p").
  { destruct rest as [|next rest'].
    - intros [= <-]. repeat split; try assumption. left; reflexivity.
    - apply (Hskip next rest' _ eq_refl).
      repeat split; try assumption.
      destruct (port_of_cases next) as [Hp | Hp]; [left; exact Hp|].
      right. exists next. split; [apply Hrest; left; reflexivity | exact Hp]. }
  destruct (String.eqb arg "--base-dir" || String.eqb arg "-b").
  { destruct rest as [|next rest'].
    - intros [= <-]. repeat split; try assumption. left; reflexivity.
    - apply (Hskip next rest' _ eq_refl).
      repeat split; try assumption.
      change (or_string "./data" (Some next) = "./data"
              \/ List.In (or_string "./data" (Some next)) all).
      destruct (or_string_cases "./data" next) as [-> | ->];
        [left; reflexivity | right; apply Hrest; left; reflexivity]. }
  destruct (String.eqb arg "--api-prefix" || String.eqb arg "-a").
  { destruct rest as [|next rest'].
    - intros [= <-]. repeat split; try assumption. left; reflexivity.
    - apply (Hskip next rest' _ eq_refl).
      repeat split; try assumption.
      change (or_string "/api/fs" (Some next) = "/api/fs"
              \/ List.In (or_string "/api/fs" (Some next)) all).
      destruct (or_string_cases "/api/fs" next) as [-> | ->];
        [left; reflexivity | right; apply Hrest; left; reflexivity]. }
  destruct (String.eqb arg "--open" || String.eqb arg "-o").
  { apply Hgo. repeat split; assumption. }
  destruct (String.eqb arg "--justfs").
  { apply Hgo. repeat split; assumption. }
  destruct (String.eqb arg "--help"); [discriminate|].
  destruct (negb (startsWith arg "-")) eqn:E.
  - apply Hgo. apply negb_true_iff in E.
    repeat split; try assumption. right. split; [exact Harg | exact E].
  - apply Hgo. repeat split; assumption.
Qed.

(** X7: whatever the command line, when the parse of [withfs] ends without
    [--help], the port is 3000 or what [parseInt] gives for an argument, and
    is not 0; the host is [localhost], [0.0.0.0] or an argument that does not
    start with [-]; the base directory is [./data] or an argument; the API
    prefix is [/api/fs] or an argument; the project directory is [.] or an
    argument that does not start with [-]; and none of the host, the base
    directory and the API prefix is empty. *)
Theorem parsed_options_usable (args : list string) (o : Cli.Options) :
  Cli.parseArgs parseInt args Cli.initial = Some o ->
  Cli.usable o /\ Cli.defaults_or_given parseInt args o.
Proof.
  intros Hparse. split.
  - apply (parse_keeps_usable (length args) args Cli.initial);
      [reflexivity | | exact Hparse].
    repeat split; discriminate.
  - apply (parse_keeps_given args (length args) args Cli.initial);
      [reflexivity | auto | | exact Hparse].
    repeat split; left; reflexivity.
Qed.

Lemma not_a_flag (value flag : string) :
  startsWith value "-" = false -> startsWith flag "-" = true ->
  String.eqb value flag = false.
Proof.
  intros Hv Hf. apply String.eqb_neq. intros ->. congruence.
Qed.

Lemma parse_item (item : Cli.Item) (rest : list string) (o : Cli.Options) :
  Cli.well_formed item ->
  Cli.parseArgs parseInt (Cli.tokens item ++ rest) o
  = Cli.parseArgs parseInt rest (Cli.effect parseInt o item).
Proof.
  destruct item as [f v|f t|f v|f v|f| |v]; cbn [Cli.well_formed].
  - intros ([-> | ->] & Hne & Hdash);
      cbn [Cli.tokens app Cli.parseArgs Cli.effect];
      apply String.eqb_neq in Hne;
      change (String.eqb "--host" "--host" || String.eqb "--host" "-h")
        with true;
      change (String.eqb "-h" "--host" || String.eqb "-h" "-h") with true;
      cbv iota; rewrite Hne, Hdash; reflexivity.
  - intros [-> | ->]; reflexivity.
  - intros [-> | ->]; reflexivity.
  - intros [-> | ->]; reflexivity.
  - intros [-> | ->]; reflexivity.
  - intros _. reflexivity.
  - intros Hdash. cbn [Cli.tokens app Cli.parseArgs Cli.effect].
    rewrite !(not_a_flag v _ Hdash) by reflexivity. cbn [orb].
    rewrite Hdash. reflexivity.
Qed.

(** X27: a command line made of well-formed options, each flag followed by
    its argument, is read option by option from left to right, a later
    option overriding an earlier one, whatever follows it: the host and the
    project directory are the argument given, the port is what [parseInt]
    gives for its argument, or 3000 when that is [NaN] or 0, and the base
    directory and the API prefix are the argument given, or [./data] and
    [/api/fs] when it is empty.  A flag that ends the command line without
    its argument gives [0.0.0.0], 3000, [./data] and [/api/fs]. *)
Theorem options_read_in_order (items : list Cli.Item) (rest : list string)
    (o : Cli.Options) :
  Forall Cli.well_formed items ->
  let tokens := concat (List.map Cli.tokens items) in
  let o' := fold_left (Cli.effect parseInt) items o in
  Cli.parseArgs parseInt (tokens ++ rest) o = Cli.parseArgs parseInt rest o'
  /\ Cli.parseArgs parseInt tokens o = Some o'
  /\ Forall (fun flag =>
               Cli.parseArgs parseInt (tokens ++ [flag]) o
               = Some (Cli.set_host "0.0.0.0" o')) ["--host"; "-h"]
  /\ Forall (fun flag =>
               Cli.parseArgs parseInt (tokens ++ [flag]) o
               = Some (Cli.set_port 3000 o')) ["--port"; "-p"]
  /\ Forall (fun flag =>
               Cli.parseArgs parseInt (tokens ++ [flag]) o
               = Some (Cli.set_baseDir "./data" o')) ["--base-dir"; "-b"]
  /\ Forall (fun flag =>
               Cli.parseArgs parseInt (tokens ++ [flag]) o
               = Some (Cli.set_apiPrefix "/api/fs" o'))
       ["--api-prefix"; "-a"].
Proof.
  intros Hwf.
  assert (Hmain : forall rest,
            Cli.parseArgs parseInt
              (concat (List.map Cli.tokens items) ++ rest) o
            = Cli.parseArgs parseInt rest
                (fold_left (Cli.effect parseInt) items o)).
  { clear rest. intros rest. revert o.
    induction Hwf as [|item items Hitem _ IH]; intros o; [reflexivity|].
    cbn [List.map concat fold_left]. rewrite <- app_assoc.
    rewrite (parse_item item _ o Hitem). apply IH. }
  cbv zeta. split; [apply Hmain|]. split.
  { rewrite <- (app_nil_r (concat _)). apply Hmain. }
  repeat split;
    repeat (apply List.Forall_cons; [rewrite Hmain; reflexivity|]);
    apply List.Forall_nil.
Qed.

End CliParse.

(** ** Routing and query parameters *)

Lemma substring_from_app (a b : string) :
  substring_from (String.length a) (a +:+ b) = b.
Proof. induction a as [|c a IH]; [destruct b; reflexivity | exact IH]. Qed.

Lemma split_head_no_sep (c : ascii) (a b : string) :
  has_char c a = false -> head (split c (a +:+ String c b)) = Some a.
Proof.
  intros Ha. rewrite split_app_sep, (split_no_sep _ _ Ha). reflexivity.
Qed.

Section Routing.

Context `{Platform}.

(** X8: the key a request is dispatched on is its method, a space, and what
    follows the prefix in its URL up to the first [?]; a query string changes
    nothing to it, except after the bare prefix, where the route is [/]
    without a query string and empty with one. *)
Theorem key_ignores_query (prefix route q : string) (req : Request) :
  has_char "?" route = false ->
  (url req = prefix +:+ route ->
   handlerKey prefix req
   = method req +:+ " " +:+ (if String.eqb route "" then "/" else route))
  /\ (url req = prefix +:+ route +:+ String "?" q ->
      handlerKey prefix req = method req +:+ " " +:+ route).
Proof.
  intros Hroute. split; intros Hurl; unfold handlerKey, routePath;
    rewrite Hurl, substring_from_app.
  - destruct (String.eqb route "") eqn:E; [reflexivity|].
    rewrite (split_no_sep _ _ Hroute). reflexivity.
  - assert (Hne : String.eqb (route +:+ String "?" q) "" = false)
      by (destruct route; reflexivity).
    rewrite Hne, (split_head_no_sep _ _ _ Hroute). reflexivity.
Qed.

Lemma fromEntries_lookup (entries : list (string * string))
    (m : gmap string string) (k : string) :
  foldl (fun m kv => <[kv.1 := kv.2]> m) m entries !! k
  = match last_value k entries with
    | Some v => Some v
    | None => m !! k
    end.
Proof.
  revert m. induction entries as [|[k' v] rest IH]; intros m; [reflexivity|].
  cbn [foldl last_value]. rewrite IH.
  destruct (last_value k rest); [reflexivity|]. cbn [fst snd].
  destruct (String.eqb_spec k' k) as [->|Hne].
  - apply lookup_insert_eq.
  - apply lookup_insert_ne, Hne.
Qed.

(** X9: a query parameter that is given several times has the value given
    last; a URL without [?], or with nothing between its first [?] and the
    next one, has no parameter at all. *)
Theorem query_last_value_wins (url k : string) :
  parseQuery url !! k
  = match split "?" url !! 1%nat with
    | Some queryString =>
        if String.eqb queryString "" then None
        else last_value k (URLSearchParams queryString)
    | None => None
    end.
Proof.
  unfold parseQuery. destruct (split "?" url !! 1%nat) as [qs|];
    [|apply lookup_empty].
  destruct (String.eqb qs ""); [apply lookup_empty|].
  unfold Object_fromEntries. rewrite fromEntries_lookup, lookup_empty.
  destruct (last_value k _); reflexivity.
Qed.

(** X10: without a [path] query parameter, [readFile], [stat], [lstat],
    [realpath] and [readlink] throw the [TypeError] of [undefined.startsWith]
    before any primitive is called, and so does each of [mkdir], [rmdir],
    [rm] and [unlink] when its JSON body has no [path]. *)
Theorem missing_path_throws (baseDir : string) (req : Request) (w : World) :
  (parseQuery (url req) !! "path" = None ->
   GET_readFile baseDir req w = (throw (startsWith_TypeError None), w)
   /\ GET_stat baseDir req w = (throw (startsWith_TypeError None), w)
   /\ GET_lstat baseDir req w = (throw (startsWith_TypeError None), w)
   /\ GET_realpath baseDir req w = (throw (startsWith_TypeError None), w)
   /\ GET_readlink baseDir req w = (throw (startsWith_TypeError None), w))
  /\ (forall body,
      JSON_parse (Buffer_toString (rawBody req)) = ok body ->
      body <> JNull -> prop body "path" = None ->
      POST_mkdir baseDir req w = (throw (startsWith_TypeError None), w)
      /\ DELETE_rmdir baseDir req w = (throw (startsWith_TypeError None), w)
      /\ DELETE_rm baseDir req w = (throw (startsWith_TypeError None), w)
      /\ DELETE_unlink baseDir req w = (throw (startsWith_TypeError None), w)).
Proof.
  split.
  - intros Hq. apply query_path_rejected. rewrite Hq. reflexivity.
  - intros body Hp Hn Hpath. apply (body_path_rejected baseDir req w body);
      try assumption. rewrite Hpath. reflexivity.
Qed.

(** X11: when [writeFile] answers, it is either with status 400 and nothing
    has changed, or with status 200 after exactly one call of [fs.writeFile],
    on the resolved path and with the decoded payload, which is not empty and
    whose length is the [size] of the answer; [appendFile] likewise. *)
Theorem write_answers (baseDir : string) (req : Request) (w w' : World)
    (r : Response) :
  (POST_writeFile baseDir req w = (ok r, w') ->
   status r = 400%Z /\ w' = w
   \/ exists fp full data ty,
        decodeBody req = ok (Payload fp data ty) /\ data <> []
        /\ resolvePath baseDir fp = ok full
        /\ calls w' = calls w ++ [Call (fs_writeFile full data)]
        /\ r = json_response 200
                 (written_body "File written successfully" fp ty data))
  /\ (POST_appendFile baseDir req w = (ok r, w') ->
      status r = 400%Z /\ w' = w
      \/ exists fp full data ty,
           decodeBody req = ok (Payload fp data ty) /\ data <> []
           /\ resolvePath baseDir fp = ok full
           /\ calls w' = calls w ++ [Call (fs_appendFile full data)]
           /\ r = json_response 200
                    (written_body "Data appended successfully" fp ty data)).
Proof.
  split.
  - unfold POST_writeFile, bind, lift.
    destruct (decodeBody req) as [e|[fp data ty|rej]] eqn:Hd; [discriminate| |].
    + destruct data as [|b bs]; [intros [= <- <-]; left; split; reflexivity|].
      cbn [length Nat.eqb].
      destruct (resolvePath baseDir fp) as [e|full] eqn:Hres; [discriminate|].
      unfold call.
      destruct (fs_run unit (fs_writeFile full (b :: bs)) (fs w))
        as [[e|[]] fs']; [discriminate|].
      intros [= <- <-]. right. exists fp, full, (b :: bs), ty.
      repeat split; try reflexivity; try assumption. discriminate.
    + destruct (decode_rejected_is_400 req rej Hd) as [msg ->].
      intros [= <- <-]. left; split; reflexivity.
  - unfold POST_appendFile, bind, lift.
    destruct (decodeBody req) as [e|[fp data ty|rej]] eqn:Hd; [discriminate| |].
    + destruct data as [|b bs]; [intros [= <- <-]; left; split; reflexivity|].
      cbn [length Nat.eqb].
      destruct (resolvePath baseDir fp) as [e|full] eqn:Hres; [discriminate|].
      unfold call.
      destruct (fs_run unit (fs_appendFile full (b :: bs)) (fs w))
        as [[e|[]] fs']; [discriminate|].
      intros [= <- <-]. right. exists fp, full, (b :: bs), ty.
      repeat split; try reflexivity; try assumption. discriminate.
    + destruct (decode_rejected_is_400 req rej Hd) as [msg ->].
      intros [= <- <-]. left; split; reflexivity.
Qed.

End Routing.

(** ** Percent-encoding *)

Lemma has_char_app (c : ascii) (a b : string) :
  has_char c (a +:+ b) = has_char c a || has_char c b.
Proof.
  induction a as [|x a IH]; [reflexivity|].
  rewrite append_cons. cbn [has_char]. rewrite IH, orb_assoc. reflexivity.
Qed.

(** One character, encoded: no separator of a query string is left in it,
    and decoding gives it back. *)
Lemma encode_char_spec (c : ascii) :
  has_char "&" (Js.encode_char c) = false
  /\ has_char "?" (Js.encode_char c) = false
  /\ has_char "=" (Js.encode_char c) = false
  /\ has_char "+" (Js.encode_char c) = false
  /\ forall rest,
       Ref.percent_decode (Js.encode_char c +:+ rest)
       = String c (Ref.percent_decode rest).
Proof.
  destruct c as [[] [] [] [] [] [] [] []];
    (split; [reflexivity|]); (split; [reflexivity|]);
    (split; [reflexivity|]); (split; [reflexivity|]);
    intros rest; reflexivity.
Qed.

Lemma encoded_has_no_separator (text : string) :
  has_char "&" (Js.encodeURIComponent text) = false
  /\ has_char "?" (Js.encodeURIComponent text) = false
  /\ has_char "=" (Js.encodeURIComponent text) = false.
Proof.
  induction text as [|c r (IH1 & IH2 & IH3)]; [repeat split|].
  cbn [Js.encodeURIComponent]. rewrite !has_char_app, IH1, IH2, IH3.
  destruct (encode_char_spec c) as (-> & -> & -> & _). repeat split.
Qed.

Lemma decode_encode (text : string) :
  Ref.percent_decode (Js.encodeURIComponent text) = text.
Proof.
  induction text as [|c r IH]; [reflexivity|].
  cbn [Js.encodeURIComponent].
  destruct (encode_char_spec c) as (_ & _ & _ & _ & Hdec).
  rewrite Hdec, IH. reflexivity.
Qed.

(** ** The client and the gateway *)

Lemma endsWithSlash_dropLast (b : string) :
  Client.endsWithSlash b = true -> b = Client.dropLast b +:+ "/".
Proof.
  induction b as [|c b IH]; [discriminate|].
  destruct b as [|d b].
  - cbn [Client.endsWithSlash Client.dropLast]. intros Hc.
    apply Ascii.eqb_eq in Hc as ->. reflexivity.
  - intros Hb. change (Client.endsWithSlash (String d b) = true) in Hb.
    change (Client.dropLast (String c (String d b)))
      with (String c (Client.dropLast (String d b))).
    rewrite append_cons, <- (IH Hb). reflexivity.
Qed.

Lemma endsWithSlash_app_slash (c : string) :
  Client.endsWithSlash (c +:+ "/") = true.
Proof.
  induction c as [|x c IH]; [reflexivity|].
  rewrite append_cons. destruct c as [|y c]; [reflexivity | exact IH].
Qed.

Lemma dropLast_app_char (c : string) (x : ascii) :
  Client.dropLast (c +:+ String x "") = c.
Proof.
  induction c as [|y c IH]; [reflexivity|].
  rewrite append_cons. destruct c as [|z c]; [reflexivity|].
  change (Client.dropLast (String y (String z c +:+ String x "")))
    with (String y (Client.dropLast (String z c +:+ String x ""))).
  rewrite IH. reflexivity.
Qed.

(** X12: [configure] removes one trailing slash of [apiBase] and no more:
    the new [API_BASE] is [apiBase] without its last character when that is a
    slash and [apiBase] itself otherwise, so that it still ends with a slash
    exactly when [apiBase] ends with two. *)
Theorem configure_strips_one_slash (b old : string) :
  (Client.endsWithSlash b = true -> b = Client.configure (Some b) old +:+ "/")
  /\ (Client.endsWithSlash b = false -> Client.configure (Some b) old = b)
  /\ (Client.endsWithSlash (Client.configure (Some b) old) = true
      <-> exists c, b = c +:+ "//").
Proof.
  unfold Client.configure. split; [|split].
  - intros Hb. rewrite Hb. apply endsWithSlash_dropLast, Hb.
  - intros Hb. rewrite Hb. reflexivity.
  - destruct (Client.endsWithSlash b) eqn:Hb; split.
    + intros Hd. exists (Client.dropLast (Client.dropLast b)).
      rewrite (endsWithSlash_dropLast b Hb) at 1.
      rewrite (endsWithSlash_dropLast _ Hd) at 1.
      rewrite append_assoc. reflexivity.
    + intros [c ->].
      change (c +:+ "//") with (c +:+ String "/" (String "/" "")).
      replace (c +:+ String "/" (String "/" ""))
        with ((c +:+ "/") +:+ String "/" "")
        by (rewrite append_assoc; reflexivity).
      rewrite dropLast_app_char. apply endsWithSlash_app_slash.
    + intros Hd. congruence.
    + intros [c ->].
      replace (c +:+ "//") with ((c +:+ "/") +:+ "/") in Hb
        by (rewrite append_assoc; reflexivity).
      rewrite endsWithSlash_app_slash in Hb. discriminate.
Qed.

(** The query string of a URL whose path has no [?]. *)
Lemma query_string_of (path query : string) :
  has_char "?" path = false -> has_char "?" query = false ->
  split "?" (path +:+ String "?" query) !! 1%nat = Some query.
Proof.
  intros Hp Hq.
  rewrite split_app_sep, (split_no_sep _ _ Hp), (split_no_sep _ _ Hq).
  reflexivity.
Qed.

Lemma path_entry (x : string) :
  Ref.URLSearchParams ("path=" +:+ Js.encodeURIComponent x) = [("path", x)].
Proof.
  destruct (encoded_has_no_separator x) as (Hamp & _ & _).
  unfold Ref.URLSearchParams.
  rewrite (split_no_sep "&" ("path=" +:+ Js.encodeURIComponent x)) by exact Hamp.
  change (List.filter _ ["path=" +:+ Js.encodeURIComponent x])
    with ["path=" +:+ Js.encodeURIComponent x].
  cbn [List.map].
  change (Ref.split_pair ("path=" +:+ Js.encodeURIComponent x))
    with ("path", Js.encodeURIComponent x).
  cbv beta iota. rewrite decode_encode. reflexivity.
Qed.

(** A second parameter whose name is a literal and whose value needs no
    escaping. *)
Lemma two_entries (x name value : string) :
  has_char "&" name = false -> has_char "=" name = false ->
  Ref.percent_decode name = name ->
  Ref.split_pair (name +:+ String "=" value) = (name, value) ->
  Js.encodeURIComponent value = value ->
  Ref.URLSearchParams
    (("path=" +:+ Js.encodeURIComponent x)
     +:+ String "&" (name +:+ String "=" value))
  = [("path", x); (name, value)].
Proof.
  intros Hn1 Hn2 Hdn Hsp Hv.
  destruct (encoded_has_no_separator x) as (Hamp & _ & _).
  destruct (encoded_has_no_separator value) as (Hvamp & _ & _).
  rewrite Hv in Hvamp.
  unfold Ref.URLSearchParams.
  rewrite split_app_sep.
  rewrite (split_no_sep "&" ("path=" +:+ Js.encodeURIComponent x)) by exact Hamp.
  rewrite (split_no_sep "&" (name +:+ String "=" value)).
  2:{ rewrite has_char_app. cbn [has_char]. rewrite Hn1, Hvamp. reflexivity. }
  cbn [app List.filter].
  change (String.eqb ("path=" +:+ Js.encodeURIComponent x) "") with false.
  assert (Hne : String.eqb (name +:+ String "=" value) "" = false)
    by (destruct name; reflexivity).
  rewrite Hne. cbn [negb List.map]. rewrite Hsp.
  change (Ref.split_pair ("path=" +:+ Js.encodeURIComponent x))
    with ("path", Js.encodeURIComponent x).
  assert (Hdv : Ref.percent_decode value = value)
    by (rewrite <- Hv at 1; apply decode_encode).
  cbv beta iota. rewrite decode_encode, Hdn, Hdv. reflexivity.
Qed.

Lemma handlerKey_query (prefix route q : string) (req : Request) :
  has_char "?" route = false -> route <> "" ->
  url req = prefix +:+ route +:+ String "?" q ->
  handlerKey prefix req = method req +:+ " " +:+ route.
Proof.
  intros Hroute Hne Hurl. unfold handlerKey, routePath.
  rewrite Hurl, substring_from_app.
  assert (Hn : String.eqb (route +:+ String "?" q) "" = false)
    by (destruct route; reflexivity).
  rewrite Hn, (split_head_no_sep _ _ _ Hroute). reflexivity.
Qed.

(** The query of the requests that carry the path alone. *)
Lemma path_query (prefix route x : string) :
  has_char "?" prefix = false -> has_char "?" route = false ->
  @parseQuery Ref.platform
    (prefix +:+ route +:+ String "?" ("path=" +:+ Js.encodeURIComponent x))
  !! "path" = Some x.
Proof.
  intros Hp Hr. unfold parseQuery. rewrite <- append_assoc.
  rewrite query_string_of.
  - change (String.eqb ("path=" +:+ Js.encodeURIComponent x) "") with false.
    cbv iota.
    change (@URLSearchParams Ref.platform) with Ref.URLSearchParams.
    rewrite path_entry. apply lookup_insert_eq.
  - rewrite has_char_app, Hp, Hr. reflexivity.
  - destruct (encoded_has_no_separator x) as (_ & Hq & _).
    rewrite has_char_app, Hq. reflexivity.
Qed.

Lemma handlerKey_plain (prefix route : string) (req : Request) :
  has_char "?" route = false -> route <> "" ->
  url req = prefix +:+ route ->
  handlerKey prefix req = method req +:+ " " +:+ route.
Proof.
  intros Hroute Hne Hurl. unfold handlerKey, routePath.
  rewrite Hurl, substring_from_app.
  apply String.eqb_neq in Hne. rewrite Hne.
  rewrite (split_no_sep _ _ Hroute). reflexivity.
Qed.

(** X13: whatever the path, when [API_BASE] is the gateway's prefix and has
    no [?], the requests of [stat], [lstat], [realpath] and [readlink] are
    dispatched on the key of the route of the same name, and the [path]
    parameter that the handler reads is the path the caller gave. *)
Theorem client_path_reaches_handler (prefix path : string) :
  has_char "?" prefix = false ->
  Forall (fun '(build, route) =>
            handlerKey prefix (build prefix path) = "GET " +:+ route
            /\ @parseQuery Ref.platform (url (build prefix path)) !! "path"
               = Some path)
    [(Client.stat, "/stat"); (Client.lstat, "/lstat");
     (Client.realpath, "/realpath"); (Client.readlink, "/readlink")].
Proof.
  intros Hp.
  assert (Hroute : forall build route,
            has_char "?" route = false -> route <> "" ->
            (forall p, build prefix p
                       = Client.get (prefix +:+ route +:+ String "?"
                                       ("path=" +:+ Js.encodeURIComponent p))) ->
            handlerKey prefix (build prefix path) = "GET " +:+ route
            /\ @parseQuery Ref.platform (url (build prefix path)) !! "path"
               = Some path).
  { intros build route Hr Hne Hb. rewrite Hb. split.
    - apply (handlerKey_query prefix route
               ("path=" +:+ Js.encodeURIComponent path)); auto.
    - apply (path_query prefix route); assumption. }
  repeat (apply List.Forall_cons;
          [apply Hroute; [reflexivity | discriminate | reflexivity]|]).
  apply List.Forall_nil.
Qed.

Lemma two_param_query (prefix route x name value : string) :
  has_char "?" prefix = false -> has_char "?" route = false ->
  has_char "&" name = false -> has_char "=" name = false ->
  has_char "?" name = false ->
  Ref.percent_decode name = name ->
  Ref.split_pair (name +:+ String "=" value) = (name, value) ->
  Js.encodeURIComponent value = value ->
  name <> "path" ->
  let url := prefix +:+ route +:+ String "?"
               (("path=" +:+ Js.encodeURIComponent x)
                +:+ String "&" (name +:+ String "=" value)) in
  @parseQuery Ref.platform url !! "path" = Some x
  /\ @parseQuery Ref.platform url !! name = Some value.
Proof.
  intros Hp Hr Hn1 Hn2 Hn3 Hdn Hsp Hv Hne url.
  assert (Hq : @parseQuery Ref.platform url
               = <[name := value]> (<["path" := x]> ∅)).
  { unfold parseQuery, url. rewrite <- append_assoc.
    rewrite query_string_of.
    - change (String.eqb (("path=" +:+ Js.encodeURIComponent x)
                          +:+ String "&" (name +:+ String "=" value)) "")
        with false.
      cbv iota.
      change (@URLSearchParams Ref.platform) with Ref.URLSearchParams.
      rewrite two_entries by assumption. reflexivity.
    - rewrite has_char_app, Hp, Hr. reflexivity.
    - destruct (encoded_has_no_separator x) as (_ & Hx & _).
      destruct (encoded_has_no_separator value) as (_ & Hval & _).
      rewrite Hv in Hval.
      rewrite has_char_app, has_char_app, Hx. cbn [has_char].
      rewrite has_char_app, Hn3. cbn [has_char]. rewrite Hval.
      reflexivity. }
  rewrite Hq. split.
  - rewrite lookup_insert_ne by exact Hne. apply lookup_insert_eq.
  - apply lookup_insert_eq.
Qed.

Lemma calls_after_call `{Platform} {A B} (c : FsCall A) (k : A -> M World B)
    (w : World) :
  (forall a w', calls (k a w').2 = calls w') ->
  calls (bind (call c) k w).2 = calls w ++ [Call c].
Proof.
  intros Hk. unfold bind, call.
  destruct (fs_run A c (fs w)) as [[e|a] fs']; [reflexivity|].
  rewrite Hk. reflexivity.
Qed.

(** X14: when [API_BASE] is the gateway's prefix and has no [?], and the
    encoding needs no escaping, [readFile(path, options)] of the client makes
    the gateway call [fs.readFile] on the resolution of exactly [path], with
    exactly the encoding that [options] gives, [utf8] when it gives none. *)
Theorem client_readFile_reaches_primitive (prefix BASE path full : string)
    (options : Client.ReadOptions) (w : @World Ref.platform) :
  has_char "?" prefix = false ->
  Js.encodeURIComponent (Client.encoding_of options)
  = Client.encoding_of options ->
  resolvePath BASE (Some (JStr path)) = ok full ->
  handlerKey prefix (Client.readFile prefix path options) = "GET /readFile"
  /\ calls (GET_readFile BASE (Client.readFile prefix path options) w).2
     = calls w ++ [Call (fs_readFile full (Client.encoding_of options))].
Proof.
  intros Hp He Hres. split.
  - apply (handlerKey_query prefix "/readFile"
             (("path=" +:+ Js.encodeURIComponent path)
              +:+ String "&" ("encoding" +:+ String "="
                                (Client.encoding_of options))));
      [reflexivity | discriminate | reflexivity].
  - destruct (two_param_query prefix "/readFile" path "encoding"
                (Client.encoding_of options))
      as [Hqp Hqe]; try reflexivity; try assumption; try discriminate.
    unfold GET_readFile.
    change (url (Client.readFile prefix path options))
      with (prefix +:+ "/readFile" +:+ String "?"
              (("path=" +:+ Js.encodeURIComponent path)
               +:+ String "&" ("encoding" +:+ String "="
                                 (Client.encoding_of options)))).
    rewrite Hqp, Hqe. cbn [fmap option_fmap option_map default_to].
    rewrite (bind_lift_ok _ _ _ _ Hres).
    apply calls_after_call. reflexivity.
Qed.

(** X15: under the same conditions, [readdir(path, options)] of the client
    makes the gateway call [fs.readdir] with [withFileTypes] true exactly
    when the text of [options.withFileTypes || false] is [true]. *)
Theorem client_readdir_flag (prefix BASE path full : string)
    (withFileTypes : option JSON) (w : @World Ref.platform) :
  has_char "?" prefix = false ->
  Js.encodeURIComponent (Client.withFileTypes_text withFileTypes)
  = Client.withFileTypes_text withFileTypes ->
  resolvePath BASE (Some (JStr path)) = ok full ->
  handlerKey prefix (Client.readdir prefix path withFileTypes) = "GET /readdir"
  /\ calls (GET_readdir BASE (Client.readdir prefix path withFileTypes) w).2
     = calls w
       ++ [Call (fs_readdir full
                   (String.eqb (Client.withFileTypes_text withFileTypes)
                      "true"))].
Proof.
  intros Hp He Hres. split.
  - apply (handlerKey_query prefix "/readdir"
             (("path=" +:+ Js.encodeURIComponent path)
              +:+ String "&" ("withFileTypes" +:+ String "="
                                (Client.withFileTypes_text withFileTypes))));
      [reflexivity | discriminate | reflexivity].
  - destruct (two_param_query prefix "/readdir" path "withFileTypes"
                (Client.withFileTypes_text withFileTypes))
      as [Hqp Hqe]; try reflexivity; try assumption; try discriminate.
    unfold GET_readdir.
    change (url (Client.readdir prefix path withFileTypes))
      with (prefix +:+ "/readdir" +:+ String "?"
              (("path=" +:+ Js.encodeURIComponent path)
               +:+ String "&" ("withFileTypes" +:+ String "="
                                 (Client.withFileTypes_text withFileTypes)))).
    rewrite Hqp, Hqe. cbn [default_to].
    rewrite (bind_lift_ok _ _ _ _ Hres).
    apply calls_after_call. reflexivity.
Qed.

Lemma decode_with_query_path (req : Request) (path : string) :
  @parseQuery Ref.platform (url req) !! "path" = Some path -> path <> "" ->
  exists type,
    @decodeBody Ref.platform req
    = ok (Payload (Some (JStr path)) (rawBody req) (JStr type)).
Proof.
  intros Hq Hne. unfold decodeBody. rewrite Hq.
  cbn [fmap option_fmap option_map].
  assert (Ht : truthy (Some (JStr path)) = true).
  { cbn [truthy]. destruct path; [congruence | reflexivity]. }
  rewrite Ht.
  destruct (isBinaryContentType _); [eexists; reflexivity|].
  destruct (includes _ "text/plain"); [eexists; reflexivity|].
  destruct (includes _ "application/json"); eexists; reflexivity.
Qed.

(** X16: when [API_BASE] is the gateway's prefix and has no [?], the path is
    not empty and the body that [writeFile(path, data)] of the client sends
    is not empty, the gateway calls [fs.writeFile] on the resolution of
    exactly [path] with exactly the bytes of that body, whatever the kind of
    [data]: an object is stored as its JSON text; [appendFile] likewise. *)
Theorem client_write_stores_body (prefix BASE path full : string)
    (data : Client.Data) (w : @World Ref.platform) :
  has_char "?" prefix = false ->
  path <> "" ->
  Client.body_of data <> [] ->
  resolvePath BASE (Some (JStr path)) = ok full ->
  (forall req, Client.writeFile prefix path data = ok req ->
     handlerKey prefix req = "POST /writeFile"
     /\ calls (POST_writeFile BASE req w).2
        = calls w ++ [Call (fs_writeFile full (Client.body_of data))])
  /\ (forall req, Client.appendFile prefix path data = ok req ->
        handlerKey prefix req = "POST /appendFile"
        /\ calls (POST_appendFile BASE req w).2
           = calls w ++ [Call (fs_appendFile full (Client.body_of data))]).
Proof.
  intros Hp Hne Hbody Hres.
  assert (Hlen : (length (Client.body_of data) =? 0)%nat = false).
  { destruct (Client.body_of data); [congruence | reflexivity]. }
  split; intros req Hreq.
  - unfold Client.writeFile in Hreq.
    destruct (Client.contentType_of data) as [e|ct]; [discriminate|].
    cbn [bindE] in Hreq. injection Hreq as <-. split.
    + apply (handlerKey_query prefix "/writeFile"
               ("path=" +:+ Js.encodeURIComponent path));
        [reflexivity | discriminate | reflexivity].
    + destruct (decode_with_query_path
                  (Client.send "POST"
                     (prefix +:+ "/writeFile?path="
                      +:+ Js.encodeURIComponent path) ct (Client.body_of data))
                  path) as [type Hd]; [|exact Hne|].
      { apply (path_query prefix "/writeFile" path Hp). reflexivity. }
      unfold POST_writeFile.
      rewrite (bind_lift_ok _ _ _ _ Hd).
      cbn [rawBody Client.send]. rewrite Hlen.
      rewrite (bind_lift_ok _ _ _ _ Hres).
      apply calls_after_call. reflexivity.
  - unfold Client.appendFile in Hreq.
    destruct (Client.contentType_of data) as [e|ct]; [discriminate|].
    cbn [bindE] in Hreq. injection Hreq as <-. split.
    + apply (handlerKey_query prefix "/appendFile"
               ("path=" +:+ Js.encodeURIComponent path));
        [reflexivity | discriminate | reflexivity].
    + destruct (decode_with_query_path
                  (Client.send "POST"
                     (prefix +:+ "/appendFile?path="
                      +:+ Js.encodeURIComponent path) ct (Client.body_of data))
                  path) as [type Hd]; [|exact Hne|].
      { apply (path_query prefix "/appendFile" path Hp). reflexivity. }
      unfold POST_appendFile.
      rewrite (bind_lift_ok _ _ _ _ Hd).
      cbn [rawBody Client.send]. rewrite Hlen.
      rewrite (bind_lift_ok _ _ _ _ Hres).
      apply calls_after_call. reflexivity.
Qed.

Lemma sent_json_parsed (prefix method route : string) (body : JSON) (k : string) :
  Ref.JSON_parse (Js.stringify body) = ok body -> body <> JNull ->
  @parse_body Ref.platform (Client.send_json prefix method route body) k
  = ok body.
Proof.
  intros Hrt Hn. apply parse_body_ok; [|exact Hn].
  cbn [rawBody Client.send_json Client.send].
  change (@Buffer_toString Ref.platform) with Ref.Buffer_toString.
  change (@JSON_parse Ref.platform) with Ref.JSON_parse.
  unfold Ref.Buffer_toString.
  rewrite string_of_list_byte_of_string. exact Hrt.
Qed.

(** X17: when the JSON text of the body that [rm(path, options)] of the
    client sends is parsed back to that body, the request is dispatched on
    [DELETE /rm] and the gateway calls [fs.rm] on the resolution of exactly
    [path], with [recursive] and [force] as the
    caller gave them when they are truthy and [false] otherwise: nothing is
    removed recursively or forcibly unless the caller asked for it. *)
Theorem client_rm_flags (prefix BASE path full : string)
    (recursive force : option JSON) (w : @World Ref.platform) :
  let body := JObj [("path", JStr path);
                    ("recursive", Client.or_false recursive);
                    ("force", Client.or_false force)] in
  Ref.JSON_parse (Js.stringify body) = ok body ->
  resolvePath BASE (Some (JStr path)) = ok full ->
  handlerKey prefix (Client.rm prefix path recursive force) = "DELETE /rm"
  /\ calls (DELETE_rm BASE (Client.rm prefix path recursive force) w).2
     = calls w
       ++ [Call (fs_rm full (Client.or_false recursive)
                   (Client.or_false force))]
  /\ (truthy recursive = false -> Client.or_false recursive = JBool false)
  /\ (truthy force = false -> Client.or_false force = JBool false).
Proof.
  intros body Hrt Hres. split; [|split; [|split]].
  - apply (handlerKey_plain prefix "/rm");
      [reflexivity | discriminate | reflexivity].
  - unfold DELETE_rm, Client.rm.
    rewrite (bind_lift_ok _ _ _ _
               (sent_json_parsed prefix "DELETE" "/rm" body "path" Hrt
                  ltac:(discriminate))).
    change (prop body "path") with (Some (JStr path)).
    change (prop body "recursive") with (Some (Client.or_false recursive)).
    change (prop body "force") with (Some (Client.or_false force)).
    cbn [default_to].
    rewrite (bind_lift_ok _ _ _ _ Hres).
    apply calls_after_call. reflexivity.
  - intros Ht. unfold Client.or_false. rewrite Ht. reflexivity.
  - intros Ht. unfold Client.or_false. rewrite Ht. reflexivity.
Qed.

(** X18: under the same condition, [mkdir(path, options)] of the client
    is dispatched on [POST /mkdir] and makes the gateway call [fs.mkdir] on
    the resolution of exactly [path],
    recursively when the caller gave no [recursive] option and with the
    caller's value otherwise. *)
Theorem client_mkdir_recursive_by_default (prefix BASE path full : string)
    (recursive : option JSON) (w : @World Ref.platform) :
  let flag := default_to (JBool true) recursive in
  let body := JObj [("path", JStr path); ("recursive", flag)] in
  Ref.JSON_parse (Js.stringify body) = ok body ->
  resolvePath BASE (Some (JStr path)) = ok full ->
  handlerKey prefix (Client.mkdir prefix path recursive) = "POST /mkdir"
  /\ calls (POST_mkdir BASE (Client.mkdir prefix path recursive) w).2
     = calls w ++ [Call (fs_mkdir full flag)].
Proof.
  intros flag body Hrt Hres. split.
  { apply (handlerKey_plain prefix "/mkdir");
      [reflexivity | discriminate | reflexivity]. }
  unfold POST_mkdir, Client.mkdir.
  rewrite (bind_lift_ok _ _ _ _
             (sent_json_parsed prefix "POST" "/mkdir" body "path" Hrt
                ltac:(discriminate))).
  change (prop body "path") with (Some (JStr path)).
  change (prop body "recursive") with (Some flag).
  cbn [default_to].
  rewrite (bind_lift_ok _ _ _ _ Hres).
  apply calls_after_call. reflexivity.
Qed.

(** X19: under the same condition, [rmdir(path, options)] of the client
    makes the gateway call [fs.rmdir] on the resolution of exactly [path],
    recursively only when the caller gave a truthy [recursive] option, and
    [unlink(path)] makes it call [fs.unlink] on the resolution of exactly
    [path]. *)
Theorem client_rmdir_unlink (prefix BASE path full : string)
    (recursive : option JSON) (w : @World Ref.platform) :
  let rmdir_body := JObj [("path", JStr path);
                          ("recursive", Client.or_false recursive)] in
  let unlink_body := JObj [("path", JStr path)] in
  Ref.JSON_parse (Js.stringify rmdir_body) = ok rmdir_body ->
  Ref.JSON_parse (Js.stringify unlink_body) = ok unlink_body ->
  resolvePath BASE (Some (JStr path)) = ok full ->
  (handlerKey prefix (Client.rmdir prefix path recursive) = "DELETE /rmdir"
   /\ calls (DELETE_rmdir BASE (Client.rmdir prefix path recursive) w).2
      = calls w ++ [Call (fs_rmdir full (Client.or_false recursive))])
  /\ (handlerKey prefix (Client.unlink prefix path) = "DELETE /unlink"
      /\ calls (DELETE_unlink BASE (Client.unlink prefix path) w).2
         = calls w ++ [Call (fs_unlink full)]).
Proof.
  intros rmdir_body unlink_body Hrmdir Hunlink Hres. split; split.
  - apply (handlerKey_plain prefix "/rmdir");
      [reflexivity | discriminate | reflexivity].
  - unfold DELETE_rmdir, Client.rmdir.
    rewrite (bind_lift_ok _ _ _ _
               (sent_json_parsed prefix "DELETE" "/rmdir" rmdir_body "path"
                  Hrmdir ltac:(discriminate))).
    change (prop rmdir_body "path") with (Some (JStr path)).
    change (prop rmdir_body "recursive")
      with (Some (Client.or_false recursive)).
    cbn [default_to].
    rewrite (bind_lift_ok _ _ _ _ Hres).
    apply calls_after_call. reflexivity.
  - apply (handlerKey_plain prefix "/unlink");
      [reflexivity | discriminate | reflexivity].
  - unfold DELETE_unlink, Client.unlink.
    rewrite (bind_lift_ok _ _ _ _
               (sent_json_parsed prefix "DELETE" "/unlink" unlink_body "path"
                  Hunlink ltac:(discriminate))).
    change (prop unlink_body "path") with (Some (JStr path)).
    rewrite (bind_lift_ok _ _ _ _ Hres).
    apply calls_after_call. reflexivity.
Qed.

(** X20: when the JSON texts of the bodies sent parse back to these bodies,
    [copyFile(src, dest, flags)] of the client makes the gateway call
    [fs.copyFile] on the resolutions of exactly [src] and [dest], with the
    caller's flags or 0 when there are none, and [rename(oldPath, newPath)]
    makes it call [fs.rename] on the resolutions of exactly [oldPath] and
    [newPath]: both ends of either operation go through the resolver. *)
Theorem client_copy_rename (prefix BASE src dest srcPath destPath : string)
    (flags : option JSON) (w : @World Ref.platform) :
  let copy_body := JObj [("src", JStr src); ("dest", JStr dest);
                         ("flags", default_to (JNum 0) flags)] in
  let rename_body := JObj [("oldPath", JStr src); ("newPath", JStr dest)] in
  Ref.JSON_parse (Js.stringify copy_body) = ok copy_body ->
  Ref.JSON_parse (Js.stringify rename_body) = ok rename_body ->
  resolvePath BASE (Some (JStr src)) = ok srcPath ->
  resolvePath BASE (Some (JStr dest)) = ok destPath ->
  (handlerKey prefix (Client.copyFile prefix src dest flags) = "POST /copyFile"
   /\ calls (POST_copyFile BASE (Client.copyFile prefix src dest flags) w).2
      = calls w
        ++ [Call (fs_copyFile srcPath destPath (default_to (JNum 0) flags))])
  /\ (handlerKey prefix (Client.rename prefix src dest) = "PUT /rename"
      /\ calls (PUT_rename BASE (Client.rename prefix src dest) w).2
         = calls w ++ [Call (fs_rename srcPath destPath)]).
Proof.
  intros copy_body rename_body Hcopy Hrename Hsrc Hdest. split; split.
  - apply (handlerKey_plain prefix "/copyFile");
      [reflexivity | discriminate | reflexivity].
  - unfold POST_copyFile, Client.copyFile.
    rewrite (bind_lift_ok _ _ _ _
               (sent_json_parsed prefix "POST" "/copyFile" copy_body "src"
                  Hcopy ltac:(discriminate))).
    change (prop copy_body "src") with (Some (JStr src)).
    change (prop copy_body "dest") with (Some (JStr dest)).
    change (prop copy_body "flags") with (Some (default_to (JNum 0) flags)).
    cbn [default_to].
    rewrite (bind_lift_ok _ _ _ _ Hsrc), (bind_lift_ok _ _ _ _ Hdest).
    apply calls_after_call. reflexivity.
  - apply (handlerKey_plain prefix "/rename");
      [reflexivity | discriminate | reflexivity].
  - unfold PUT_rename, Client.rename.
    rewrite (bind_lift_ok _ _ _ _
               (sent_json_parsed prefix "PUT" "/rename" rename_body "oldPath"
                  Hrename ltac:(discriminate))).
    change (prop rename_body "oldPath") with (Some (JStr src)).
    change (prop rename_body "newPath") with (Some (JStr dest)).
    rewrite (bind_lift_ok _ _ _ _ Hsrc), (bind_lift_ok _ _ _ _ Hdest).
    apply calls_after_call. reflexivity.
Qed.

(** X21: of the three error answers of the gateway, none of which is [ok]
    for the client, only the one of a thrown exception carries a message the
    client reports, and only when that message is not empty; for a rejected
    request and for an unknown route the client reports its own fallback
    text, so the reason given by the gateway is lost. *)
Theorem client_error_messages (e msg fallback : string) :
  let body r := default_to JNull (res_body r) in
  Client.response_ok (internal_error e) = false
  /\ Client.response_ok (bad_request msg) = false
  /\ Client.response_ok route_not_found = false
  /\ Client.error_message (body (internal_error e)) fallback
     = JStr (if String.eqb e "" then fallback else e)
  /\ Client.error_message (body (bad_request msg)) fallback = JStr fallback
  /\ Client.error_message (body route_not_found) fallback = JStr fallback.
Proof.
  intros body. repeat split.
  unfold Client.error_message, body, internal_error, json_response, object.
  cbn. destruct (String.eqb e ""); reflexivity.
Qed.

(** ** Static files *)

Lemma startsWith_app_r (a p t : string) :
  startsWith a p = true -> startsWith (a +:+ t) p = true.
Proof.
  revert a. induction p as [|c p IH]; intros a; [destruct a; reflexivity|].
  destruct a as [|d a]; [discriminate|].
  rewrite append_cons. cbn [startsWith]. intros H.
  apply andb_true_iff in H as [-> H]. apply IH, H.
Qed.

Lemma endsWithSep_app (a b : string) :
  b <> "" -> Posix.endsWithSep (a +:+ b) = Posix.endsWithSep b.
Proof.
  intros Hb. induction a as [|c a IH]; [reflexivity|].
  rewrite append_cons. cbn [Posix.endsWithSep].
  destruct (a +:+ b) eqn:E; [|exact IH].
  destruct a; [rewrite append_nil_l in E; congruence | discriminate].
Qed.

Lemma endsWithSep_no_sep (s : string) :
  has_char Path.sep s = false -> Posix.endsWithSep s = false.
Proof.
  induction s as [|c s IH]; [reflexivity|]. cbn [has_char]. intros H.
  apply orb_false_iff in H as [Hc Hs]. cbn [Posix.endsWithSep].
  destruct s; [exact Hc | apply IH, Hs].
Qed.

Lemma endsWithSep_join (segs : list string) :
  Forall (fun s => proper_segment s = true) segs ->
  Posix.endsWithSep (join "/" segs) = false.
Proof.
  induction segs as [|x r IH]; [reflexivity|]. intros Hs.
  inversion Hs as [|? ? Hx Hr]; subst.
  destruct r as [|y r]; [apply endsWithSep_no_sep, proper_no_sep, Hx|].
  rewrite join_cons2. rewrite endsWithSep_app.
  - change ("/" +:+ join "/" (y :: r)) with (String "/" (join "/" (y :: r))).
    cbn [Posix.endsWithSep].
    inversion Hr as [|? ? Hy Hr']; subst.
    pose proof (join_proper_nonempty y r Hy) as Hne.
    specialize (IH Hr).
    destruct (join "/" (y :: r)) eqn:E; [congruence | exact IH].
  - discriminate.
Qed.

(** A prefix that does not end with a separator is a prefix of the text
    before a trailing separator. *)
Lemma startsWith_drop_sep (a p : string) :
  Posix.endsWithSep p = false ->
  startsWith (a +:+ "/") p = true -> startsWith a p = true.
Proof.
  revert a. induction p as [|c p IH]; intros a Hp Hst;
    [destruct a; reflexivity|].
  destruct a as [|d a].
  - rewrite append_nil_l in Hst. cbn [startsWith] in Hst.
    apply andb_true_iff in Hst as [Hc Hst].
    apply startsWith_nil_inv in Hst. subst p.
    cbn [Posix.endsWithSep] in Hp. unfold Path.sep in Hp.
    rewrite Ascii.eqb_sym in Hc. congruence.
  - rewrite append_cons in Hst. cbn [startsWith] in *.
    apply andb_true_iff in Hst as [-> Hst]. cbn [andb].
    destruct p as [|e p]; [destruct a; reflexivity|].
    apply IH; [exact Hp | exact Hst].
Qed.

Lemma segments_trailing (segs : list string) (t : string) :
  Forall (fun s => proper_segment s = true) segs ->
  t = "" \/ t = "/" ->
  segments ("/" +:+ join "/" segs +:+ t) = segs.
Proof.
  intros Hs [-> | ->].
  - rewrite append_nil_r. apply segments_canonical, Hs.
  - pose proof (segments_canonical segs Hs) as Hc. unfold segments in *.
    rewrite <- append_assoc.
    change (("/" +:+ join "/" segs) +:+ "/")
      with (("/" +:+ join "/" segs) +:+ String Path.sep "").
    rewrite split_app_sep, List.filter_app, Hc. cbn. apply app_nil_r.
Qed.

(** The shape of [path.join(root, pathname)] under a canonical absolute
    root. *)
Lemma join_shape (rsegs : list string) (pathname : string) :
  Forall (fun s => proper_segment s = true) rsegs ->
  exists t,
    (t = "" \/ t = "/")
    /\ Posix.join ["/" +:+ join "/" rsegs; pathname]
       = "/" +:+ join "/" (rev (fold_left (Path.norm_step false)
                                  (split Path.sep pathname) (rev rsegs)))
         +:+ t.
Proof.
  intros Hr.
  set (segs := rev (fold_left (Path.norm_step false)
                      (split Path.sep pathname) (rev rsegs))).
  assert (Hnorm : forall joined,
             fold_left (Path.norm_step false) (split Path.sep joined) []
             = rev segs ->
             startsWith joined "/" = true ->
             exists t, (t = "" \/ t = "/")
               /\ Posix.normalize joined = "/" +:+ join "/" segs +:+ t).
  { intros joined Hfold Habs. unfold Posix.normalize.
    destruct (String.eqb joined "") eqn:E;
      [apply String.eqb_eq in E; subst; discriminate|].
    rewrite Habs. cbn [negb].
    unfold Path.normalizeString, Path.normalize_segments.
    rewrite Hfold, rev_involutive.
    destruct (String.eqb (join "/" segs) "") eqn:Ej.
    - apply String.eqb_eq in Ej. rewrite Ej. exists "". split; [left|];
        reflexivity.
    - destruct (Posix.endsWithSep joined).
      + exists "/". split; [right; reflexivity|].
        rewrite <- append_assoc. reflexivity.
      + exists "". split; [left; reflexivity|].
        rewrite append_nil_r. reflexivity. }
  unfold Posix.join. cbn [List.filter].
  change (String.eqb ("/" +:+ join "/" rsegs) "") with false. cbn [negb].
  destruct (String.eqb pathname "") eqn:Ep.
  - apply String.eqb_eq in Ep. cbn [negb].
    change (join "/" ["/" +:+ join "/" rsegs]) with ("/" +:+ join "/" rsegs).
    apply Hnorm; [|reflexivity].
    rewrite fold_canonical by exact Hr. unfold segs. rewrite rev_involutive.
    subst pathname. reflexivity.
  - cbn [negb]. rewrite join_cons2.
    change ("/" +:+ join "/" [pathname]) with (String Path.sep pathname).
    apply Hnorm; [|reflexivity].
    rewrite split_app_sep, fold_left_app, fold_canonical by exact Hr.
    unfold segs. rewrite rev_involutive. reflexivity.
Qed.

(** X22: under a canonical absolute project directory, a pathname without
    [..] segment is never answered [403 Forbidden] by the static server: the
    file it reads is the project directory or a descendant of it. *)
Theorem static_plain_path_served (PROJECT_DIR pathname : string) :
  absolute_canonical PROJECT_DIR = true ->
  has_dotdot pathname = false ->
  exists filePath,
    serveStaticFile_filePath PROJECT_DIR pathname = Some filePath
    /\ inside PROJECT_DIR filePath = true.
Proof.
  intros Hcan Hdd.
  destruct (canonical_segments _ Hcan) as (rsegs & Hr & ->).
  unfold serveStaticFile_filePath.
  set (pn := if String.eqb pathname "/" then "/index.html" else pathname).
  assert (Hdd' : has_dotdot pn = false).
  { unfold pn. destruct (String.eqb pathname "/"); [reflexivity | exact Hdd]. }
  destruct (join_shape rsegs pn Hr) as (t & Ht & ->).
  destruct (norm_fold_no_dotdot (split Path.sep pn) (rev rsegs))
    as (new & Hnew & ->);
    [apply Forall_rev_proper, Hr | apply split_elems | exact Hdd' |].
  rewrite rev_app_distr, rev_involutive.
  assert (Hstarts : startsWith ("/" +:+ join "/" (rsegs ++ rev new) +:+ t)
                      ("/" +:+ join "/" rsegs) = true).
  { rewrite <- append_assoc. apply startsWith_app_r.
    change (startsWith (String "/" (join "/" (rsegs ++ rev new)))
              (String "/" (join "/" rsegs)) = true).
    cbn [startsWith]. rewrite Ascii.eqb_refl. apply join_app_starts. }
  rewrite Hstarts. cbn [negb]. eexists. split; [reflexivity|].
  unfold inside. rewrite segments_canonical by exact Hr.
  rewrite segments_trailing.
  - apply starts_with_segments_app.
  - apply Forall_app. split; [exact Hr | apply Forall_rev_proper, Hnew].
  - exact Ht.
Qed.

Lemma static_plain_path_served_witness :
  exists filePath,
    serveStaticFile_filePath "/srv/site" "/assets//./app.js" = Some filePath
    /\ inside "/srv/site" filePath = true.
Proof.
  apply (static_plain_path_served "/srv/site" "/assets//./app.js");
    reflexivity.
Defined.

(** X23: under a canonical absolute project directory, the file that the
    static server reads is the project directory, a descendant of it, or a
    path that leaves it through a sibling whose name extends the name of the
    project directory's last segment: the security check stops every other
    escape and lets this one through. *)
Theorem static_file_inside_or_sibling (PROJECT_DIR pathname filePath : string) :
  absolute_canonical PROJECT_DIR = true ->
  serveStaticFile_filePath PROJECT_DIR pathname = Some filePath ->
  inside PROJECT_DIR filePath = true
  \/ (exists parent name ext rest t,
        ext <> ""
        /\ PROJECT_DIR = "/" +:+ join "/" (parent ++ [name])
        /\ filePath
           = "/" +:+ join "/" (parent ++ (name +:+ ext) :: rest) +:+ t).
Proof.
  intros Hcan Hserved.
  destruct (canonical_segments _ Hcan) as (rsegs & Hr & ->).
  unfold serveStaticFile_filePath in Hserved.
  set (pn := if String.eqb pathname "/" then "/index.html" else pathname)
    in Hserved.
  destruct (join_shape rsegs pn Hr) as (t & Ht & Hj).
  rewrite Hj in Hserved.
  set (segs := rev (fold_left (Path.norm_step false)
                      (split Path.sep pn) (rev rsegs))) in *.
  assert (Hs : Forall (fun s => proper_segment s = true) segs).
  { apply Forall_rev_proper, norm_fold_keeps_proper;
      [apply Forall_rev_proper, Hr | apply split_elems]. }
  destruct (startsWith ("/" +:+ join "/" segs +:+ t) ("/" +:+ join "/" rsegs))
    eqn:Hin; [|discriminate].
  cbn [negb] in Hserved. injection Hserved as <-.
  assert (Hin' : startsWith (join "/" segs) (join "/" rsegs) = true).
  { change (startsWith (String "/" (join "/" segs +:+ t))
              (String "/" (join "/" rsegs)) = true) in Hin.
    cbn [startsWith] in Hin. apply andb_true_iff in Hin as [_ Hin].
    destruct Ht as [-> | ->].
    - rewrite append_nil_r in Hin. exact Hin.
    - apply startsWith_drop_sep; [apply endsWithSep_join, Hr | exact Hin]. }
  destruct (join_prefix_cases rsegs segs Hr Hs Hin')
    as [[c Hc] | (parent & name & ext & rest & Hext & Hpa & Hpb)].
  - left. unfold inside. rewrite segments_canonical by exact Hr.
    rewrite segments_trailing by assumption. rewrite Hc.
    apply starts_with_segments_app.
  - right. exists parent, name, ext, rest, t. rewrite Hpa, Hpb.
    repeat split; assumption || reflexivity.
Qed.

Lemma static_file_inside_or_sibling_witness :
  inside "/srv/site" "/srv/site-private/keys/" = true
  \/ (exists parent name ext rest t,
        ext <> ""
        /\ "/srv/site" = "/" +:+ join "/" (parent ++ [name])
        /\ "/srv/site-private/keys/"
           = "/" +:+ join "/" (parent ++ (name +:+ ext) :: rest) +:+ t).
Proof.
  apply (static_file_inside_or_sibling "/srv/site" "/../site-private/keys/"
           "/srv/site-private/keys/");
    reflexivity.
Defined.

(** X24: when [API_BASE] is the prefix of a [withfs] server and has no [?],
    [exists(path)] of the client is true exactly when the resolver accepts
    [path] and [fs.stat] succeeds on the resolved path; it is false for a
    path that the resolver rejects, whatever the file system holds. *)
Theorem client_exists_iff (BASE prefix path : string) (justFs : bool)
    (static : Request -> M World Response) (w : @World Ref.platform) :
  has_char "?" prefix = false ->
  (Client.exists_ (withfs_server BASE prefix justFs static) prefix path w).1
  = true
  <-> exists full stats fs',
        resolvePath BASE (Some (JStr path)) = ok full
        /\ fs_run Stats (fs_stat full) (fs w) = (ok stats, fs').
Proof.
  intros Hp. unfold Client.exists_, withfs_server.
  change (String.eqb (method (Client.stat prefix path)) "OPTIONS") with false.
  cbv iota.
  assert (Hst : startsWith (url (Client.stat prefix path)) prefix = true)
    by apply startsWith_app.
  rewrite Hst.
  assert (Hkey : handlerKey prefix (Client.stat prefix path) = "GET /stat").
  { apply (handlerKey_query prefix "/stat"
             ("path=" +:+ Js.encodeURIComponent path));
      [reflexivity | discriminate | reflexivity]. }
  assert (Hl : fsHandlers BASE !! handlerKey prefix (Client.stat prefix path)
               = Some (GET_stat BASE)) by (rewrite Hkey; reflexivity).
  rewrite (dispatch_found _ _ _ _ Hl).
  unfold try_catch, GET_stat.
  change (url (Client.stat prefix path))
    with (prefix +:+ "/stat" +:+ String "?"
            ("path=" +:+ Js.encodeURIComponent path)).
  rewrite (path_query prefix "/stat" path Hp eq_refl).
  cbn [fmap option_fmap option_map].
  destruct (resolvePath BASE (Some (JStr path))) as [e|full] eqn:Hres.
  - rewrite (bind_lift_throw _ e) by reflexivity.
    split; [intros H; cbn in H; discriminate|].
    intros (? & ? & ? & ? & _); discriminate.
  - rewrite (bind_lift_ok _ full) by reflexivity.
    unfold bind, call.
    destruct (fs_run Stats (fs_stat full) (fs w)) as [[e|stats] fs'] eqn:Hrun.
    + split; [intros H; cbn in H; discriminate|].
      intros (full' & stats & fs'' & Hfull & Hrun'). injection Hfull as Hfull.
      rewrite <- Hfull, Hrun in Hrun'. discriminate.
    + split; [|intros _; reflexivity]. intros _. exists full, stats, fs'.
      split; [reflexivity | exact Hrun].
Qed.

Lemma client_exists_iff_witness :
  (Client.exists_
     (withfs_server Scenario.BASE_DIR Scenario.apiPrefix true
        (fun _ => ret justfs_not_found))
     Scenario.apiPrefix "../data2/secret" Scenario.w0).1 = true
  <-> exists full stats fs',
        resolvePath Scenario.BASE_DIR (Some (JStr "../data2/secret")) = ok full
        /\ fs_run Stats (fs_stat full) (fs Scenario.w0) = (ok stats, fs').
Proof.
  apply (client_exists_iff Scenario.BASE_DIR Scenario.apiPrefix
           "../data2/secret" true). reflexivity.
Defined.

(** ** What the client returns *)

Lemma withfs_routed (BASE prefix : string) (justFs : bool)
    (static : Request -> M World Response) (req : Request) (h : Handler)
    (w : @World Ref.platform) :
  String.eqb (method req) "OPTIONS" = false ->
  startsWith (url req) prefix = true ->
  createFsHandlers BASE !! handlerKey prefix req = Some h ->
  (withfs_server BASE prefix justFs static req w).1
  = with_cors (try_catch (h req) internal_error w).1.
Proof.
  intros Hm Hp Hl. unfold withfs_server. rewrite Hm, Hp.
  unfold fsHandlers. rewrite (dispatch_found _ _ _ _ Hl).
  destruct (try_catch (h req) internal_error w). reflexivity.
Qed.

Lemma call_returns {A B} (c : FsCall A) (x : A) (k : A -> M World B)
    (w : @World Ref.platform) fs' :
  fs_run A c (fs w) = (ok x, fs') ->
  bind (call c) k w = k x {| fs := fs'; calls := calls w ++ [Call c] |}.
Proof. intros Hrun. unfold bind, call. rewrite Hrun. reflexivity. Qed.




(** X26: under the same conditions and when the encoding is not empty and
    needs no percent-escaping, [readFile(path, options)] of the client
    returns the text that [fs.readFile] returned for the resolved path and
    the encoding derived from [options], and [readdir(path, options)]
    returns the listing that [fs.readdir] returned.  The empty encoding, which
    only [readFile(path, '')] sends, is left out: with it [fs.readFile]
    resolves to a [Buffer] and not to a text. *)
Theorem client_read_results (BASE prefix path full : string)
    (justFs : bool) (static : Request -> M World Response)
    (options : Client.ReadOptions) (withFileTypes : option JSON)
    (w : @World Ref.platform) :
  has_char "?" prefix = false ->
  Js.encodeURIComponent (Client.encoding_of options)
  = Client.encoding_of options ->
  Client.encoding_of options <> "" ->
  Js.encodeURIComponent (Client.withFileTypes_text withFileTypes)
  = Client.withFileTypes_text withFileTypes ->
  resolvePath BASE (Some (JStr path)) = ok full ->
  let server := withfs_server BASE prefix justFs static in
  (forall data fs',
     fs_run string (fs_readFile full (Client.encoding_of options)) (fs w)
     = (ok data, fs') ->
     Client.returned "data"
       (server (Client.readFile prefix path options) w).1
     = Some (Some (JStr data)))
  /\ (forall files fs',
        fs_run JSON
          (fs_readdir full
             (String.eqb (Client.withFileTypes_text withFileTypes) "true"))
          (fs w)
        = (ok files, fs') ->
        Client.returned "files"
          (server (Client.readdir prefix path withFileTypes) w).1
        = Some (Some files)).
Proof.
  intros Hp He Hne Hf Hres server. split.
  - intros data fs' Hrun. unfold server.
    rewrite (withfs_routed BASE prefix justFs static _ (GET_readFile BASE));
      [|reflexivity | apply startsWith_app|].
    2:{ rewrite (handlerKey_query prefix "/readFile"
                   (("path=" +:+ Js.encodeURIComponent path)
                    +:+ String "&" ("encoding" +:+ String "="
                                      (Client.encoding_of options))));
          [reflexivity | reflexivity | discriminate | reflexivity]. }
    destruct (two_param_query prefix "/readFile" path "encoding"
                (Client.encoding_of options))
      as [Hqp Hqe]; try reflexivity; try assumption; try discriminate.
    unfold try_catch, GET_readFile.
    change (url (Client.readFile prefix path options))
      with (prefix +:+ "/readFile" +:+ String "?"
              (("path=" +:+ Js.encodeURIComponent path)
               +:+ String "&" ("encoding" +:+ String "="
                                 (Client.encoding_of options)))).
    rewrite Hqp, Hqe. cbn [fmap option_fmap option_map default_to].
    rewrite (bind_lift_ok _ _ _ _ Hres), (call_returns _ _ _ _ _ Hrun).
    reflexivity.
  - intros files fs' Hrun. unfold server.
    rewrite (withfs_routed BASE prefix justFs static _ (GET_readdir BASE));
      [|reflexivity | apply startsWith_app|].
    2:{ rewrite (handlerKey_query prefix "/readdir"
                   (("path=" +:+ Js.encodeURIComponent path)
                    +:+ String "&" ("withFileTypes" +:+ String "="
                                      (Client.withFileTypes_text
                                         withFileTypes))));
          [reflexivity | reflexivity | discriminate | reflexivity]. }
    destruct (two_param_query prefix "/readdir" path "withFileTypes"
                (Client.withFileTypes_text withFileTypes))
      as [Hqp Hqe]; try reflexivity; try assumption; try discriminate.
    unfold try_catch, GET_readdir.
    change (url (Client.readdir prefix path withFileTypes))
      with (prefix +:+ "/readdir" +:+ String "?"
              (("path=" +:+ Js.encodeURIComponent path)
               +:+ String "&" ("withFileTypes" +:+ String "="
                                 (Client.withFileTypes_text withFileTypes)))).
    rewrite Hqp, Hqe. cbn [default_to].
    rewrite (bind_lift_ok _ _ _ _ Hres), (call_returns _ _ _ _ _ Hrun).
    reflexivity.
Qed.

Lemma client_read_results_witness :
  Client.returned "data"
    (withfs_server Scenario.BASE_DIR Scenario.apiPrefix true
       (fun _ => ret justfs_not_found)
       (Client.readFile Scenario.apiPrefix "../data2/secret"
          Client.NoOptions)
       Scenario.w0).1
  = Some (Some (JStr "top secret")).
Proof.
  apply (proj1 (client_read_results Scenario.BASE_DIR Scenario.apiPrefix
                  "../data2/secret" "/srv/data2/secret" true
                  (fun _ => ret justfs_not_found) Client.NoOptions None
                  Scenario.w0 eq_refl eq_refl ltac:(discriminate) eq_refl
                  eq_refl)
           "top secret" (fs Scenario.w0)).
  reflexivity.
Defined.

(** ** The properties at concrete inputs *)

Lemma one_confined_call_witness :
  exists new,
    calls (GET_readFile Scenario.BASE_DIR Scenario.read_sibling Scenario.w0).2
    = calls Scenario.w0 ++ new
    /\ length new <= 1
    /\ confined Scenario.BASE_DIR new.
Proof.
  apply (one_confined_call Scenario.BASE_DIR "GET /readFile"). reflexivity.
Defined.

Lemma api_answers_witness :
  exists r w',
    Scenario.middleware Scenario.read_escaping Scenario.w0 = (Answered r, w')
    /\ (method Scenario.read_escaping <> "OPTIONS" ->
        Scenario.server Scenario.read_escaping Scenario.w0 = (with_cors r, w'))
    /\ json_shaped r
    /\ (status r = 200%Z
        \/ (status r = 400%Z \/ status r = 404%Z)
           /\ calls w' = calls Scenario.w0
        \/ status r = 500%Z).
Proof.
  apply (api_answers Scenario.BASE_DIR Scenario.apiPrefix true
           (fun _ => ret justfs_not_found) Scenario.read_escaping Scenario.w0).
  reflexivity.
Defined.

Lemma entry_points_confined_witness :
  exists new,
    calls (withfs_main Cli.initial (fun _ => ret justfs_not_found)
             Scenario.read_sibling Scenario.w0).2
    = calls Scenario.w0 ++ new
    /\ length new <= 1
    /\ confined (Cli.BASE_DIR cwd Cli.initial) new.
Proof.
  apply (proj1 (entry_points_confined Cli.initial
                  {| Plugin.baseDir := None; Plugin.apiPrefix := None |}
                  (fun _ => ret justfs_not_found)
                  Scenario.read_sibling Scenario.w0)).
  left. reflexivity.
Defined.

Lemma options_read_in_order_witness :
  Cli.parseArgs Js.parseInt
    ["--port"; "8080"; "dist"; "-b"; ""; "-h"; "example.org"; "-p"; "x";
     "--host"] Cli.initial
  = Some {| Cli.projectDir := "dist"; Cli.host := "0.0.0.0";
            Cli.port := 3000; Cli.baseDir := "./data";
            Cli.apiPrefix := "/api/fs"; Cli.openBrowser := false;
            Cli.justFs := false |}.
Proof.
  destruct (options_read_in_order Js.parseInt
              [Cli.Port "--port" "8080"; Cli.ProjectDir "dist";
               Cli.BaseDir "-b" ""; Cli.Host "-h" "example.org";
               Cli.Port "-p" "x"]
              [] Cli.initial) as (_ & _ & Hhost & _).
  - repeat constructor; discriminate.
  - apply (List.Forall_inv Hhost).
Defined.

Lemma parsed_options_usable_witness :
  let o := {| Cli.projectDir := "dist"; Cli.host := "0.0.0.0";
              Cli.port := 3000; Cli.baseDir := "./data";
              Cli.apiPrefix := "/api/fs"; Cli.openBrowser := false;
              Cli.justFs := true |} in
  Cli.usable o
  /\ Cli.defaults_or_given Js.parseInt
       ["dist"; "--port"; "0"; "-h"; "--justfs"; "--base-dir"; "";
        "--api-prefix"] o.
Proof.
  apply (parsed_options_usable Js.parseInt
           ["dist"; "--port"; "0"; "-h"; "--justfs"; "--base-dir"; "";
            "--api-prefix"]).
  reflexivity.
Defined.

Lemma key_ignores_query_witness :
  handlerKey "/api/fs" (Client.get "/api/fs")
  = "GET /"
  /\ handlerKey "/api/fs" (Client.get "/api/fs/stat?path=a?b")
     = "GET /stat".
Proof.
  split.
  - apply (proj1 (key_ignores_query "/api/fs" "" ""
                    (Client.get "/api/fs") eq_refl)).
    reflexivity.
  - apply (proj2 (key_ignores_query "/api/fs" "/stat" "path=a?b"
                    (Client.get "/api/fs/stat?path=a?b") eq_refl)).
    reflexivity.
Defined.

Lemma missing_path_throws_witness :
  GET_stat Scenario.BASE_DIR (Client.get "/api/fs/stat?file=a.txt")
    Scenario.w0
  = (throw (startsWith_TypeError None), Scenario.w0).
Proof.
  apply (proj1 (missing_path_throws Scenario.BASE_DIR
                  (Client.get "/api/fs/stat?file=a.txt") Scenario.w0)).
  reflexivity.
Defined.

Lemma write_answers_witness :
  (exists fp full data ty,
     decodeBody Cases.write_text = ok (Payload fp data ty)
     /\ data <> []
     /\ resolvePath Scenario.BASE_DIR fp = ok full
     /\ calls (POST_writeFile Scenario.BASE_DIR Cases.write_text
                 Scenario.w0).2
        = calls Scenario.w0 ++ [Call (fs_writeFile full data)]
     /\ json_response 200
          (JObj [("message", JStr "File written successfully");
                 ("path", JStr "a.txt"); ("type", JStr "text");
                 ("size", JNum 2)])
        = json_response 200
            (written_body "File written successfully" fp ty data))
  /\ (exists fp full data ty,
        decodeBody Cases.append_text = ok (Payload fp data ty)
        /\ data <> []
        /\ resolvePath Scenario.BASE_DIR fp = ok full
        /\ calls (POST_appendFile Scenario.BASE_DIR Cases.append_text
                    Scenario.w0).2
           = calls Scenario.w0 ++ [Call (fs_appendFile full data)]
        /\ json_response 200
             (JObj [("message", JStr "Data appended successfully");
                    ("path", JStr "a.txt"); ("type", JStr "text");
                    ("size", JNum 2)])
           = json_response 200
               (written_body "Data appended successfully" fp ty data)).
Proof.
  split.
  - destruct (proj1 (write_answers Scenario.BASE_DIR Cases.write_text
                       Scenario.w0
                       (POST_writeFile Scenario.BASE_DIR Cases.write_text
                          Scenario.w0).2
                       (json_response 200
                          (JObj [("message", JStr "File written successfully");
                                 ("path", JStr "a.txt"); ("type", JStr "text");
                                 ("size", JNum 2)]))))
      as [[H400 _] | H200].
    + apply pair_fst. vm_compute. reflexivity.
    + discriminate H400.
    + exact H200.
  - destruct (proj2 (write_answers Scenario.BASE_DIR Cases.append_text
                       Scenario.w0
                       (POST_appendFile Scenario.BASE_DIR Cases.append_text
                          Scenario.w0).2
                       (json_response 200
                          (JObj [("message", JStr "Data appended successfully");
                                 ("path", JStr "a.txt"); ("type", JStr "text");
                                 ("size", JNum 2)]))))
      as [[H400 _] | H200].
    + apply pair_fst. vm_compute. reflexivity.
    + discriminate H400.
    + exact H200.
Defined.

Lemma client_path_reaches_handler_witness :
  Forall (fun '(build, route) =>
            handlerKey "/api/fs" (build "/api/fs" "notes/a b?.txt")
            = "GET " +:+ route
            /\ @parseQuery Ref.platform
                 (url (build "/api/fs" "notes/a b?.txt")) !! "path"
               = Some "notes/a b?.txt")
    [(Client.stat, "/stat"); (Client.lstat, "/lstat");
     (Client.realpath, "/realpath"); (Client.readlink, "/readlink")].
Proof.
  apply (client_path_reaches_handler "/api/fs" "notes/a b?.txt").
  reflexivity.
Defined.

Lemma client_readFile_reaches_primitive_witness :
  handlerKey "/api/fs"
    (Client.readFile "/api/fs" "notes/a&b.txt" (Client.WithEncoding None))
  = "GET /readFile"
  /\ calls (GET_readFile Scenario.BASE_DIR
              (Client.readFile "/api/fs" "notes/a&b.txt"
                 (Client.WithEncoding None))
              Scenario.w0).2
     = calls Scenario.w0
       ++ [Call (fs_readFile "/srv/data/notes/a&b.txt" "utf8")].
Proof.
  apply (client_readFile_reaches_primitive "/api/fs" Scenario.BASE_DIR
           "notes/a&b.txt" "/srv/data/notes/a&b.txt"
           (Client.WithEncoding None) Scenario.w0);
    reflexivity.
Defined.

Lemma client_readdir_flag_witness :
  handlerKey "/api/fs" (Client.readdir "/api/fs" "" (Some (JNum 1)))
  = "GET /readdir"
  /\ calls (GET_readdir Scenario.BASE_DIR
              (Client.readdir "/api/fs" "" (Some (JNum 1))) Scenario.w0).2
     = calls Scenario.w0
       ++ [Call (fs_readdir "/srv/data" false)].
Proof.
  apply (client_readdir_flag "/api/fs" Scenario.BASE_DIR "" "/srv/data"
           (Some (JNum 1)) Scenario.w0);
    reflexivity.
Defined.

Lemma client_write_stores_body_witness :
  (forall req,
     Client.writeFile "/api/fs" "data.json" (Client.Object Scenario.john)
     = ok req ->
     handlerKey "/api/fs" req = "POST /writeFile"
     /\ calls (POST_writeFile Scenario.BASE_DIR req Scenario.w0).2
        = calls Scenario.w0
          ++ [Call (fs_writeFile "/srv/data/data.json"
                      (list_byte_of_string
                         (Ref.dq "{'name':'John','age':30}")))])
  /\ (forall req,
        Client.appendFile "/api/fs" "data.json" (Client.Object Scenario.john)
        = ok req ->
        handlerKey "/api/fs" req = "POST /appendFile"
        /\ calls (POST_appendFile Scenario.BASE_DIR req Scenario.w0).2
           = calls Scenario.w0
             ++ [Call (fs_appendFile "/srv/data/data.json"
                         (Client.body_of (Client.Object Scenario.john)))]).
Proof.
  apply (client_write_stores_body "/api/fs" Scenario.BASE_DIR "data.json"
           "/srv/data/data.json" (Client.Object Scenario.john) Scenario.w0);
    [reflexivity | discriminate | discriminate | reflexivity].
Defined.

Lemma client_rm_flags_witness :
  handlerKey "/api/fs" (Client.rm "/api/fs" "old" None (Some (JBool true)))
  = "DELETE /rm"
  /\ calls (DELETE_rm Scenario.BASE_DIR
           (Client.rm "/api/fs" "old" None (Some (JBool true)))
           Scenario.w0).2
  = calls Scenario.w0
    ++ [Call (fs_rm "/srv/data/old" (JBool false) (JBool true))]
  /\ (truthy None = false -> Client.or_false None = JBool false)
  /\ (truthy (Some (JBool true)) = false ->
      Client.or_false (Some (JBool true)) = JBool false).
Proof.
  apply (client_rm_flags "/api/fs" Scenario.BASE_DIR "old" "/srv/data/old"
           None (Some (JBool true)) Scenario.w0);
    reflexivity.
Defined.

Lemma client_mkdir_recursive_by_default_witness :
  handlerKey "/api/fs" (Client.mkdir "/api/fs" "a/b/c" None) = "POST /mkdir"
  /\ calls (POST_mkdir Scenario.BASE_DIR (Client.mkdir "/api/fs" "a/b/c" None)
           Scenario.w0).2
  = calls Scenario.w0 ++ [Call (fs_mkdir "/srv/data/a/b/c" (JBool true))].
Proof.
  apply (client_mkdir_recursive_by_default "/api/fs" Scenario.BASE_DIR
           "a/b/c" "/srv/data/a/b/c" None Scenario.w0);
    reflexivity.
Defined.

Lemma client_rmdir_unlink_witness :
  (handlerKey "/api/fs" (Client.rmdir "/api/fs" "tmp" (Some (JNum 0)))
   = "DELETE /rmdir"
   /\ calls (DELETE_rmdir Scenario.BASE_DIR
               (Client.rmdir "/api/fs" "tmp" (Some (JNum 0))) Scenario.w0).2
      = calls Scenario.w0 ++ [Call (fs_rmdir "/srv/data/tmp" (JBool false))])
  /\ (handlerKey "/api/fs" (Client.unlink "/api/fs" "tmp") = "DELETE /unlink"
      /\ calls (DELETE_unlink Scenario.BASE_DIR
                  (Client.unlink "/api/fs" "tmp") Scenario.w0).2
         = calls Scenario.w0 ++ [Call (fs_unlink "/srv/data/tmp")]).
Proof.
  apply (client_rmdir_unlink "/api/fs" Scenario.BASE_DIR "tmp"
           "/srv/data/tmp" (Some (JNum 0)) Scenario.w0);
    reflexivity.
Defined.

Lemma client_copy_rename_witness :
  (handlerKey "/api/fs" (Client.copyFile "/api/fs" "a.txt" "/b/a.txt" None)
   = "POST /copyFile"
   /\ calls (POST_copyFile Scenario.BASE_DIR
               (Client.copyFile "/api/fs" "a.txt" "/b/a.txt" None)
               Scenario.w0).2
      = calls Scenario.w0
        ++ [Call (fs_copyFile "/srv/data/a.txt" "/srv/data/b/a.txt"
                    (JNum 0))])
  /\ (handlerKey "/api/fs" (Client.rename "/api/fs" "a.txt" "/b/a.txt")
      = "PUT /rename"
      /\ calls (PUT_rename Scenario.BASE_DIR
                  (Client.rename "/api/fs" "a.txt" "/b/a.txt") Scenario.w0).2
         = calls Scenario.w0
           ++ [Call (fs_rename "/srv/data/a.txt" "/srv/data/b/a.txt")]).
Proof.
  apply (client_copy_rename "/api/fs" Scenario.BASE_DIR "a.txt" "/b/a.txt"
           "/srv/data/a.txt" "/srv/data/b/a.txt" None Scenario.w0);
    reflexivity.
Defined.
